(** * Ghostty to PhpStorm theme converter: a shallow embedding

    The development follows [ghostty-to-phpstorm.py].  Python strings are
    modelled as [string] (one [ascii] per character), Python integers as
    [Z], Python floats as the kernel's binary64 floats ([PrimFloat]), the
    palette dictionary as a [gmap Z string], and a raised exception as the
    [Raise] outcome of a small error monad.

    Characters beyond ASCII are carried through unchanged: they are not
    white space, digits or cased letters here, whereas Python also knows
    the Unicode ones.  Python's limit on the number of digits that [int]
    accepts is not modelled. *)

From Stdlib Require Import ZArith Ascii String List Bool Lia.
From Stdlib Require Import Floats Uint63.
From Stdlib Require Import Reals Lra Psatz.
From stdpp Require Import base option gmap strings.
Import ListNotations.

Set Warnings "-inexact-float,-register-all".

Local Open Scope string_scope.
Local Open Scope Z_scope.

(** ** Exceptions *)

Inductive exn : Type :=
| ValueError
| ZeroDivisionError
| OverflowError
| UnicodeEncodeError
| ExpatError.

Inductive result (A : Type) : Type :=
| Ok (a : A)
| Raise (e : exn).
Arguments Ok {A} a.
Arguments Raise {A} e.

Definition bind {A B} (r : result A) (k : A -> result B) : result B :=
  match r with
  | Ok a => k a
  | Raise e => Raise e
  end.

Notation "'let*' x ':=' r 'in' k" := (bind r (fun x => k))
  (at level 10, x pattern, r at level 100, k at level 200).

Definition map_result {A B} (f : A -> B) (r : result A) : result B :=
  let* a := r in Ok (f a).

Definition succeeds {A} (r : result A) : Prop := exists a, r = Ok a.

(** ** Python string primitives *)

Module Py.

(** [str.isspace] on one ASCII character, as [str.strip] uses it. *)
Definition is_space (c : ascii) : bool :=
  let n := N_of_ascii c in
  ((9 <=? n) && (n <=? 13) || (28 <=? n) && (n <=? 32))%N.

(** C's [isspace], as [int] uses it on an ASCII string. *)
Definition is_c_space (c : ascii) : bool :=
  let n := N_of_ascii c in
  ((9 <=? n) && (n <=? 13) || (n =? 32))%N.

Fixpoint lstrip_space (s : string) : string :=
  match s with
  | String c s' => if is_space c then lstrip_space s' else s
  | EmptyString => s
  end.

Fixpoint skip_c_space (s : string) : string :=
  match s with
  | String c s' => if is_c_space c then skip_c_space s' else s
  | EmptyString => s
  end.

(** Drops trailing white space: the result keeps a character when it or
    something after it is not white space. *)
Fixpoint rstrip_space (s : string) : string :=
  match s with
  | String c s' =>
      match rstrip_space s' with
      | EmptyString => if is_space c then EmptyString else String c EmptyString
      | r => String c r
      end
  | EmptyString => EmptyString
  end.

(** [s.strip()] *)
Definition strip (s : string) : string := rstrip_space (lstrip_space s).

(** [s.lstrip(ch)] for a one-character argument. *)
Fixpoint lstrip_char (ch : ascii) (s : string) : string :=
  match s with
  | String c s' => if Ascii.eqb c ch then lstrip_char ch s' else s
  | EmptyString => s
  end.

(** [s.startswith(ch)] for a one-character argument. *)
Definition startswith_char (ch : ascii) (s : string) : bool :=
  match s with
  | String c _ => Ascii.eqb c ch
  | EmptyString => false
  end.

(** [ch in s] *)
Fixpoint contains_char (ch : ascii) (s : string) : bool :=
  match s with
  | String c s' => Ascii.eqb c ch || contains_char ch s'
  | EmptyString => false
  end.

(** [s.split(ch, 1)]: [None] stands for the one-element list [[s]], and
    [Some (a, b)] for the two-element list [[a, b]] cut at the first [ch]. *)
Fixpoint split1 (ch : ascii) (s : string) : option (string * string) :=
  match s with
  | String c s' =>
      if Ascii.eqb c ch then Some (EmptyString, s')
      else match split1 ch s' with
           | Some (a, b) => Some (String c a, b)
           | None => None
           end
  | EmptyString => None
  end.

(** [s[i:j]] for [0 <= i <= j]. *)
Definition slice (i j : nat) (s : string) : string := substring i (j - i) s.

Definition upper_char (c : ascii) : ascii :=
  let n := N_of_ascii c in
  if ((97 <=? n) && (n <=? 122))%N then ascii_of_N (n - 32) else c.

Definition lower_char (c : ascii) : ascii :=
  let n := N_of_ascii c in
  if ((65 <=? n) && (n <=? 90))%N then ascii_of_N (n + 32) else c.

(** [s.upper()] and [s.lower()] *)
Fixpoint upper (s : string) : string :=
  match s with
  | String c s' => String (upper_char c) (upper s')
  | EmptyString => EmptyString
  end.

Fixpoint lower (s : string) : string :=
  match s with
  | String c s' => String (lower_char c) (lower s')
  | EmptyString => EmptyString
  end.

(** [s.replace(a, b)] for one-character [a] and [b]. *)
Fixpoint replace_char (a b : ascii) (s : string) : string :=
  match s with
  | String c s' => String (if Ascii.eqb c a then b else c) (replace_char a b s')
  | EmptyString => EmptyString
  end.

(** The value of a digit of [int(s, base)]: [0-9], [a-z], [A-Z]. *)
Definition digit_value (c : ascii) : option Z :=
  let n := Z.of_N (N_of_ascii c) in
  if (48 <=? n) && (n <=? 57) then Some (n - 48)
  else if (97 <=? n) && (n <=? 122) then Some (n - 87)
  else if (65 <=? n) && (n <=? 90) then Some (n - 55)
  else None.

(** The digits of an integer literal, with single underscores allowed
    between digits.  [prev_us] says that the previous character was an
    underscore; [acc] is the value read so far.  Returns the value and the
    unread rest, which starts at the first character that is neither a
    digit of the base nor an underscore. *)
Fixpoint scan_digits (base : Z) (prev_us : bool) (acc : Z) (ndigits : nat)
    (s : string) : option (Z * nat * string) :=
  match s with
  | String c s' =>
      if Ascii.eqb c "_" then
        if prev_us then None else scan_digits base true acc ndigits s'
      else
        match digit_value c with
        | Some d =>
            if d <? base then scan_digits base false (acc * base + d) (S ndigits) s'
            else if prev_us then None else Some (acc, ndigits, s)
        | None => if prev_us then None else Some (acc, ndigits, s)
        end
  | EmptyString => if prev_us then None else Some (acc, ndigits, s)
  end.

Definition skip_hex_prefix (base : Z) (s : string) : string :=
  match s with
  | String "0" (String x s') =>
      if (base =? 16) && (Ascii.eqb x "x" || Ascii.eqb x "X") then
        match s' with
        | String "_" s'' => s''
        | _ => s'
        end
      else s
  | _ => s
  end.

(** [int(s, base)] for base 10 or 16: white space around, an optional
    sign, for base 16 an optional [0x], then the digits.  Anything else
    raises [ValueError]. *)
Definition int (base : Z) (s : string) : result Z :=
  let s := skip_c_space s in
  let '(neg, s) :=
    match s with
    | String "+" s' => (false, s')
    | String "-" s' => (true, s')
    | _ => (false, s)
    end in
  let s := skip_hex_prefix base s in
  if startswith_char "_" s then Raise ValueError else
  match scan_digits base false 0 0 s with
  | Some (v, nd, rest) =>
      match nd, skip_c_space rest with
      | S _, EmptyString => Ok (if neg then - v else v)
      | _, _ => Raise ValueError
      end
  | None => Raise ValueError
  end.

(** One hexadecimal digit of [format(n, 'x')]. *)
Definition hex_digit (d : Z) : ascii :=
  if d <? 10 then ascii_of_N (Z.to_N (48 + d)) else ascii_of_N (Z.to_N (87 + d)).

Fixpoint hex_digits_fuel (fuel : nat) (n : Z) (acc : string) : string :=
  match fuel with
  | O => acc
  | S k =>
      let acc := String (hex_digit (n mod 16)) acc in
      if n / 16 =? 0 then acc else hex_digits_fuel k (n / 16) acc
  end.

(** [format(n, 'x')] for [0 <= n]: as many digits as [n] has bits is fuel
    enough. *)
Definition hex_nat (n : Z) : string :=
  hex_digits_fuel (S (Z.to_nat (Z.log2 n))) n EmptyString.

(** [format(n, '02x')]: lower-case hexadecimal, a sign for a negative
    number, padded with zeros after the sign to two characters. *)
Definition format_02x (n : Z) : string :=
  if n <? 0 then
    let d := hex_nat (- n) in
    String "-" (if (String.length d <? 1)%nat then String "0" d else d)
  else
    let d := hex_nat n in
    if (String.length d <? 2)%nat then String "0" d else d.

End Py.

(** ** Python floats *)

Module PyFloat.

Local Open Scope float_scope.

(** [float(n)] for an integer: exact below [2^53] in magnitude, which
    covers every integer the converter turns into a float (two
    hexadecimal digits with an optional sign). *)
Definition of_int (n : Z) : float :=
  if (n <? 0)%Z then - of_uint63 (Uint63.of_Z (- n)) else of_uint63 (Uint63.of_Z n).

(** The integer part of a finite float, rounded towards zero. *)
Definition trunc_Z (x : float) : option Z :=
  match Prim2SF x with
  | S754_zero _ => Some 0%Z
  | S754_finite s m e =>
      let mag := if (0 <=? e)%Z then (Zpos m * 2 ^ e)%Z else (Zpos m / 2 ^ (- e))%Z in
      Some (if s then (- mag)%Z else mag)
  | S754_infinity _ | S754_nan => None
  end.

(** [int(x)]: [ValueError] on a NaN, [OverflowError] on an infinity. *)
Definition to_int (x : float) : result Z :=
  match trunc_Z x with
  | Some n => Ok n
  | None => if is_nan x then Raise ValueError else Raise OverflowError
  end.

(** [x / y]: Python raises on a zero divisor. *)
Definition div (x y : float) : result float :=
  if y =? 0 then Raise ZeroDivisionError else Ok (x / y).

(** C's [fmod(x, 1.0)]: [x] minus its integer part, which is exact, and a
    NaN when [x] is not finite. *)
Definition fmod1 (x : float) : float :=
  match trunc_Z x with
  | Some n => x - of_int n
  | None => nan
  end.

(** [x % 1.0]: the remainder takes the sign of the divisor. *)
Definition mod1 (x : float) : float :=
  let m := fmod1 x in
  if m =? 0 then 0 else if m <? 0 then m + 1 else m.

(** [max(a, b)] and [min(a, b)] keep the first argument unless the second
    is strictly beyond it. *)
Definition max2 (a b : float) : float := if a <? b then b else a.
Definition min2 (a b : float) : float := if b <? a then b else a.
Definition max3 (a b c : float) : float := max2 (max2 a b) c.
Definition min3 (a b c : float) : float := min2 (min2 a b) c.

(** [max(0, min(1, x))] *)
Definition clamp01 (x : float) : float := max2 0 (min2 1 x).

End PyFloat.

(** ** Python's colorsys module *)

Module colorsys.

Local Open Scope float_scope.

Definition rgb_to_hsv (r g b : float) : result (float * float * float) :=
  let maxc := PyFloat.max3 r g b in
  let minc := PyFloat.min3 r g b in
  let rangec := maxc - minc in
  let v := maxc in
  if minc =? maxc then Ok (0, 0, v) else
  let* s := PyFloat.div rangec maxc in
  let* rc := PyFloat.div (maxc - r) rangec in
  let* gc := PyFloat.div (maxc - g) rangec in
  let* bc := PyFloat.div (maxc - b) rangec in
  let h :=
    if r =? maxc then bc - gc
    else if g =? maxc then 2 + rc - bc
    else 4 + gc - rc in
  let h := PyFloat.mod1 (h / 6) in
  Ok (h, s, v).

Definition hsv_to_rgb (h s v : float) : result (float * float * float) :=
  if s =? 0 then Ok (v, v, v) else
  let* i := PyFloat.to_int (h * 6) in
  let f := h * 6 - PyFloat.of_int i in
  let p := v * (1 - s) in
  let q := v * (1 - s * f) in
  let t := v * (1 - s * (1 - f)) in
  let i := (i mod 6)%Z in
  if (i =? 0)%Z then Ok (v, t, p)
  else if (i =? 1)%Z then Ok (q, v, p)
  else if (i =? 2)%Z then Ok (p, v, t)
  else if (i =? 3)%Z then Ok (p, q, v)
  else if (i =? 4)%Z then Ok (t, p, v)
  else Ok (v, p, q).

End colorsys.

(** ** The theme record *)

Record GhosttyTheme : Type := {
  name : string;
  palette : gmap Z string;
  background : string;
  foreground : string;
  cursor_color : string;
  cursor_text : string;
  selection_background : string;
  selection_foreground : string;
}.

(** [GhosttyTheme(name)] *)
Definition new_theme (name : string) : GhosttyTheme := {|
  name := name;
  palette := ∅;
  background := "#000000";
  foreground := "#ffffff";
  cursor_color := "#ffffff";
  cursor_text := "#000000";
  selection_background := "#ffffff";
  selection_foreground := "#000000";
|}.

(** [[int(hex_color[i:i+2], 16) for i in (0, 2, 4)]] *)
Definition hex_channels (hex_color : string) : result (Z * Z * Z) :=
  let* r := Py.int 16 (Py.slice 0 2 hex_color) in
  let* g := Py.int 16 (Py.slice 2 4 hex_color) in
  let* b := Py.int 16 (Py.slice 4 6 hex_color) in
  Ok (r, g, b).

(** [[int(hex_color[i:i+2], 16) / 255.0 for i in (0, 2, 4)]] *)
Definition unit_channels (hex_color : string) : result (float * float * float) :=
  let* (r, g, b) := hex_channels hex_color in
  Ok ((PyFloat.of_int r / 255)%float, (PyFloat.of_int g / 255)%float,
      (PyFloat.of_int b / 255)%float).

(** [f"#{r:02x}{g:02x}{b:02x}"] *)
Definition format_color (r g b : Z) : string :=
  String "#" (Py.format_02x r ++ Py.format_02x g ++ Py.format_02x b)%string.

(** [palette.get(k, d)] *)
Definition palette_get (p : gmap Z string) (k : Z) (d : string) : string :=
  default d (p !! k).

Section Converter.

(** Python's float power [x ** y], which the C library computes, is left
    open.  The converter only raises positive numbers to the power 2.4. *)
Variable pow : float -> float -> float.

Local Open Scope float_scope.

Definition to_linear (c : float) : float :=
  if c <=? 0.03928 then c / 12.92 else pow ((c + 0.055) / 1.055) 2.4.

(** [GhosttyTheme._get_luminance] *)
Definition _get_luminance (hex_color : string) : result float :=
  let hex_color := Py.lstrip_char "#" hex_color in
  let* (r, g, b) := unit_channels hex_color in
  let r_lin := to_linear r in
  let g_lin := to_linear g in
  let b_lin := to_linear b in
  Ok (0.2126 * r_lin + 0.7152 * g_lin + 0.0722 * b_lin).

(** [GhosttyTheme.is_dark] *)
Definition is_dark (t : GhosttyTheme) : result bool :=
  let* l := _get_luminance (background t) in
  Ok (l <? 0.5).

End Converter.

(** ** ColorDerivator *)

Module ColorDerivator.

Local Open Scope float_scope.

Definition rgb_string (rgb : float * float * float) : result string :=
  let '(r, g, b) := rgb in
  let* r' := PyFloat.to_int (r * 255) in
  let* g' := PyFloat.to_int (g * 255) in
  let* b' := PyFloat.to_int (b * 255) in
  Ok (format_color r' g' b').

Definition adjust_brightness (hex_color : string) (factor : float) : result string :=
  let hex_color := Py.lstrip_char "#" hex_color in
  let* (r, g, b) := unit_channels hex_color in
  let* (h, s, v) := colorsys.rgb_to_hsv r g b in
  let v := PyFloat.clamp01 (v + factor) in
  let* rgb := colorsys.hsv_to_rgb h s v in
  rgb_string rgb.

Definition adjust_saturation (hex_color : string) (factor : float) : result string :=
  let hex_color := Py.lstrip_char "#" hex_color in
  let* (r, g, b) := unit_channels hex_color in
  let* (h, s, v) := colorsys.rgb_to_hsv r g b in
  let s := PyFloat.clamp01 (s + factor) in
  let* rgb := colorsys.hsv_to_rgb h s v in
  rgb_string rgb.

(** One channel of [blend_colors]: [int(c1 * (1 - ratio) + c2 * ratio)] *)
Definition blend_channel (c1 c2 : Z) (ratio : float) : result Z :=
  PyFloat.to_int (PyFloat.of_int c1 * (1 - ratio) + PyFloat.of_int c2 * ratio).

Definition blend_colors (color1 color2 : string) (ratio : float) : result string :=
  let c1 := Py.lstrip_char "#" color1 in
  let c2 := Py.lstrip_char "#" color2 in
  let* (r1, g1, b1) := hex_channels c1 in
  let* (r2, g2, b2) := hex_channels c2 in
  let* r := blend_channel r1 r2 ratio in
  let* g := blend_channel g1 g2 ratio in
  let* b := blend_channel b1 b2 ratio in
  Ok (format_color r g b).

End ColorDerivator.

(** ** GhosttyParser *)

Module GhosttyParser.

Definition set_palette (t : GhosttyTheme) (k : Z) (color : string) : GhosttyTheme :=
  {| name := name t; palette := <[k := color]> (palette t);
     background := background t; foreground := foreground t;
     cursor_color := cursor_color t; cursor_text := cursor_text t;
     selection_background := selection_background t;
     selection_foreground := selection_foreground t |}.

Definition set_background (t : GhosttyTheme) (v : string) : GhosttyTheme :=
  {| name := name t; palette := palette t;
     background := v; foreground := foreground t;
     cursor_color := cursor_color t; cursor_text := cursor_text t;
     selection_background := selection_background t;
     selection_foreground := selection_foreground t |}.

Definition set_foreground (t : GhosttyTheme) (v : string) : GhosttyTheme :=
  {| name := name t; palette := palette t;
     background := background t; foreground := v;
     cursor_color := cursor_color t; cursor_text := cursor_text t;
     selection_background := selection_background t;
     selection_foreground := selection_foreground t |}.

Definition set_cursor_color (t : GhosttyTheme) (v : string) : GhosttyTheme :=
  {| name := name t; palette := palette t;
     background := background t; foreground := foreground t;
     cursor_color := v; cursor_text := cursor_text t;
     selection_background := selection_background t;
     selection_foreground := selection_foreground t |}.

Definition set_cursor_text (t : GhosttyTheme) (v : string) : GhosttyTheme :=
  {| name := name t; palette := palette t;
     background := background t; foreground := foreground t;
     cursor_color := cursor_color t; cursor_text := v;
     selection_background := selection_background t;
     selection_foreground := selection_foreground t |}.

Definition set_selection_background (t : GhosttyTheme) (v : string) : GhosttyTheme :=
  {| name := name t; palette := palette t;
     background := background t; foreground := foreground t;
     cursor_color := cursor_color t; cursor_text := cursor_text t;
     selection_background := v;
     selection_foreground := selection_foreground t |}.

Definition set_selection_foreground (t : GhosttyTheme) (v : string) : GhosttyTheme :=
  {| name := name t; palette := palette t;
     background := background t; foreground := foreground t;
     cursor_color := cursor_color t; cursor_text := cursor_text t;
     selection_background := selection_background t;
     selection_foreground := v |}.

(** [try: body except ValueError: handler]; a [UnicodeEncodeError] is a
    [ValueError]. *)
Definition try_except_ValueError {A} (body : result A) (handler : result A) : result A :=
  match body with
  | Raise ValueError | Raise UnicodeEncodeError => handler
  | r => r
  end.

(** The body of the loop over the lines of the file, for one line. *)
Definition parse_line (theme : GhosttyTheme) (line : string) : result GhosttyTheme :=
  let line := Py.strip line in
  if String.eqb line "" || Py.startswith_char "#" line then Ok theme else
  match Py.split1 "=" line with
  | Some (key, value) =>
      let key := Py.strip key in
      let value := Py.strip value in
      if String.eqb key "palette" then
        match Py.split1 "=" value with
        | Some (index, color) =>
            try_except_ValueError
              (let* palette_num := Py.int 10 index in
               let color := Py.strip color in
               Ok (set_palette theme palette_num color))
              (Ok theme)
        | None => Ok theme
        end
      else if String.eqb key "background" then Ok (set_background theme value)
      else if String.eqb key "foreground" then Ok (set_foreground theme value)
      else if String.eqb key "cursor-color" then Ok (set_cursor_color theme value)
      else if String.eqb key "cursor-text" then Ok (set_cursor_text theme value)
      else if String.eqb key "selection-background" then
        Ok (set_selection_background theme value)
      else if String.eqb key "selection-foreground" then
        Ok (set_selection_foreground theme value)
      else Ok theme
  | None => Ok theme
  end.

Fixpoint parse_lines (theme : GhosttyTheme) (lines : list string) : result GhosttyTheme :=
  match lines with
  | [] => Ok theme
  | line :: rest => let* theme' := parse_line theme line in parse_lines theme' rest
  end.

(** The lines of a text file read with universal newlines: a line ends at
    a line feed, a carriage return, or a carriage return and line feed.
    The terminator, which Python keeps and [strip] then removes, is left
    out. *)
Fixpoint lines_from (cur : string) (text : string) : list string :=
  match text with
  | String c rest =>
      if Ascii.eqb c "010" then cur :: lines_from "" rest
      else if Ascii.eqb c "013" then
        match rest with
        | String "010" rest' => cur :: lines_from "" rest'
        | _ => cur :: lines_from "" rest
        end
      else lines_from (cur ++ String c "") rest
  | EmptyString => if String.eqb cur "" then [] else [cur]
  end.

Definition file_lines (text : string) : list string := lines_from "" text.

(** [parse_theme_file], on the name of the file and its text. *)
Definition parse_theme_file (file_name : string) (text : string) : result GhosttyTheme :=
  parse_lines (new_theme file_name) (file_lines text).

End GhosttyParser.

(** ** PhpStormThemeGenerator *)

(** The values of the theme JSON document. *)
Inductive json : Type :=
| JStr (s : string)
| JInt (n : Z)
| JBool (b : bool)
| JObj (members : list (string * json)).

(** An element of the scheme document: tag, attributes, children. *)
Inductive element : Type :=
| Element (tag : string) (attrib : list (string * string)) (children : list element).

(** ** The XML library

    [generate_editor_scheme_xml] prints its tree with [tostring], reads
    the text back with [minidom.parseString] and prints the document
    with [toprettyxml].  [tostring] escapes the markup characters of the
    attribute values, so the parser reads the same tree back, unless a
    value holds a character that cannot be encoded or that XML does not
    allow: then [parseString] raises.  The tags and the attribute names
    of the tree are literals of the source.

    Which character beyond ASCII a character of a string stands for is
    not known to this model: [lone_surrogate] says that it is a
    surrogate, which cannot be encoded as UTF-8, and [xml_char_beyond]
    that it is one of the characters that XML allows. *)

Module Xml.

Fixpoint every (p : ascii -> bool) (s : string) : bool :=
  match s with
  | String c s' => p c && every p s'
  | EmptyString => true
  end.

(** Every attribute value of the tree satisfies [p]. *)
Fixpoint all_values (p : string -> bool) (e : element) : bool :=
  let 'Element _ attrib children := e in
  forallb (fun kv => p (snd kv)) attrib && forallb (all_values p) children.

Section Characters.

Variable lone_surrogate : ascii -> bool.
Variable xml_char_beyond : ascii -> bool.

(** A character that the parser can encode before it reads the text. *)
Definition encodable (c : ascii) : bool :=
  (N_of_ascii c <? 128)%N || negb (lone_surrogate c).

(** A character that XML allows: of ASCII, the tab, the line feed, the
    carriage return and everything from the space on. *)
Definition is_xml_char (c : ascii) : bool :=
  let n := N_of_ascii c in
  if (n <? 128)%N then (32 <=? n)%N || (n =? 9)%N || (n =? 10)%N || (n =? 13)%N
  else xml_char_beyond c.

(** [minidom.parseString(tostring(scheme, 'unicode'))]: the text is
    encoded first, then parsed. *)
Definition reparse (scheme : element) : result element :=
  if negb (all_values (every encodable) scheme) then Raise UnicodeEncodeError
  else if negb (all_values (every is_xml_char) scheme) then Raise ExpatError
  else Ok scheme.

End Characters.

End Xml.

Module PhpStormThemeGenerator.

Import ColorDerivator.

Record generator : Type := {
  ghostty : GhosttyTheme;
  theme_id : string;
}.

Definition jstr (r : result string) : result json := map_result JStr r.

(** The members of a dict display are evaluated in order; the first
    exception ends the evaluation. *)
Fixpoint members (l : list (string * result json)) : result (list (string * json)) :=
  match l with
  | [] => Ok []
  | (k, r) :: rest => let* v := r in let* vs := members rest in Ok ((k, v) :: vs)
  end.

Definition jobj (l : list (string * result json)) : result json :=
  map_result JObj (members l).

Definition is_cased (c : ascii) : bool :=
  let n := N_of_ascii c in
  ((65 <=? n) && (n <=? 90) || (97 <=? n) && (n <=? 122))%N.

(** [s.title()]: a cased character is upper-cased after an uncased one and
    lower-cased after a cased one. *)
Fixpoint title_from (prev_cased : bool) (s : string) : string :=
  match s with
  | String c s' =>
      String (if prev_cased then Py.lower_char c else Py.upper_char c)
             (title_from (is_cased c) s')
  | EmptyString => EmptyString
  end.

Definition title (s : string) : string := title_from false s.

Section Generator.

Variable pow : float -> float -> float.
Variable self : generator.

Local Open Scope float_scope.

Let t : GhosttyTheme := ghostty self.

(** [_derive_ui_colors].  [is_dark] is a property without side effects:
    it is evaluated once here, first as in the source, and every later
    evaluation has the same outcome. *)
Definition _derive_ui_colors : result json :=
  let bg := background t in
  let fg := foreground t in
  let* dark := is_dark pow t in
  let* panel_bg := adjust_brightness bg (if dark then 0.1 else (-0.05)) in
  let* border_color := adjust_brightness bg (if dark then 0.2 else (-0.15)) in
  let* hover_bg := adjust_brightness bg (if dark then 0.15 else (-0.1)) in
  let* pressed_bg := adjust_brightness bg (if dark then (-0.1) else (-0.2)) in
  let* disabled_fg := adjust_brightness fg (if dark then (-0.4) else 0.4) in
  let* inactive_bg := adjust_brightness bg (if dark then 0.05 else (-0.03)) in
  let* highlight_bg := adjust_brightness bg (if dark then 0.3 else (-0.1)) in
  let* selection_inactive_bg :=
    adjust_brightness (selection_background t) (if dark then (-0.2) else 0.2) in
  (* Get accent colors from palette *)
  let accent_color := palette_get (palette t) 4 "#0078d4" in
  let error_color := palette_get (palette t) 1 "#ff0000" in
  let warning_color := palette_get (palette t) 3 "#ffaa00" in
  let success_color := palette_get (palette t) 2 "#00aa00" in
  (* Derive additional accent colors *)
  let* accent_secondary := adjust_brightness accent_color (if dark then (-0.1) else 0.1) in
  let* accent_tertiary := adjust_brightness accent_color (if dark then (-0.2) else 0.2) in
  (* Create a few shades lighter than the background for borders *)
  let* lighter_bg := adjust_brightness bg (if dark then 0.2 else (-0.1)) in
  jobj [
    (* Global defaults *)
    ("*", jobj [
      ("background", Ok (JStr bg));
      ("foreground", Ok (JStr fg));
      ("infoForeground", jstr (adjust_brightness fg (if dark then (-0.3) else 0.3)));
      ("selectionBackground", Ok (JStr (selection_background t)));
      ("selectionForeground", Ok (JStr (selection_foreground t)));
      ("selectionInactiveBackground", Ok (JStr selection_inactive_bg));
      ("selectionBackgroundInactive", Ok (JStr selection_inactive_bg));
      ("disabledForeground", Ok (JStr disabled_fg));
      ("disabledBackground", jstr (adjust_brightness bg (if dark then (-0.05) else 0.05)));
      ("acceleratorForeground", Ok (JStr accent_color));
      ("acceleratorSelectionForeground", Ok (JStr accent_color));
      ("errorForeground", Ok (JStr error_color));
      ("borderColor", Ok (JStr border_color));
      ("disabledBorderColor", jstr (adjust_brightness border_color (if dark then (-0.3) else 0.3)));
      ("focusColor", Ok (JStr accent_color));
      ("focusedBorderColor", Ok (JStr accent_color));
      ("separatorColor", Ok (JStr border_color))
    ]);

    (* Main window and panels *)
    ("Window.background", Ok (JStr bg));
    ("Panel.background", Ok (JStr panel_bg));
    ("Window.border", Ok (JStr lighter_bg));
    ("Dialog.background", Ok (JStr panel_bg));
    ("Dialog.foreground", Ok (JStr fg));
    ("Dialog.borderColor", Ok (JStr border_color));
    ("DialogWrapper.southPanelBackground", Ok (JStr panel_bg));
    ("OnePixelDivider.background", Ok (JStr border_color));
    ("Borders.color", Ok (JStr border_color));
    ("Borders.ContrastBorderColor", Ok (JStr lighter_bg));

    (* Tool windows *)
    ("ToolWindow.background", Ok (JStr panel_bg));
    ("ToolWindow.header.background", jstr (adjust_brightness panel_bg (if dark then 0.05 else (-0.05))));
    ("ToolWindow.header.active.background", jstr (adjust_brightness panel_bg (if dark then 0.1 else (-0.1))));
    ("ToolWindow.header.border.background", Ok (JStr lighter_bg));
    ("ToolWindow.header.closeButton.background", Ok (JStr panel_bg));
    ("ToolWindow.Button.selectedBackground", Ok (JStr hover_bg));
    ("ToolWindow.Button.hoverBackground", Ok (JStr hover_bg));
    ("ToolWindow.Button.selectedForeground", Ok (JStr fg));
    ("ToolWindow.HeaderTab.selectedBackground", jstr (adjust_brightness panel_bg (if dark then 0.15 else (-0.15))));
    ("ToolWindow.HeaderTab.selectedInactiveBackground", jstr (adjust_brightness panel_bg (if dark then 0.05 else (-0.05))));
    ("ToolWindow.HeaderTab.hoverBackground", Ok (JStr hover_bg));
    ("ToolWindow.HeaderTab.hoverInactiveBackground", jstr (adjust_brightness hover_bg (if dark then (-0.05) else 0.05)));
    ("ToolWindow.HeaderCloseButton.background", Ok (JStr panel_bg));

    (* Editor *)
    ("Editor.background", Ok (JStr bg));
    ("EditorPane.background", Ok (JStr bg));
    ("EditorPane.inactiveBackground", Ok (JStr inactive_bg));
    ("EditorGroupsTabs.background", Ok (JStr panel_bg));
    ("EditorTabs.background", Ok (JStr panel_bg));
    ("EditorTabs.borderColor", Ok (JStr border_color));
    ("EditorTabs.underlineColor", Ok (JStr accent_color));
    ("EditorTabs.underlinedTabBackground", jstr (adjust_brightness panel_bg (if dark then 0.1 else (-0.1))));
    ("EditorTabs.hoverBackground", Ok (JStr hover_bg));
    ("EditorTabs.inactiveUnderlineColor", jstr (adjust_brightness accent_color (if dark then (-0.3) else 0.3)));
    ("FileColor.Yellow", jstr (blend_colors bg warning_color 0.05));
    ("FileColor.Green", jstr (blend_colors bg success_color 0.05));
    ("FileColor.Blue", jstr (blend_colors bg accent_color 0.05));
    ("FileColor.Violet", jstr (blend_colors bg "#9370DB" 0.05));
    ("FileColor.Orange", jstr (blend_colors bg "#FFA500" 0.05));
    ("FileColor.Rose", jstr (blend_colors bg "#FF007F" 0.05));

    (* Menus *)
    ("Menu.background", Ok (JStr panel_bg));
    ("Menu.foreground", Ok (JStr fg));
    ("Menu.borderColor", Ok (JStr border_color));
    ("Menu.acceleratorForeground", jstr (adjust_brightness fg (if dark then (-0.2) else 0.2)));
    ("Menu.selectionBackground", Ok (JStr hover_bg));
    ("Menu.selectionForeground", Ok (JStr fg));
    ("MenuItem.acceleratorForeground", jstr (adjust_brightness fg (if dark then (-0.2) else 0.2)));
    ("MenuItem.selectionBackground", Ok (JStr hover_bg));
    ("MenuItem.selectionForeground", Ok (JStr fg));
    ("PopupMenu.background", Ok (JStr panel_bg));
    ("PopupMenu.borderColor", Ok (JStr border_color));
    ("MenuBar.background", Ok (JStr bg));
    ("MenuBar.borderColor", Ok (JStr border_color));

    (* UI Controls *)
    ("Button.background", Ok (JStr panel_bg));
    ("Button.foreground", Ok (JStr fg));
    ("Button.hoverBackground", Ok (JStr hover_bg));
    ("Button.pressedBackground", Ok (JStr pressed_bg));
    ("Button.focusedBorderColor", Ok (JStr accent_color));
    ("Button.default.foreground", Ok (JStr fg));
    ("Button.default.background", Ok (JStr accent_color));
    ("Button.default.hoverBackground", jstr (adjust_brightness accent_color (if dark then 0.1 else (-0.1))));
    ("Button.default.pressedBackground", jstr (adjust_brightness accent_color (if dark then (-0.1) else 0.1)));
    ("Button.default.focusedBorderColor", jstr (adjust_brightness accent_color (if dark then 0.2 else (-0.2))));
    ("CheckBox.background", Ok (JStr bg));
    ("CheckBox.foreground", Ok (JStr fg));
    ("CheckBox.select", Ok (JStr accent_color));
    ("ComboBox.background", Ok (JStr bg));
    ("ComboBox.foreground", Ok (JStr fg));
    ("ComboBox.selectionBackground", Ok (JStr hover_bg));
    ("ComboBox.selectionForeground", Ok (JStr fg));
    ("ComboBox.disabledBackground", jstr (adjust_brightness bg (if dark then (-0.05) else 0.05)));
    ("ComboBox.ArrowButton.background", Ok (JStr panel_bg));
    ("ComboBox.ArrowButton.iconColor", Ok (JStr fg));
    ("Component.borderColor", Ok (JStr border_color));
    ("Component.focusedBorderColor", Ok (JStr accent_color));
    ("Component.disabledBorderColor", jstr (adjust_brightness border_color (if dark then (-0.3) else 0.3)));
    ("Component.errorFocusColor", Ok (JStr error_color));
    ("Component.inactiveErrorFocusColor", jstr (adjust_brightness error_color (if dark then (-0.3) else 0.3)));
    ("Component.warningFocusColor", Ok (JStr warning_color));
    ("Component.inactiveWarningFocusColor", jstr (adjust_brightness warning_color (if dark then (-0.3) else 0.3)));
    ("Link.activeForeground", Ok (JStr accent_color));
    ("Link.hoverForeground", Ok (JStr accent_color));
    ("Link.pressedForeground", Ok (JStr accent_color));
    ("Link.visitedForeground", jstr (adjust_brightness accent_color (if dark then (-0.2) else 0.2)));
    ("ToggleButton.background", Ok (JStr panel_bg));
    ("ToggleButton.foreground", Ok (JStr fg));
    ("ToggleButton.onBackground", Ok (JStr accent_color));
    ("ToggleButton.onForeground", Ok (JStr (if dark then "#FFFFFF" else "#000000")));
    ("ToggleButton.offBackground", jstr (adjust_brightness panel_bg (if dark then (-0.1) else 0.1)));
    ("ToggleButton.offForeground", Ok (JStr fg));
    ("ToggleButton.buttonColor", Ok (JStr fg));

    (* Trees and Lists *)
    ("Tree.background", Ok (JStr bg));
    ("Tree.foreground", Ok (JStr fg));
    ("Tree.selectionBackground", Ok (JStr (selection_background t)));
    ("Tree.selectionForeground", Ok (JStr (selection_foreground t)));
    ("Tree.selectionInactiveBackground", Ok (JStr selection_inactive_bg));
    ("Tree.rowHeight", Ok (JInt 20));
    ("List.background", Ok (JStr bg));
    ("List.foreground", Ok (JStr fg));
    ("List.selectionBackground", Ok (JStr (selection_background t)));
    ("List.selectionForeground", Ok (JStr (selection_foreground t)));
    ("List.selectionInactiveBackground", Ok (JStr selection_inactive_bg));
    ("Table.background", Ok (JStr bg));
    ("Table.foreground", Ok (JStr fg));
    ("Table.selectionBackground", Ok (JStr (selection_background t)));
    ("Table.selectionForeground", Ok (JStr (selection_foreground t)));
    ("Table.stripeColor", jstr (adjust_brightness bg (if dark then 0.05 else (-0.05))));
    ("Table.gridColor", Ok (JStr border_color));

    (* Text fields *)
    ("TextField.background", Ok (JStr bg));
    ("TextField.foreground", Ok (JStr fg));
    ("TextField.selectionBackground", Ok (JStr (selection_background t)));
    ("TextField.selectionForeground", Ok (JStr (selection_foreground t)));
    ("TextArea.background", Ok (JStr bg));
    ("TextArea.foreground", Ok (JStr fg));
    ("TextArea.selectionBackground", Ok (JStr (selection_background t)));
    ("TextArea.selectionForeground", Ok (JStr (selection_foreground t)));
    ("FormattedTextField.background", Ok (JStr bg));
    ("PasswordField.background", Ok (JStr bg));
    ("TextPane.background", Ok (JStr bg));
    ("TextPane.foreground", Ok (JStr fg));
    ("EditorPane.selectionBackground", Ok (JStr (selection_background t)));

    (* Separators and Borders *)
    ("Separator.foreground", Ok (JStr border_color));
    ("Separator.separatorColor", Ok (JStr border_color));
    ("TabbedPane.tabSelectionHeight", Ok (JInt 2));
    ("TabbedPane.tabAreaBackground", Ok (JStr panel_bg));
    ("TabbedPane.background", Ok (JStr bg));
    ("TabbedPane.underlineColor", Ok (JStr accent_color));
    ("TabbedPane.hoverColor", Ok (JStr hover_bg));
    ("TabbedPane.contentAreaColor", Ok (JStr border_color));

    (* Status Bar *)
    ("StatusBar.background", Ok (JStr panel_bg));
    ("StatusBar.foreground", Ok (JStr fg));
    ("StatusBar.borderColor", Ok (JStr border_color));
    ("StatusBar.hoverBackground", Ok (JStr hover_bg));

    (* Progress Bar *)
    ("ProgressBar.background", Ok (JStr panel_bg));
    ("ProgressBar.foreground", Ok (JStr accent_color));
    ("ProgressBar.progressColor", Ok (JStr accent_color));
    ("ProgressBar.indeterminateStartColor", Ok (JStr accent_color));
    ("ProgressBar.indeterminateEndColor", Ok (JStr accent_secondary));

    (* Scroll Bar *)
    ("ScrollBar.background", Ok (JStr bg));
    ("ScrollBar.thumbColor", jstr (adjust_brightness bg (if dark then 0.3 else (-0.3))));
    ("ScrollBar.thumbBorderColor", jstr (adjust_brightness bg (if dark then 0.4 else (-0.4))));
    ("ScrollBar.hoverThumbColor", jstr (adjust_brightness bg (if dark then 0.4 else (-0.4))));
    ("ScrollBar.hoverThumbBorderColor", jstr (adjust_brightness bg (if dark then 0.5 else (-0.5))));
    ("ScrollBar.trackColor", Ok (JStr bg));
    ("ScrollBar.Mac.hoverThumbColor", jstr (adjust_brightness bg (if dark then 0.4 else (-0.4))));
    ("ScrollBar.Mac.thumbColor", jstr (adjust_brightness bg (if dark then 0.3 else (-0.3))));

    (* Search *)
    ("SearchEverywhere.background", Ok (JStr panel_bg));
    ("SearchEverywhere.foreground", Ok (JStr fg));
    ("SearchEverywhere.Tab.selectedBackground", Ok (JStr hover_bg));
    ("SearchEverywhere.Tab.selectedForeground", Ok (JStr fg));
    ("SearchEverywhere.SearchField.background", Ok (JStr bg));
    ("SearchEverywhere.SearchField.borderColor", Ok (JStr border_color));
    ("SearchEverywhere.List.separatorColor", Ok (JStr border_color));
    ("SearchMatch.startBackground", jstr (blend_colors bg accent_color 0.3));
    ("SearchMatch.endBackground", jstr (blend_colors bg accent_color 0.1));

    (* Notifications *)
    ("Notification.background", Ok (JStr panel_bg));
    ("Notification.foreground", Ok (JStr fg));
    ("Notification.borderColor", Ok (JStr border_color));
    ("Notification.errorBackground", jstr (blend_colors bg error_color 0.1));
    ("Notification.errorBorderColor", Ok (JStr error_color));
    ("Notification.errorForeground", Ok (JStr fg));
    ("Notification.warningBackground", jstr (blend_colors bg warning_color 0.1));
    ("Notification.warningBorderColor", Ok (JStr warning_color));
    ("Notification.warningForeground", Ok (JStr fg));
    ("Notification.infoBackground", jstr (blend_colors bg accent_color 0.1));
    ("Notification.infoBorderColor", Ok (JStr accent_color));
    ("Notification.infoForeground", Ok (JStr fg));

    (* Tooltips *)
    ("ToolTip.background", Ok (JStr panel_bg));
    ("ToolTip.foreground", Ok (JStr fg));
    ("ToolTip.borderColor", Ok (JStr border_color));
    ("ValidationTooltip.errorBackground", Ok (JStr error_color));
    ("ValidationTooltip.errorBorderColor", jstr (adjust_brightness error_color (if dark then 0.2 else (-0.2))));
    ("ValidationTooltip.warningBackground", Ok (JStr warning_color));
    ("ValidationTooltip.warningBorderColor", jstr (adjust_brightness warning_color (if dark then 0.2 else (-0.2))));

    (* Icons *)
    ("Icons.foreground", Ok (JStr fg));
    ("Icons.greyForeground", jstr (adjust_brightness fg (if dark then (-0.3) else 0.3)));
    ("Icons.redForeground", Ok (JStr error_color));
    ("Icons.greenForeground", Ok (JStr success_color));
    ("Icons.blueForeground", Ok (JStr accent_color));
    ("Icons.yellowForeground", Ok (JStr warning_color))
  ].

(** [generate_theme_json] *)
Definition generate_theme_json : result json :=
  let theme_name := title (Py.replace_char "_" " " (name t)) in
  (* Derive UI colors from base theme *)
  let* ui_colors := _derive_ui_colors in
  let* dark := is_dark pow t in
  (* Get accent colors from palette for icons *)
  let accent_color := palette_get (palette t) 4 "#0078d4" in
  jobj [
    ("name", Ok (JStr theme_name));
    ("dark", Ok (JBool dark));
    ("author", Ok (JStr "Ghostty Converter"));
    ("editorScheme", Ok (JStr ("/" ++ name t ++ ".xml")));
    ("background", jobj [
      ("default", Ok (JStr (background t)))
    ]);
    ("colors", jobj [
      ("primaryBackground", Ok (JStr (background t)));
      ("primaryForeground", Ok (JStr (foreground t)));
      ("selectionBackground", Ok (JStr (selection_background t)));
      ("selectionForeground", Ok (JStr (selection_foreground t)));
      ("accentColor", Ok (JStr accent_color));
      ("secondaryAccentColor", jstr (adjust_brightness accent_color (if dark then (-0.1) else 0.1)))
    ]);
    ("ui", Ok ui_colors);
    ("icons", jobj [
      ("ColorPalette", jobj [
        ("Actions.Blue", Ok (JStr accent_color));
        ("Actions.Green", Ok (JStr (palette_get (palette t) 2 "#00aa00")));
        ("Actions.Grey", jstr (adjust_brightness (foreground t) (if dark then (-0.3) else 0.3)));
        ("Actions.Red", Ok (JStr (palette_get (palette t) 1 "#ff0000")));
        ("Actions.Yellow", Ok (JStr (palette_get (palette t) 3 "#ffaa00")));
        ("Objects.Blue", Ok (JStr accent_color));
        ("Objects.Green", Ok (JStr (palette_get (palette t) 2 "#00aa00")));
        ("Objects.Grey", jstr (adjust_brightness (foreground t) (if dark then (-0.3) else 0.3)));
        ("Objects.Pink", Ok (JStr (palette_get (palette t) 5 "#ff00ff")));
        ("Objects.Purple", Ok (JStr (palette_get (palette t) 5 "#ff00ff")));
        ("Objects.Red", Ok (JStr (palette_get (palette t) 1 "#ff0000")));
        ("Objects.Yellow", Ok (JStr (palette_get (palette t) 3 "#ffaa00")));
        ("Objects.BlackText", Ok (JStr "#000000"));
        ("Objects.WhiteText", Ok (JStr "#ffffff"))
      ])
    ])
  ].

(** [_add_color_option]: the option element appended to the parent. *)
Definition _add_color_option (name value : string) : element :=
  Element "option" [("name", name); ("value", Py.upper value)] [].

(** The table [syntax_mappings] of [_add_syntax_colors]. *)
Definition syntax_mappings : list (string * string) := [
  ("DEFAULT_KEYWORD", palette_get (palette t) 5 "#ff00ff");
  ("DEFAULT_STRING", palette_get (palette t) 2 "#00ff00");
  ("DEFAULT_NUMBER", palette_get (palette t) 1 "#ff0000");
  ("DEFAULT_COMMENT", palette_get (palette t) 8 "#555555");
  ("DEFAULT_IDENTIFIER", foreground t);
  ("DEFAULT_FUNCTION_DECLARATION", palette_get (palette t) 4 "#0000ff");
  ("DEFAULT_CLASS_NAME", palette_get (palette t) 3 "#ffff00");
  ("DEFAULT_CONSTANT", palette_get (palette t) 6 "#00ffff")
]%string.

(** The element that the loop of [_add_syntax_colors] appends for one
    entry of the table. *)
Definition syntax_option (entry : string * string) : element :=
  let '(syntax_type, color) := entry in
  Element "option" [("name", syntax_type)] [
    Element "value" [] [
      Element "option"
        [("name", "FOREGROUND"); ("value", Py.lstrip_char "#" (Py.upper color))] []
    ]
  ].

(** [_add_syntax_colors]: the children appended to [attributes]. *)
Definition _add_syntax_colors : list element := map syntax_option syntax_mappings.

(** The children of the [colors] element. *)
Definition scheme_colors (line_number_color : string) : list element := [
  _add_color_option "BACKGROUND" (background t);
  _add_color_option "FOREGROUND" (foreground t);
  _add_color_option "CARET_COLOR" (cursor_color t);
  _add_color_option "SELECTION_BACKGROUND" (selection_background t);
  _add_color_option "SELECTION_FOREGROUND" (selection_foreground t);
  _add_color_option "LINE_NUMBERS_COLOR" line_number_color;
  _add_color_option "GUTTER_BACKGROUND" (background t)
].

(** The first part of [generate_editor_scheme_xml]: the element tree
    [scheme], before it is printed. *)
Definition generate_editor_scheme : result element :=
  let* dark := is_dark pow t in
  (* Add derived colors *)
  let* line_number_color := adjust_brightness (foreground t) (-0.3) in
  Ok (Element "scheme"
        [("name", name t); ("version", "142");
         ("parent_scheme", if dark then "Darcula" else "Default")]
        [Element "colors" [] (scheme_colors line_number_color);
         Element "attributes" [] _add_syntax_colors]).

(** What the XML library is to the generator: the two classes of
    characters beyond ASCII, and the text that [toprettyxml] prints for
    a document. *)
Variable lone_surrogate : ascii -> bool.
Variable xml_char_beyond : ascii -> bool.
Variable toprettyxml : element -> string.

(** [generate_editor_scheme_xml] *)
Definition generate_editor_scheme_xml : result string :=
  let* scheme := generate_editor_scheme in
  (* Pretty print XML *)
  let* reparsed := Xml.reparse lone_surrogate xml_char_beyond scheme in
  Ok (toprettyxml reparsed).

(** [generate_plugin_xml] *)
Definition generate_plugin_xml : result string :=
  let dq := String (ascii_of_N 34) "" in
  let nl := String (ascii_of_N 10) "" in
  let theme_name := title (Py.replace_char "_" " " (name t)) in
  let plugin_id :=
    "com.ghostty.theme." ++
    Py.replace_char "-" "_" (Py.replace_char " " "_" (Py.lower (name t))) in
  let* dark := is_dark pow t in
  Ok (
    "<idea-plugin>" ++ nl ++
    "  <id>" ++
    plugin_id ++
    "</id>" ++ nl ++
    "  <name>" ++
    theme_name ++
    " Theme</name>" ++ nl ++
    "  <version>1.0.0</version>" ++ nl ++
    "  <vendor email=" ++
    dq ++
    "noreply@anthropic.com" ++
    dq ++
    " url=" ++
    dq ++
    "https://github.com/anthropics/claude-code" ++
    dq ++
    ">Ghostty Converter</vendor>" ++ nl ++
    "  <category>UI</category>" ++ nl ++
    nl ++
    "  <description><![CDATA[" ++ nl ++
    "    <h2>" ++
    theme_name ++
    " Theme</h2>" ++ nl ++
    "    <p>A beautiful theme converted from the Ghostty terminal theme collection.</p>" ++ nl ++
    nl ++
    "    <p><strong>Features:</strong></p>" ++ nl ++
    "    <ul>" ++ nl ++
    "      <li>Complete UI theme with intelligent color derivation</li>" ++ nl ++
    "      <li>Editor color scheme optimized for code readability</li>" ++ nl ++
    "      <li>" ++
    (if dark then "Dark" else "Light") ++
    " theme with harmonious color palette</li>" ++ nl ++
    "      <li>Syntax highlighting based on terminal ANSI colors</li>" ++ nl ++
    "      <li>Full styling for tool windows, borders, and all UI elements</li>" ++ nl ++
    "    </ul>" ++ nl ++
    nl ++
    "    <p>Original Ghostty theme: <code>" ++
    name t ++
    "</code></p>" ++ nl ++
    nl ++
    "    <p><em>Generated with Claude Code's Ghostty to PhpStorm theme converter.</em></p>" ++ nl ++
    "  ]]></description>" ++ nl ++
    nl ++
    "  <change-notes><![CDATA[" ++ nl ++
    "    <h3>Version 1.0.0</h3>" ++ nl ++
    "    <ul>" ++ nl ++
    "      <li>Initial release</li>" ++ nl ++
    "      <li>Complete UI theme implementation</li>" ++ nl ++
    "      <li>Editor color scheme with syntax highlighting</li>" ++ nl ++
    "      <li>Intelligent color derivation from terminal palette</li>" ++ nl ++
    "      <li>Full styling for tool windows, borders, and all UI elements</li>" ++ nl ++
    "    </ul>" ++ nl ++
    "  ]]></change-notes>" ++ nl ++
    nl ++
    "  <idea-version since-build=" ++
    dq ++
    "193" ++
    dq ++
    " until-build=" ++
    dq ++
    "999.*" ++
    dq ++
    "/>" ++ nl ++
    nl ++
    "  <depends>com.intellij.modules.platform</depends>" ++ nl ++
    nl ++
    "  <extensions defaultExtensionNs=" ++
    dq ++
    "com.intellij" ++
    dq ++
    ">" ++ nl ++
    "    <themeProvider id=" ++
    dq ++
    theme_id self ++
    dq ++
    " path=" ++
    dq ++
    "/" ++
    name t ++
    ".theme.json" ++
    dq ++
    "/>" ++ nl ++
    "    <bundledColorScheme path=" ++
    dq ++
    "/" ++
    name t ++
    ".xml" ++
    dq ++
    "/>" ++ nl ++
    "  </extensions>" ++ nl ++
    nl ++
    "  <applicationListeners>" ++ nl ++
    "  </applicationListeners>" ++ nl ++
    "</idea-plugin>")%string.

End Generator.

End PhpStormThemeGenerator.

(** ** [create_icls_file]: the text of the colour scheme file

    [create_icls_file] takes the text of the editor scheme, as the XML
    library prints it, and writes it from the first line that contains
    [<scheme] on.  The part between the printing and the writing is
    modelled, on any text. *)

Module IclsFile.

(** [s.split('\n')] *)
Fixpoint split_newline (s : string) : list string :=
  match s with
  | EmptyString => [EmptyString]
  | String c rest =>
      if Ascii.eqb c "010" then EmptyString :: split_newline rest
      else match split_newline rest with
           | l :: ls => String c l :: ls
           | [] => [String c EmptyString]
           end
  end.

(** [needle in s] *)
Fixpoint contains (needle s : string) : bool :=
  String.prefix needle s ||
  match s with
  | String _ s' => contains needle s'
  | EmptyString => false
  end.

(** The loop that looks for the first line with [<scheme]: the index of
    that line, or [None] where Python leaves [scheme_start] at -1. *)
Fixpoint scheme_start (lines : list string) : option nat :=
  match lines with
  | [] => None
  | line :: rest =>
      if contains "<scheme" line then Some O else option_map S (scheme_start rest)
  end.

(** ['\n'.join(lines[scheme_start:])], the text that is written; [None]
    when the function writes nothing and returns [None]. *)
Definition clean_content (icls_content : string) : option string :=
  let lines := split_newline icls_content in
  match scheme_start lines with
  | Some i => Some (String.concat (String "010" "") (skipn i lines))
  | None => None
  end.

End IclsFile.

(** * Predicates used in the statements *)

Module Spec.

Import GhosttyParser.

(** A line that leaves palette slot [k] as it is, whatever the theme. *)
Definition keeps_slot (k : Z) (line : string) : Prop :=
  forall t, exists t', parse_line t line = Ok t' /\ palette t' !! k = palette t !! k.

(** A palette line whose value has no [index=color] pair inside, or whose
    index is not an integer literal. *)
Definition malformed_palette_line (line : string) : Prop :=
  exists key value,
    Py.split1 "=" (Py.strip line) = Some (key, value) /\
    Py.strip key = "palette" /\
    match Py.split1 "=" (Py.strip value) with
    | None => True
    | Some (index, _) => Py.int 10 index = Raise ValueError
    end.

Definition is_hex_digit (c : ascii) : bool :=
  let n := N_of_ascii c in
  ((48 <=? n) && (n <=? 57) || (97 <=? n) && (n <=? 102) || (65 <=? n) && (n <=? 70))%N.

Definition is_lower_hex_digit (c : ascii) : bool :=
  let n := N_of_ascii c in
  ((48 <=? n) && (n <=? 57) || (97 <=? n) && (n <=? 102))%N.

Definition is_upper_hex_digit (c : ascii) : bool :=
  let n := N_of_ascii c in
  ((48 <=? n) && (n <=? 57) || (65 <=? n) && (n <=? 70))%N.

Fixpoint all_chars (p : ascii -> bool) (s : string) : bool :=
  match s with
  | String c s' => p c && all_chars p s'
  | EmptyString => true
  end.

(** Six characters, all accepted by [p]. *)
Definition six (p : ascii -> bool) (s : string) : bool :=
  (String.length s =? 6)%nat && all_chars p s.

(** A colour written as [#] and six hexadecimal digits of either case. *)
Definition is_hex_color (s : string) : bool :=
  match s with
  | String "#" digits => six is_hex_digit digits
  | _ => false
  end.

(** The same with no upper-case digit, and with no lower-case digit. *)
Definition is_lower_hex_color (s : string) : bool :=
  match s with
  | String "#" digits => six is_lower_hex_digit digits
  | _ => false
  end.

Definition is_upper_hex_color (s : string) : bool :=
  match s with
  | String "#" digits => six is_upper_hex_digit digits
  | _ => false
  end.

(** A string without the letters [a] to [z]. *)
Definition is_lower_letter (c : ascii) : bool :=
  let n := N_of_ascii c in ((97 <=? n) && (n <=? 122))%N.

Definition no_lower_case (s : string) : bool :=
  all_chars (fun c => negb (is_lower_letter c)) s.

(** A call that returns a colour in lower case. *)
Definition returns_lower_hex_color (r : result string) : Prop :=
  exists out, r = Ok out /\ is_lower_hex_color out = true.

End Spec.

(** * Finite enumerations used by the proofs by evaluation *)

Module Enum.

(** The 256 values of a colour channel. *)
Definition channel_values : list Z := map Z.of_nat (seq 0 256).

(** Every character. *)
Definition all_ascii : list ascii := map ascii_of_nat (seq 0 256).

(** The value of the two hexadecimal digits [c1 c2]. *)
Definition hex_pair_value (c1 c2 : ascii) : Z :=
  match Py.digit_value c1, Py.digit_value c2 with
  | Some a, Some b => 16 * a + b
  | _, _ => 0
  end.

Definition result_Z_eqb (r : result Z) (n : Z) : bool :=
  match r with
  | Ok m => m =? n
  | Raise _ => false
  end.

(** Two hexadecimal digits are read as their value, which is a channel
    value, and that value is printed as the two digits in lower case. *)
Definition hex_pair_ok (c1 c2 : ascii) : bool :=
  let s := String c1 (String c2 "") in
  let v := hex_pair_value c1 c2 in
  result_Z_eqb (Py.int 16 s) v && (0 <=? v) && (v <=? 255) &&
  String.eqb (Py.format_02x v) (Py.lower s) &&
  negb (Ascii.eqb c1 "#").

(** A channel value is printed as two lower-case hexadecimal digits,
    which are read back as the value. *)
Definition format_cell (n : Z) : bool :=
  match Py.format_02x n with
  | String a (String b EmptyString) =>
      Spec.is_lower_hex_digit a && Spec.is_lower_hex_digit b &&
      result_Z_eqb (Py.int 16 (String a (String b EmptyString))) n &&
      negb (Ascii.eqb a "#")
  | _ => false
  end.

Definition hex_pair_cell (c1 c2 : ascii) : bool :=
  implb (Spec.is_hex_digit c1 && Spec.is_hex_digit c2) (hex_pair_ok c1 c2).

Definition hex_pair_row (c1 : ascii) : bool := forallb (hex_pair_cell c1) all_ascii.

End Enum.

Module FloatEnum.

Import Enum.
Local Open Scope float_scope.

(** The float of channel value [n]: [n / 255.0]. *)
Definition unit_of (n : Z) : float := PyFloat.of_int n / 255.


(** The float identities behind a blend with ratio 0.0 or 1.0. *)
Definition blend_ends_cell (n : Z) : bool :=
  let x := PyFloat.of_int n in
  Leibniz.eqb (x * 1) x && Leibniz.eqb (x * 0) 0 &&
  Leibniz.eqb (x + 0) x && Leibniz.eqb (0 + x) x &&
  result_Z_eqb (PyFloat.to_int x) n.

(** A grey keeps its channel value through [adjust_brightness] with
    factor 0.0: the value equals itself, is clamped to itself and is read
    back. *)
Definition grey_round_trip_cell (n : Z) : bool :=
  let v := unit_of n in
  (v =? v) &&
  Leibniz.eqb (PyFloat.clamp01 (v + 0)) v &&
  result_Z_eqb (PyFloat.to_int (v * 255)) n.

End FloatEnum.

Module SpecColor.

Local Open Scope float_scope.

(** The relative luminance of a colour with channels [r g b] out of 255:
    the channels are gamma-expanded and weighted with the Rec. 709
    coefficients. *)
Definition gamma_expand (pow : float -> float -> float) (c : float) : float :=
  if c <=? 0.03928 then c / 12.92 else pow ((c + 0.055) / 1.055) 2.4.

Definition relative_luminance (pow : float -> float -> float) (r g b : Z) : float :=
  0.2126 * gamma_expand pow (PyFloat.of_int r / 255) +
  0.7152 * gamma_expand pow (PyFloat.of_int g / 255) +
  0.0722 * gamma_expand pow (PyFloat.of_int b / 255).

(** The channels of a colour string, as the colour functions read them. *)
Definition channels_of (color : string) : result (Z * Z * Z) :=
  hex_channels (Py.lstrip_char "#" color).


(** [lo <= x <= hi] on every channel. *)
Definition channels_in (lo hi : Z -> Z -> Z) (a b out : Z * Z * Z) : Prop :=
  let '(ra, ga, ba) := a in
  let '(rb, gb, bb) := b in
  let '(r, g, b') := out in
  (lo ra rb <= r <= hi ra rb)%Z /\ (lo ga gb <= g <= hi ga gb)%Z /\
  (lo ba bb <= b' <= hi ba bb)%Z.

(** The blend of [a] and [b] is a colour whose channels lie between the
    lower bound [lo] and the upper bound [hi] of the channels of [a] and
    [b]. *)
Definition blend_between (lo hi : Z -> Z -> Z) (a b : string) (ratio : float) : Prop :=
  exists ca cb out cout,
    channels_of a = Ok ca /\ channels_of b = Ok cb /\
    ColorDerivator.blend_colors a b ratio = Ok out /\
    channels_of out = Ok cout /\ channels_in lo hi ca cb cout.

End SpecColor.

(** * Themes, fallbacks and the values of the scheme document *)

Module SpecGen.

Import Spec PhpStormThemeGenerator.

(** The generator [self] with palette slot [k] of its theme set to [d]. *)
Definition with_slot (self : generator) (k : Z) (d : string) : generator :=
  {| ghostty := GhosttyParser.set_palette (ghostty self) k d;
     theme_id := theme_id self |}.

(** The fallback of each palette slot as the documentation lists them. *)
Definition documented_fallbacks : list (Z * string) :=
  [(1, "#ff0000"); (2, "#00aa00"); (3, "#ffaa00"); (4, "#0078d4");
   (5, "#ff00ff"); (6, "#00ffff"); (8, "#555555")].

(** The fallback of each palette slot in the table of
    [_add_syntax_colors]. *)
Definition scheme_fallbacks : list (Z * string) :=
  [(1, "#ff0000"); (2, "#00ff00"); (3, "#ffff00"); (4, "#0000ff");
   (5, "#ff00ff"); (6, "#00ffff"); (8, "#555555")].

(** A text of characters that the XML parser accepts: it can encode
    them and XML allows them. *)
Definition xml_text (lone_surrogate xml_char_beyond : ascii -> bool) (s : string) : bool :=
  Xml.every (Xml.encodable lone_surrogate) s && Xml.every (Xml.is_xml_char xml_char_beyond) s.

(** A printable character of ASCII. *)
Definition is_plain (c : ascii) : bool :=
  let n := N_of_ascii c in ((32 <=? n) && (n <? 127))%N.

(** A theme whose colours are all written as [#] and six hexadecimal
    digits. *)
Definition well_formed (t : GhosttyTheme) : Prop :=
  is_hex_color (background t) = true /\
  is_hex_color (foreground t) = true /\
  is_hex_color (cursor_color t) = true /\
  is_hex_color (selection_background t) = true /\
  is_hex_color (selection_foreground t) = true /\
  forall k c, palette t !! k = Some c -> is_hex_color c = true.

Definition tag_of (e : element) : string := let 'Element tag _ _ := e in tag.
Definition attrib_of (e : element) : list (string * string) :=
  let 'Element _ attrib _ := e in attrib.
Definition children_of (e : element) : list element :=
  let 'Element _ _ children := e in children.

(** [attrib.get(key)] *)
Fixpoint assoc (key : string) (l : list (string * string)) : option string :=
  match l with
  | [] => None
  | (k, v) :: rest => if String.eqb k key then Some v else assoc key rest
  end.

(** The [value] attribute of an element, if it has one. *)
Definition value_of (e : element) : list string :=
  match assoc "value" (attrib_of e) with
  | Some v => [v]
  | None => []
  end.

Definition children_tagged (tag : string) (e : element) : list element :=
  List.filter (fun c => String.eqb (tag_of c) tag) (children_of e).

(** The values of the options directly under [colors]. *)
Definition top_level_values (scheme : element) : list string :=
  flat_map (fun colors => flat_map value_of (children_tagged "option" colors))
           (children_tagged "colors" scheme).

(** The values of the options inside the [value] element of an option
    under [attributes]. *)
Definition nested_values (scheme : element) : list string :=
  flat_map (fun attributes =>
    flat_map (fun option =>
      flat_map (fun value => flat_map value_of (children_tagged "option" value))
               (children_tagged "value" option))
      (children_tagged "option" attributes))
    (children_tagged "attributes" scheme).

End SpecGen.

(** * What a line of a theme file says *)

Module SpecParser.

Import GhosttyParser.

(** The key of a line: none on a blank line, on a comment and on a line
    without [=]. *)
Definition line_key (line : string) : option string :=
  let line := Py.strip line in
  if String.eqb line "" || Py.startswith_char "#" line then None else
  match Py.split1 "=" line with
  | Some (key, _) => Some (Py.strip key)
  | None => None
  end.

(** The value of a line: what follows the first [=], stripped. *)
Definition line_value (line : string) : string :=
  match Py.split1 "=" (Py.strip line) with
  | Some (_, value) => Py.strip value
  | None => ""
  end.

(** The palette slot that a line assigns, with the colour. *)
Definition line_slot (line : string) : option (Z * string) :=
  match line_key line with
  | Some key =>
      if String.eqb key "palette" then
        match Py.split1 "=" (line_value line) with
        | Some (index, color) =>
            match Py.int 10 index with
            | Ok k => Some (k, Py.strip color)
            | Raise _ => None
            end
        | None => None
        end
      else None
  | None => None
  end.

Definition assigns_slot (k : Z) (line : string) : bool :=
  match line_slot line with
  | Some (k', _) => (k' =? k)%Z
  | None => false
  end.

(** The field of the theme that a key names. *)
Definition field_of (key : string) : option (GhosttyTheme -> string) :=
  if String.eqb key "background" then Some background
  else if String.eqb key "foreground" then Some foreground
  else if String.eqb key "cursor-color" then Some cursor_color
  else if String.eqb key "cursor-text" then Some cursor_text
  else if String.eqb key "selection-background" then Some selection_background
  else if String.eqb key "selection-foreground" then Some selection_foreground
  else None.

Definition has_key (key : string) (line : string) : bool :=
  match line_key line with
  | Some k => String.eqb k key
  | None => false
  end.

(** A line that names no field and assigns no palette slot. *)
Definition says_nothing (line : string) : bool :=
  match line_key line with
  | Some key =>
      if String.eqb key "palette" then
        match line_slot line with Some _ => false | None => true end
      else match field_of key with Some _ => false | None => true end
  | None => true
  end.

(** A line whose colour, if it sets one that a document reads, is
    written as [#] and six hexadecimal digits. *)
Definition sets_a_color (line : string) : bool :=
  match line_key line with
  | Some key =>
      if String.eqb key "palette" then
        match line_slot line with
        | Some (_, c) => Spec.is_hex_color c
        | None => true
        end
      else if String.eqb key "cursor-text" then true
      else match field_of key with
           | Some _ => Spec.is_hex_color (line_value line)
           | None => true
           end
  | None => true
  end.

End SpecParser.

(** * Colour strings as the primitives read them *)

Module SpecInput.

Import Spec ColorDerivator.

(** Two colour strings that every colour function treats alike, with
    the same result or the same exception. *)
Definition read_alike (a b : string) : Prop :=
  (forall factor, adjust_brightness a factor = adjust_brightness b factor) /\
  (forall factor, adjust_saturation a factor = adjust_saturation b factor) /\
  (forall other ratio, blend_colors a other ratio = blend_colors b other ratio) /\
  (forall other ratio, blend_colors other a ratio = blend_colors other b ratio) /\
  (forall pow, _get_luminance pow a = _get_luminance pow b).

(** A colour string that every colour function refuses with
    [ValueError]. *)
Definition refused (s : string) : Prop :=
  (forall factor, adjust_brightness s factor = Raise ValueError) /\
  (forall factor, adjust_saturation s factor = Raise ValueError) /\
  (forall other ratio, blend_colors s other ratio = Raise ValueError) /\
  (forall other ratio, blend_colors other s ratio = Raise ValueError) /\
  (forall pow, _get_luminance pow s = Raise ValueError) /\
  (forall pow t, background t = s -> is_dark pow t = Raise ValueError).

End SpecInput.

(** * What the documents are made of *)

Module SpecDocs.

Import Spec GhosttyParser PhpStormThemeGenerator.

(** The strings at the leaves of a JSON value. *)
Fixpoint strings_of (j : json) : list string :=
  match j with
  | JStr s => [s]
  | JInt _ | JBool _ => []
  | JObj members => flat_map (fun kv => strings_of (snd kv)) members
  end.

(** A call that returns a JSON value whose strings are all colours. *)
Definition returns_colors (r : result json) : Prop :=
  exists j, r = Ok j /\ Forall (fun s => is_hex_color s = true) (strings_of j).

(** The generator [self] on another theme. *)
Definition on_theme (self : generator) (t : GhosttyTheme) : generator :=
  {| ghostty := t; theme_id := theme_id self |}.

(** The three documents of a conversion. *)
Definition documents (pow : float -> float -> float) (self : generator)
  : result json * result element * result string :=
  (generate_theme_json pow self, generate_editor_scheme pow self,
   generate_plugin_xml pow self).

(** The palette slots that the documents read. *)
Definition slots_read : list Z := [1; 2; 3; 4; 5; 6; 8].

(** [j[key]] for an object [j]. *)
Definition json_member (key : string) (j : json) : option json :=
  match j with
  | JObj members =>
      match List.find (fun kv => String.eqb (fst kv) key) members with
      | Some kv => Some (snd kv)
      | None => None
      end
  | _ => None
  end.

(** The text [piece] occurs in [s]. *)
Definition occurs (piece s : string) : Prop :=
  exists before after, s = (before ++ piece ++ after)%string.

(** [s] starts with [piece]. *)
Definition starts_with (piece s : string) : Prop :=
  exists after, s = (piece ++ after)%string.


(** A double quote. *)
Definition dq : string := String (ascii_of_N 34) "".

End SpecDocs.

(** * Lines of a text *)

Module SpecIcls.

(** The lines [lines], each followed by a line feed. *)
Fixpoint terminated (lines : list string) : string :=
  match lines with
  | [] => ""
  | l :: ls => l ++ String "010" (terminated ls)
  end.

End SpecIcls.

(** * The meaning of binary64 floats

    [Prim2SF] gives every primitive float its sign, mantissa and exponent;
    a finite float stands for the real number [m * 2^e].  The lemmas
    below derive, from the specification of the primitive operations, that
    the result of an operation stays within any two representable numbers
    that enclose the exact result. *)

Module FloatSem.

Local Open Scope Z_scope.


(** The real number [2^e]. *)
Definition bpow (e : Z) : R := powerRZ 2 e.

Definition SF_finite (x : spec_float) : bool :=
  match x with
  | S754_zero _ | S754_finite _ _ _ => true
  | S754_infinity _ | S754_nan => false
  end.

(** The real number that a finite float stands for. *)
Definition SF_value (x : spec_float) : R :=
  match x with
  | S754_finite s m e => ((if s then - IZR (Zpos m) else IZR (Zpos m)) * bpow e)%R
  | _ => 0%R
  end.

Definition finite (f : float) : Prop := SF_finite (Prim2SF f) = true.
Definition value (f : float) : R := SF_value (Prim2SF f).

(** A real number that some finite binary64 float stands for: a multiple
    [n * 2^k] with a mantissa of at most 53 bits and an exponent in range. *)
Definition representable (q : R) : Prop :=
  exists n k : Z, (Z.abs n < 2 ^ 53)%Z /\ (-1074 <= k <= 971)%Z /\ q = (IZR n * bpow k)%R.

(** The record [mrs] with exponent [e] brackets the real [x]: [x] lies
    in the interval of [m * 2^e] and its successor, it is the lower end
    when both flags are clear, and it is strictly inside when the round
    flag is set. *)
Definition brackets (mrs : shr_record) (e : Z) (x : R) : Prop :=
  (IZR (shr_m mrs) * bpow e <= x < (IZR (shr_m mrs) + 1) * bpow e)%R /\
  (shr_r mrs = false -> shr_s mrs = false -> x = (IZR (shr_m mrs) * bpow e)%R) /\
  (shr_r mrs = true -> (IZR (shr_m mrs) * bpow e < x)%R).

(** A non-negative real that a float of unbounded exponent stands for. *)
Definition pos_repr (B : R) : Prop :=
  exists n k : Z, 0 <= n < 2 ^ 53 /\ -1074 <= k /\ B = (IZR n * bpow k)%R.


Definition signed (s : bool) (m : Z) : Z := if s then - m else m.

(** A finite float with a value between the integers [lo] and [hi]. *)
Definition in_range (lo hi : Z) (x : float) : Prop :=
  finite x /\ (IZR lo <= value x <= IZR hi)%R.

(** A finite float with a value between 0 and 1. *)
Definition unit_float (x : float) : Prop := in_range 0 1 x.

(** The channel value [n] out of 255 on the grid of multiples of
    [2^-20], rounded down. *)
Definition grid (n : Z) : Z := n * 2 ^ 20 / 255.

(** The step of that grid. *)
Definition grid_unit : R := bpow (-20).

End FloatSem.
(** * Properties *)

(** ** The error monad *)

Lemma bind_Ok {A B} (r : result A) (k : A -> result B) (b : B) :
  bind r k = Ok b <-> exists a, r = Ok a /\ k a = Ok b.
Proof.
  destruct r as [a|e]; simpl; split.
  - intros H. exists a. split; [reflexivity | exact H].
  - intros (a' & Ha & Hk). inversion Ha; subst. exact Hk.
  - discriminate.
  - intros (a' & Ha & _). discriminate.
Qed.

Lemma succeeds_Ok {A} (a : A) : succeeds (Ok a).
Proof. exists a. reflexivity. Qed.

Lemma succeeds_bind {A B} (r : result A) (k : A -> result B) :
  succeeds r -> (forall a, r = Ok a -> succeeds (k a)) -> succeeds (bind r k).
Proof.
  intros [a ->] Hk. simpl. apply Hk. reflexivity.
Qed.

(** ** The parser *)

Module ParserFacts.

Import GhosttyParser.

(** [int] raises nothing but [ValueError]. *)
Lemma int_raises_ValueError base s e : Py.int base s = Raise e -> e = ValueError.
Proof.
  unfold Py.int.
  destruct (Py.skip_c_space s) as [|c s']; [|destruct (Ascii.eqb_spec c "+"); [|destruct (Ascii.eqb_spec c "-")]].
  all: repeat match goal with
       | |- context [match ?x with _ => _ end] => destruct x
       end; congruence.
Qed.

Lemma try_except_int {A} base s (k : Z -> A) (h : A) :
  succeeds (try_except_ValueError (let* n := Py.int base s in Ok (k n)) (Ok h)).
Proof.
  destruct (Py.int base s) as [n|e] eqn:E; simpl.
  - apply succeeds_Ok.
  - apply int_raises_ValueError in E. subst e. apply succeeds_Ok.
Qed.

Lemma parse_line_succeeds theme line : succeeds (parse_line theme line).
Proof.
  unfold parse_line.
  repeat match goal with
  | |- succeeds (Ok _) => apply succeeds_Ok
  | |- succeeds (try_except_ValueError _ _) => apply try_except_int
  | |- succeeds (if ?b then _ else _) => destruct b
  | |- succeeds (match ?x with _ => _ end) => destruct x
  end.
Qed.

Lemma parse_lines_succeeds lines : forall theme, succeeds (parse_lines theme lines).
Proof.
  induction lines as [|l ls IH]; intros theme; simpl.
  - apply succeeds_Ok.
  - apply succeeds_bind; [apply parse_line_succeeds | intros; apply IH].
Qed.

Lemma parse_lines_app l1 l2 theme :
  parse_lines theme (l1 ++ l2)%list = (let* t := parse_lines theme l1 in parse_lines t l2).
Proof.
  revert theme. induction l1 as [|x xs IH]; intros theme; simpl; [reflexivity|].
  destruct (parse_line theme x); simpl; [apply IH | reflexivity].
Qed.

End ParserFacts.

Module ParserClaims.

Import GhosttyParser Spec ParserFacts.

Lemma malformed_line_skipped theme line :
  malformed_palette_line line -> parse_line theme line = Ok theme.
Proof.
  intros (key & value & Hsplit & Hkey & Hval).
  unfold parse_line. rewrite Hsplit, Hkey. simpl.
  destruct (_ || _); [reflexivity|].
  destruct (Py.split1 "=" (Py.strip value)) as [[index color]|]; [|reflexivity].
  rewrite Hval. reflexivity.
Qed.

Lemma keeps_slot_lines k post :
  Forall (keeps_slot k) post ->
  forall t, exists t', parse_lines t post = Ok t' /\ palette t' !! k = palette t !! k.
Proof.
  induction 1 as [|l ls Hl _ IH]; intros t; simpl.
  - exists t. split; reflexivity.
  - destruct (Hl t) as (t1 & -> & E1). simpl.
    destruct (IH t1) as (t2 & -> & E2). exists t2. split; [reflexivity | congruence].
Qed.

(** C8.  A file with the line [palette=4=#123456], none of the later
    lines touching slot 4, parses to a theme whose palette slot 4 is
    ["#123456"].  A malformed palette line, such as [palette=notanumber],
    is skipped: the theme is as before the line and the file parses as
    if the line were not there, without an exception. *)
Theorem palette_line_parsed file_name text pre post bad :
  file_lines text = (pre ++ "palette=4=#123456" :: post)%list ->
  Forall (keeps_slot 4) post ->
  malformed_palette_line bad ->
  (exists t, parse_theme_file file_name text = Ok t /\ palette t !! 4 = Some "#123456") /\
  (forall theme, parse_line theme "palette=notanumber" = Ok theme) /\
  (forall theme, parse_line theme bad = Ok theme) /\
  (forall theme before after,
      parse_lines theme (before ++ bad :: after)%list =
      parse_lines theme (before ++ after)%list).
Proof.
  intros Hlines Hpost Hbad. split; [|split; [|split]].
  - unfold parse_theme_file. rewrite Hlines, parse_lines_app.
    destruct (parse_lines_succeeds pre (new_theme file_name)) as [t1 ->].
    assert (E0 : forall t, parse_line t "palette=4=#123456" = Ok (set_palette t 4 "#123456"))
      by (intros t; lazy -[set_palette]; reflexivity).
    cbn [bind parse_lines]. rewrite E0. cbn [bind].
    destruct (keeps_slot_lines 4 post Hpost (set_palette t1 4 "#123456")) as (t2 & -> & E).
    exists t2. split; [reflexivity|]. rewrite E. apply lookup_insert_eq.
  - intros theme. lazy. reflexivity.
  - intros theme. apply malformed_line_skipped, Hbad.
  - intros theme before after. rewrite !parse_lines_app.
    destruct (parse_lines theme before) as [t1|e]; simpl; [|reflexivity].
    rewrite (malformed_line_skipped t1 bad Hbad). reflexivity.
Qed.

Lemma palette_line_parsed_witness :
  (exists t, parse_theme_file "demo"
      (String.concat (String "010" "")
         ["background=#111111"; "palette=4=#123456"; "palette=notanumber"; "cursor-text = #222222"]) = Ok t /\
     palette t !! 4 = Some "#123456") /\
  (forall theme, parse_line theme "palette=x=#123456" = Ok theme).
Proof.
  pose proof (palette_line_parsed "demo"
      (String.concat (String "010" "")
         ["background=#111111"; "palette=4=#123456"; "palette=notanumber"; "cursor-text = #222222"])
      ["background=#111111"] ["palette=notanumber"; "cursor-text = #222222"]
      "palette=x=#123456") as H.
  destruct H as (H1 & _ & H3 & _).
  - vm_compute. reflexivity.
  - repeat constructor; intros t; eexists; (split; [lazy; reflexivity | reflexivity]).
  - exists "palette", "x=#123456". split; [|split]; vm_compute; reflexivity.
  - split; assumption.
Defined.

End ParserClaims.

(** ** Hexadecimal colour strings *)

Module HexFacts.

Import Spec Enum.

Lemma channel_values_spec n : 0 <= n <= 255 -> In n channel_values.
Proof.
  intros H. unfold channel_values. replace n with (Z.of_nat (Z.to_nat n)) by lia.
  apply in_map, in_seq. lia.
Qed.

Lemma channel_values_range n : In n channel_values -> 0 <= n <= 255.
Proof.
  unfold channel_values. intros H. apply in_map_iff in H as (k & <- & Hk).
  apply in_seq in Hk. lia.
Qed.

Lemma all_ascii_spec c : In c all_ascii.
Proof.
  unfold all_ascii. rewrite <- (ascii_nat_embedding c).
  apply in_map, in_seq. pose proof (nat_ascii_bounded c). lia.
Qed.

Lemma forallb_In {A} (f : A -> bool) (l : list A) :
  forallb f l = true -> forall x, In x l -> f x = true.
Proof. intros H x Hx. rewrite forallb_forall in H. apply H, Hx. Qed.

Lemma hex_pairs_checked : forallb hex_pair_row all_ascii = true.
Proof. vm_compute. reflexivity. Qed.

Lemma hex_pair c1 c2 :
  is_hex_digit c1 = true -> is_hex_digit c2 = true -> hex_pair_ok c1 c2 = true.
Proof.
  intros H1 H2.
  pose proof (forallb_In hex_pair_row all_ascii hex_pairs_checked c1 (all_ascii_spec c1)) as H.
  pose proof (forallb_In (hex_pair_cell c1) all_ascii H c2 (all_ascii_spec c2)) as H'.
  unfold hex_pair_cell in H'. rewrite H1, H2 in H'. exact H'.
Qed.

Lemma hex_pair_int c1 c2 :
  is_hex_digit c1 = true -> is_hex_digit c2 = true ->
  Py.int 16 (String c1 (String c2 "")) = Ok (hex_pair_value c1 c2) /\
  0 <= hex_pair_value c1 c2 <= 255 /\
  Py.format_02x (hex_pair_value c1 c2) = Py.lower (String c1 (String c2 "")) /\
  c1 <> "#"%char.
Proof.
  intros H1 H2. pose proof (hex_pair c1 c2 H1 H2) as H. unfold hex_pair_ok in H.
  repeat (apply andb_prop in H as [H ?]).
  split; [|split; [|split]].
  - unfold result_Z_eqb in H. destruct (Py.int 16 _); [|discriminate].
    apply Z.eqb_eq in H. congruence.
  - lia.
  - apply String.eqb_eq. assumption.
  - intros ->. discriminate.
Qed.

(** The shape of a string accepted by [six]. *)
Lemma six_inv p s :
  six p s = true ->
  exists c1 c2 c3 c4 c5 c6,
    s = String c1 (String c2 (String c3 (String c4 (String c5 (String c6 ""))))) /\
    p c1 = true /\ p c2 = true /\ p c3 = true /\ p c4 = true /\ p c5 = true /\ p c6 = true.
Proof.
  unfold six. intros H. apply andb_prop in H as [Hlen Hall].
  apply Nat.eqb_eq in Hlen.
  do 6 (destruct s as [|? s]; [discriminate|]).
  destruct s; [|discriminate].
  simpl in Hall. repeat (apply andb_prop in Hall as [? Hall]).
  repeat eexists; eassumption.
Qed.

(** What the converter reads from a colour of the form [#rrggbb]: the
    three channels, each between 0 and 255, which print back as the colour
    in lower case. *)
Lemma hex_color_channels s :
  is_hex_color s = true ->
  exists r g b,
    hex_channels (Py.lstrip_char "#" s) = Ok (r, g, b) /\
    0 <= r <= 255 /\ 0 <= g <= 255 /\ 0 <= b <= 255 /\
    format_color r g b = Py.lower s.
Proof.
  destruct s as [|c0 s]; [discriminate|]. simpl.
  destruct (Ascii.eqb_spec c0 "#") as [->|Hne].
  2:{ intros H. exfalso. revert H.
      destruct c0 as [[] [] [] [] [] [] [] []]; try discriminate. congruence. }
  intros H. apply six_inv in H as (c1 & c2 & c3 & c4 & c5 & c6 & -> & H1 & H2 & H3 & H4 & H5 & H6).
  destruct (hex_pair_int c1 c2 H1 H2) as (E1 & R1 & F1 & N1).
  destruct (hex_pair_int c3 c4 H3 H4) as (E2 & R2 & F2 & _).
  destruct (hex_pair_int c5 c6 H5 H6) as (E3 & R3 & F3 & _).
  exists (hex_pair_value c1 c2), (hex_pair_value c3 c4), (hex_pair_value c5 c6).
  assert (Hstrip : Py.lstrip_char "#" (String c1 (String c2 (String c3 (String c4 (String c5 (String c6 "")))))) =
                   String c1 (String c2 (String c3 (String c4 (String c5 (String c6 ""))))))
    by (simpl; destruct (Ascii.eqb_spec c1 "#"); [contradiction | reflexivity]).
  rewrite Hstrip. split; [|split; [|split; [|split]]]; try assumption.
  - unfold hex_channels, Py.slice. simpl substring.
    rewrite E1. simpl bind. rewrite E2. simpl bind. rewrite E3. reflexivity.
  - unfold format_color. rewrite F1, F2, F3. reflexivity.
Qed.

Lemma lower_hex_color_fixed s : is_lower_hex_color s = true -> Py.lower s = s.
Proof.
  assert (Hc : forall c, is_lower_hex_digit c = true -> Py.lower_char c = c).
  { intros c. destruct c as [[] [] [] [] [] [] [] []]; vm_compute; congruence. }
  assert (Hs : forall s, all_chars is_lower_hex_digit s = true -> Py.lower s = s).
  { induction s0 as [|c s0 IH]; simpl; [reflexivity|].
    intros H. apply andb_prop in H as [H1 H2]. rewrite (Hc c H1), (IH H2). reflexivity. }
  destruct s as [|c s]; [discriminate|]. simpl.
  destruct c as [[] [] [] [] [] [] [] []]; try discriminate.
  unfold six. intros H. apply andb_prop in H as [_ H]. rewrite (Hs s H). reflexivity.
Qed.

Lemma lower_is_hex_color s : is_lower_hex_color s = true -> is_hex_color s = true.
Proof.
  assert (Hc : forall c, is_lower_hex_digit c = true -> is_hex_digit c = true).
  { intros c. destruct c as [[] [] [] [] [] [] [] []]; vm_compute; congruence. }
  assert (Hs : forall s, all_chars is_lower_hex_digit s = true -> all_chars is_hex_digit s = true).
  { induction s0 as [|c s0 IH]; simpl; [reflexivity|].
    intros H. apply andb_prop in H as [H1 H2]. rewrite (Hc c H1), (IH H2). reflexivity. }
  destruct s as [|c s]; [discriminate|]. simpl.
  destruct c as [[] [] [] [] [] [] [] []]; try discriminate.
  unfold six. intros H. apply andb_prop in H as [-> H]. rewrite (Hs s H). reflexivity.
Qed.

End HexFacts.

(** ** Floats: comparisons and facts checked on the 256 channel values *)

Module FloatFacts.

Import Enum FloatEnum HexFacts.
Local Open Scope float_scope.

Lemma ltb_leb x y : (x <? y) = true -> (x <=? y) = true.
Proof.
  rewrite FloatAxioms.ltb_spec, FloatAxioms.leb_spec. unfold SFltb, SFleb.
  destruct (SFcompare (Prim2SF x) (Prim2SF y)) as [[]|]; congruence.
Qed.


Lemma blend_ends_checked : forallb blend_ends_cell channel_values = true.
Proof. vm_compute. reflexivity. Qed.

Lemma grey_round_trip_checked : forallb grey_round_trip_cell channel_values = true.
Proof. vm_compute. reflexivity. Qed.

Lemma result_Z_eqb_eq r n : result_Z_eqb r n = true -> r = Ok n.
Proof.
  destruct r as [m|e]; simpl; [|discriminate].
  intros H. apply Z.eqb_eq in H. congruence.
Qed.


Lemma max2_cases a b : PyFloat.max2 a b = a \/ PyFloat.max2 a b = b.
Proof. unfold PyFloat.max2. destruct (a <? b); auto. Qed.

Lemma min2_cases a b : PyFloat.min2 a b = a \/ PyFloat.min2 a b = b.
Proof. unfold PyFloat.min2. destruct (b <? a); auto. Qed.

Lemma max3_cases a b c :
  PyFloat.max3 a b c = a \/ PyFloat.max3 a b c = b \/ PyFloat.max3 a b c = c.
Proof.
  unfold PyFloat.max3.
  destruct (max2_cases (PyFloat.max2 a b) c) as [-> | ->]; [|auto].
  destruct (max2_cases a b) as [-> | ->]; auto.
Qed.

Lemma min3_cases a b c :
  PyFloat.min3 a b c = a \/ PyFloat.min3 a b c = b \/ PyFloat.min3 a b c = c.
Proof.
  unfold PyFloat.min3.
  destruct (min2_cases (PyFloat.min2 a b) c) as [-> | ->]; [|auto].
  destruct (min2_cases a b) as [-> | ->]; auto.
Qed.

(** The value that [clamp01] returns is 0, 1 or its argument, and lies
    between 0 and 1 whatever the argument, a NaN included. *)
Lemma clamp01_range x :
  (0 <=? PyFloat.clamp01 x) = true /\ (PyFloat.clamp01 x <=? 1) = true.
Proof.
  unfold PyFloat.clamp01, PyFloat.max2, PyFloat.min2.
  destruct (x <? 1) eqn:H1.
  - destruct (0 <? x) eqn:H0.
    + split; apply ltb_leb; assumption.
    + split; reflexivity.
  - change (0 <? 1) with true. cbv iota. split; reflexivity.
Qed.

(** [rgb_to_hsv] returns the largest channel as V. *)
Lemma rgb_to_hsv_v r g b h s v :
  colorsys.rgb_to_hsv r g b = Ok (h, s, v) -> v = PyFloat.max3 r g b.
Proof.
  unfold colorsys.rgb_to_hsv.
  destruct (_ =? _).
  - intros H. inversion H. reflexivity.
  - repeat match goal with
    | |- context [PyFloat.div ?a ?b] => destruct (PyFloat.div a b); simpl; [|discriminate]
    end.
    intros H. inversion H. reflexivity.
Qed.

Lemma unit_channels_of c r g b :
  hex_channels c = Ok (r, g, b) ->
  unit_channels c = Ok (unit_of r, unit_of g, unit_of b).
Proof. unfold unit_channels. intros ->. reflexivity. Qed.

End FloatFacts.

(** ** Rounding of binary64 operations *)

Module FloatTheory.

Import FloatSem.
Local Open Scope Z_scope.


Lemma bpow_pos e : (0 < bpow e)%R.
Proof. apply powerRZ_lt. lra. Qed.

Lemma bpow_add a b : bpow (a + b) = (bpow a * bpow b)%R.
Proof. apply powerRZ_add. lra. Qed.

Lemma bpow_nonneg e : 0 <= e -> bpow e = IZR (2 ^ e).
Proof.
  intros He. unfold bpow. rewrite <- (Z2Nat.id e He) at 1.
  rewrite <- pow_powerRZ, pow_IZR, Z2Nat.id by exact He. reflexivity.
Qed.

Lemma bpow_succ e : bpow (e + 1) = (2 * bpow e)%R.
Proof. rewrite bpow_add. change (bpow 1) with (2 * 1)%R. lra. Qed.

Lemma bpow_le a b : a <= b -> (bpow a <= bpow b)%R.
Proof.
  intros H. replace b with (a + (b - a)) by lia. rewrite bpow_add.
  rewrite (bpow_nonneg (b - a)) by lia.
  assert (1 <= 2 ^ (b - a)) by (apply Z.lt_pred_le; apply Z.pow_pos_nonneg; lia).
  apply IZR_le in H0. pose proof (bpow_pos a). nra.
Qed.

(** ** One shift to the right *)

Lemma shr_1_m mrs : 0 <= shr_m mrs -> shr_m (shr_1 mrs) = shr_m mrs / 2.
Proof.
  destruct mrs as [m r s]. simpl. intros Hm.
  destruct m as [|[p|p|]|p]; simpl; try reflexivity; try lia.
  - apply Z.div_unique with (r := 1); lia.
  - apply Z.div_unique with (r := 0); lia.
Qed.

Lemma shr_1_brackets mrs e x :
  0 <= shr_m mrs -> brackets mrs e x -> brackets (shr_1 mrs) (e + 1) x.
Proof.
  destruct mrs as [m r s]. unfold brackets. simpl shr_m. simpl shr_r. simpl shr_s.
  intros Hm ((Hlo & Hhi) & Hex & Hin).
  rewrite bpow_succ. pose proof (bpow_pos e) as Hp.
  destruct m as [|[p|p|]|p]; simpl; try lia.
  - (* 0 *)
    split; [split; lra|]. split; [|discriminate].
    intros _ Hs. apply orb_false_elim in Hs as [-> ->]. rewrite Hex by reflexivity. lra.
  - (* 2p+1 *)
    rewrite Pos2Z.inj_xI in *. rewrite plus_IZR, mult_IZR in *.
    split; [split; lra|]. split; [discriminate|]. intros _. lra.
  - (* 2p *)
    rewrite Pos2Z.inj_xO in *. rewrite mult_IZR in *.
    split; [split; lra|]. split; [|discriminate].
    intros _ Hs. apply orb_false_elim in Hs as [-> ->]. rewrite Hex by reflexivity. lra.
  - (* 1 *)
    split; [split; lra|]. split; [discriminate|]. intros _. lra.
Qed.

(** ** Several shifts *)

Lemma iter_shr_1 p : forall mrs e x,
  0 <= shr_m mrs -> brackets mrs e x ->
  brackets (SpecFloat.iter_pos shr_1 p mrs) (e + Zpos p) x /\
  shr_m (SpecFloat.iter_pos shr_1 p mrs) = shr_m mrs / 2 ^ Zpos p.
Proof.
  assert (Hnn : forall mrs, 0 <= shr_m mrs -> 0 <= shr_m (shr_1 mrs)).
  { intros mrs H. rewrite shr_1_m by exact H. apply Z.div_pos; lia. }
  induction p as [p IH|p IH|]; intros mrs e x Hm Hb.
  - change (SpecFloat.iter_pos shr_1 p~1 mrs)
      with (SpecFloat.iter_pos shr_1 p (SpecFloat.iter_pos shr_1 p (shr_1 mrs))).
    destruct (IH (shr_1 mrs) (e + 1) x (Hnn _ Hm) (shr_1_brackets _ _ _ Hm Hb)) as [B1 M1].
    assert (Hm1 : 0 <= shr_m (SpecFloat.iter_pos shr_1 p (shr_1 mrs))).
    { rewrite M1. apply Z.div_pos; [apply Hnn, Hm | lia]. }
    destruct (IH _ _ x Hm1 B1) as [B2 M2]. split.
    + replace (e + Zpos p~1) with (e + 1 + Zpos p + Zpos p) by lia. exact B2.
    + rewrite M2, M1, shr_1_m by exact Hm.
      rewrite !Z.div_div by lia. f_equal.
      replace (Zpos p~1) with (1 + Zpos p + Zpos p) by lia.
      rewrite !Z.pow_add_r by lia. change (2 ^ 1) with 2. ring.
  - change (SpecFloat.iter_pos shr_1 p~0 mrs)
      with (SpecFloat.iter_pos shr_1 p (SpecFloat.iter_pos shr_1 p mrs)).
    destruct (IH mrs e x Hm Hb) as [B1 M1].
    assert (Hm1 : 0 <= shr_m (SpecFloat.iter_pos shr_1 p mrs)).
    { rewrite M1. apply Z.div_pos; [exact Hm | lia]. }
    destruct (IH _ _ x Hm1 B1) as [B2 M2]. split.
    + replace (e + Zpos p~0) with (e + Zpos p + Zpos p) by lia. exact B2.
    + rewrite M2, M1. rewrite Z.div_div by lia. f_equal.
      replace (Zpos p~0) with (Zpos p + Zpos p) by lia.
      rewrite Z.pow_add_r by lia. reflexivity.
  - change (SpecFloat.iter_pos shr_1 1 mrs) with (shr_1 mrs).
    split; [apply shr_1_brackets; assumption|].
    rewrite shr_1_m by exact Hm. reflexivity.
Qed.


Lemma fexp_eq e : fexp prec emax e = Z.max (e - 53) (-1074).
Proof. reflexivity. Qed.

Lemma digits2_size p : digits2_pos p = Pos.size p.
Proof. induction p; simpl; congruence. Qed.

Lemma digits_bounds m :
  0 < m -> 0 < Zdigits2 m /\ 2 ^ (Zdigits2 m - 1) <= m < 2 ^ Zdigits2 m.
Proof.
  destruct m as [|p|p]; try lia. intros _. simpl Zdigits2. rewrite digits2_size.
  split; [lia|]. split.
  - pose proof (Pos.size_le p) as H.
    assert (H' : 2 ^ Zpos (Pos.size p) <= 2 * Zpos p).
    { change 2 with (Zpos 2) at 1. rewrite <- Pos2Z.inj_pow. 
      change (2 * Zpos p) with (Zpos p~0). apply Pos2Z.pos_le_pos. exact H. }
    replace (Zpos (Pos.size p)) with (Zpos (Pos.size p) - 1 + 1) in H' by lia.
    rewrite Z.pow_add_r in H' by lia. lia.
  - pose proof (Pos.size_gt p) as H.
    change 2 with (Zpos 2). rewrite <- Pos2Z.inj_pow. apply Pos2Z.pos_lt_pos. exact H.
Qed.

Lemma shr_record_of_loc_m m l : shr_m (shr_record_of_loc m l) = m.
Proof. destruct l as [|[]]; reflexivity. Qed.

(** The first normalisation of [binary_round_aux]: the mantissa is cut
    down to at most 53 bits, and to exactly 53 unless the exponent is the
    least one. *)
Lemma shr_fexp_spec m e l x :
  0 <= m ->
  brackets (shr_record_of_loc m l) e x ->
  e <= fexp prec emax (Zdigits2 m + e) ->
  let mrs' := fst (shr_fexp prec emax m e l) in
  let e' := snd (shr_fexp prec emax m e l) in
  brackets mrs' e' x /\ -1074 <= e' /\ e <= e' /\
  0 <= shr_m mrs' < 2 ^ 53 /\ (e' = -1074 \/ 2 ^ 52 <= shr_m mrs').
Proof.
  intros Hm Hb He. unfold shr_fexp, shr. rewrite fexp_eq in *.
  set (d := Zdigits2 m) in *.
  assert (Hd : m = 0 /\ d = 0 \/ 0 < m /\ 0 < d /\ 2 ^ (d - 1) <= m < 2 ^ d).
  { destruct (Z.eq_dec m 0) as [->|Hne]; [left; split; reflexivity|].
    right. split; [lia|]. apply digits_bounds. lia. }
  destruct (Z.max (d + e - 53) (-1074) - e) as [|p|p] eqn:En; cbv zeta; simpl fst; simpl snd.
  - (* no shift *)
    rewrite shr_record_of_loc_m. split; [exact Hb|].
    destruct Hd as [[-> ->]|(Hm0 & Hd0 & Hlo & Hhi)].
    + lia.
    + assert (d <= 53) by lia.
      assert (2 ^ d <= 2 ^ 53) by (apply Z.pow_le_mono_r; lia).
      repeat split; try lia.
      destruct (Z.eq_dec e (-1074)); [left; assumption | right].
      assert (d = 53) by lia. subst d. replace (53 - 1) with 52 in Hlo by lia. rewrite H1 in Hlo. exact Hlo.
  - (* a shift by p *)
    pose proof (iter_shr_1 p (shr_record_of_loc m l) e x) as H.
    rewrite shr_record_of_loc_m in H. destruct (H Hm Hb) as [B M]. clear H.
    split; [exact B|]. rewrite M.
    assert (Hp : 0 < 2 ^ Zpos p) by (apply Z.pow_pos_nonneg; lia).
    destruct Hd as [[-> ->]|(Hm0 & Hd0 & Hlo & Hhi)].
    + rewrite Z.div_0_l by lia. repeat split; try lia.
    + assert (Hle : d - 53 <= Zpos p) by lia.
      split; [lia|]. split; [lia|]. split; [split|].
      * apply Z.div_pos; lia.
      * apply Z.div_lt_upper_bound; [lia|].
        destruct (Z_lt_le_dec d (Zpos p)) as [Hlt|Hge].
        -- assert (2 ^ d <= 2 ^ Zpos p) by (apply Z.pow_le_mono_r; lia).
           assert (1 <= 2 ^ 53) by lia. nia.
        -- assert (2 ^ d = 2 ^ Zpos p * 2 ^ (d - Zpos p)).
           { rewrite <- Z.pow_add_r by lia. f_equal. lia. }
           assert (2 ^ (d - Zpos p) <= 2 ^ 53) by (apply Z.pow_le_mono_r; lia).
           nia.
      * destruct (Z.eq_dec (e + Zpos p) (-1074)); [left; assumption | right].
        assert (Zpos p = d - 53) by lia.
        apply Z.div_le_lower_bound; [lia|].
        assert (2 ^ (d - 1) = 2 ^ Zpos p * 2 ^ 52).
        { rewrite <- Z.pow_add_r by lia. f_equal. lia. }
        lia.
  - lia.
Qed.


Lemma bpow_split a b : bpow a = (bpow (a - b) * bpow b)%R.
Proof. rewrite <- bpow_add. f_equal. lia. Qed.

(** A representable number above [m * 2^e] is at least [(m+1) * 2^e],
    and one below [(m+1) * 2^e] is at most [m * 2^e], when [m] has 53 bits
    or [e] is the least exponent: there is no float in between. *)
Lemma no_float_between m e B :
  0 <= m < 2 ^ 53 -> (e = -1074 \/ 2 ^ 52 <= m) ->
  pos_repr B ->
  ((IZR m * bpow e < B)%R -> ((IZR m + 1) * bpow e <= B)%R) /\
  ((B < (IZR m + 1) * bpow e)%R -> (B <= IZR m * bpow e)%R).
Proof.
  intros Hm Hcan (n & k & Hn & Hk & ->).
  pose proof (bpow_pos e) as He. pose proof (bpow_pos k) as Hkp.
  destruct (Z_le_gt_dec e k) as [Hek|Hek].
  - (* B is a multiple of 2^e *)
    rewrite (bpow_split k e). rewrite (bpow_nonneg (k - e)) by lia.
    rewrite <- Rmult_assoc, <- mult_IZR. set (N := n * 2 ^ (k - e)).
    split; intros H.
    + assert (IZR m < IZR N)%R by nra. apply lt_IZR in H0.
      assert (IZR (m + 1) <= IZR N)%R by (apply IZR_le; lia).
      rewrite plus_IZR in H1. nra.
    + assert (IZR N < IZR (m + 1))%R by (rewrite plus_IZR; nra). apply lt_IZR in H0.
      assert (IZR N <= IZR m)%R by (apply IZR_le; lia). nra.
  - (* B is below the binade of m *)
    assert (Hm52 : 2 ^ 52 <= m) by lia.
    assert (HB : (IZR n * bpow k <= IZR m * bpow e)%R).
    { rewrite (bpow_split e k). rewrite (bpow_nonneg (e - k)) by lia.
      rewrite <- Rmult_assoc, <- mult_IZR.
      apply Rmult_le_compat_r; [lra|]. apply IZR_le.
      assert (2 <= 2 ^ (e - k)).
      { change 2 with (2 ^ 1) at 1. apply Z.pow_le_mono_r; lia. }
      nia. }
    split; intros H; lra.
Qed.

Lemma round_nearest_even_cases mrs :
  let m' := round_nearest_even (shr_m mrs) (loc_of_shr_record mrs) in
  m' = shr_m mrs \/ (m' = shr_m mrs + 1 /\ shr_r mrs = true).
Proof.
  destruct mrs as [m [] []]; simpl; auto.
  destruct (Z.even m); auto.
Qed.

Lemma digits_le_53 m : 0 < m < 2 ^ 53 -> Zdigits2 m <= 53.
Proof.
  intros Hm. destruct (digits_bounds m) as (Hd & Hlo & _); [lia|].
  destruct (Z_le_gt_dec (Zdigits2 m) 53) as [|Hgt]; [assumption|exfalso].
  assert (2 ^ 53 <= 2 ^ (Zdigits2 m - 1)) by (apply Z.pow_le_mono_r; lia). lia.
Qed.

(** What [binary_round_aux] returns for a non-negative real [x] that its
    arguments bracket: a float of magnitude [M] with the given sign, or an
    infinity when [M] is beyond the finite floats, where [M] is on the
    same side of every representable number as [x]. *)
Lemma binary_round_aux_spec sx m e l x :
  0 <= m ->
  brackets (shr_record_of_loc m l) e x ->
  e <= fexp prec emax (Zdigits2 m + e) ->
  exists M : R,
    (0 <= M)%R /\
    (forall B, pos_repr B -> (B <= x)%R -> (B <= M)%R) /\
    (forall B, pos_repr B -> (x <= B)%R -> (M <= B)%R) /\
    let r := binary_round_aux prec emax sx m e l in
    ((r = S754_infinity sx /\ (bpow 1024 <= M)%R) \/
     (r = S754_zero sx /\ M = 0%R) \/
     (exists mz ez, r = S754_finite sx mz ez /\ M = (IZR (Zpos mz) * bpow ez)%R)).
Proof.
  intros Hm Hb He.
  destruct (shr_fexp_spec m e l x Hm Hb He) as (B1 & He1 & _ & Hm1 & Hcan).
  unfold binary_round_aux.
  destruct (shr_fexp prec emax m e l) as [mrs' e'] eqn:E1. simpl fst in *. simpl snd in *.
  set (m1 := shr_m mrs') in *.
  set (m2 := round_nearest_even m1 (loc_of_shr_record mrs')).
  assert (Hm2 : m2 = m1 \/ (m2 = m1 + 1 /\ shr_r mrs' = true))
    by apply round_nearest_even_cases.
  destruct B1 as ((Hlo & Hhi) & _ & Hin). fold m1 in Hlo, Hhi, Hin.
  pose proof (bpow_pos e') as Hpe.
  exists (IZR m2 * bpow e')%R.
  assert (Hm2nn : 0 <= m2 <= 2 ^ 53) by lia.
  split; [apply Rmult_le_pos; [apply IZR_le; lia | lra]|].
  split; [|split].
  - (* representable numbers below x *)
    intros B HB HBx. destruct (no_float_between m1 e' B Hm1 Hcan HB) as [_ Hdn].
    destruct Hm2 as [-> | [-> _]].
    + apply Hdn. lra.
    + rewrite plus_IZR. lra.
  - (* representable numbers above x *)
    intros B HB HBx. destruct (no_float_between m1 e' B Hm1 Hcan HB) as [Hup _].
    destruct Hm2 as [-> | [-> Hr]].
    + lra.
    + rewrite plus_IZR. apply Hup. specialize (Hin Hr). lra.
  - (* the second normalisation and the result *)
    unfold shr_fexp, shr. rewrite fexp_eq. simpl shr_record_of_loc.
    destruct (Z.eq_dec m2 0) as [E0|Hne].
    + rewrite E0. simpl Zdigits2.
      destruct (Z.max (0 + e' - 53) (-1074) - e') as [|p|p] eqn:En; try lia.
      simpl. right. left. split; [reflexivity | lra].
    + destruct (Z.eq_dec m2 (2 ^ 53)) as [E53|Hne53].
      * assert (E53' : m2 = 9007199254740992) by (rewrite E53; reflexivity).
        rewrite E53'. change (Zdigits2 9007199254740992) with 54.
        replace (Z.max (54 + e' - 53) (-1074) - e') with 1 by lia.
        cbv beta iota zeta delta [SpecFloat.iter_pos shr_1 shr_m orb].
        assert (EM : (IZR 9007199254740992 * bpow e' = IZR 4503599627370496 * bpow (e' + 1))%R).
        { rewrite bpow_succ. change 9007199254740992 with (2 * 4503599627370496).
          rewrite mult_IZR. lra. }
        rewrite EM.
        destruct (Z.leb_spec (e' + 1) (emax - prec)) as [Hle|Hgt].
        -- right. right. eexists _, _. split; reflexivity.
        -- left. split; [reflexivity|].
           change (emax - prec) with 971 in Hgt.
           rewrite (bpow_split 1024 (e' + 1)).
           assert (bpow (1024 - (e' + 1)) <= bpow 52)%R by (apply bpow_le; lia).
           rewrite (bpow_nonneg 52) in H by lia. change (2 ^ 52) with 4503599627370496 in H.
           pose proof (bpow_pos (e' + 1)). nra.
      * assert (Hd2 : Zdigits2 m2 <= 53) by (apply digits_le_53; lia).
        assert (Hns : Z.max (Zdigits2 m2 + e' - 53) (-1074) - e' <= 0) by lia.
        destruct m2 as [|mz|mz] eqn:Emz; try lia.
        assert (Hres : (let '(mrs'', e'') :=
                   match Z.max (Zdigits2 (Zpos mz) + e' - 53) (-1074) - e' with
                   | Zpos p => (SpecFloat.iter_pos shr_1 p {| shr_m := Zpos mz; shr_r := false; shr_s := false |},
                                e' + (Z.max (Zdigits2 (Zpos mz) + e' - 53) (-1074) - e'))
                   | _ => ({| shr_m := Zpos mz; shr_r := false; shr_s := false |}, e')
                   end in
                 match shr_m mrs'' with
                 | 0 => S754_zero sx
                 | Zpos m0 => if e'' <=? emax - prec then S754_finite sx m0 e'' else S754_infinity sx
                 | Zneg _ => S754_nan
                 end) = if e' <=? emax - prec then S754_finite sx mz e' else S754_infinity sx).
        { destruct (Z.max (Zdigits2 (Zpos mz) + e' - 53) (-1074) - e'); try lia; reflexivity. }
        cbv zeta. rewrite Hres.
        destruct (Z.leb_spec e' (emax - prec)) as [Hle|Hgt].
        -- right. right. eexists _, _. split; reflexivity.
        -- left. split; [reflexivity|].
           change (emax - prec) with 971 in Hgt.
           assert (H52 : 2 ^ 52 <= Zpos mz) by lia.
           apply IZR_le in H52.
           rewrite (bpow_split 1024 e').
           assert (bpow (1024 - e') <= bpow 52)%R by (apply bpow_le; lia).
           rewrite (bpow_nonneg 52) in H by lia. nra.
Qed.


Lemma bpow_1024_bound n k :
  0 <= n < 2 ^ 53 -> k <= 971 -> (IZR n * bpow k < bpow 1024)%R.
Proof.
  intros Hn Hk. rewrite (bpow_split 1024 k).
  assert (bpow 53 <= bpow (1024 - k))%R by (apply bpow_le; lia).
  rewrite (bpow_nonneg 53) in H by lia.
  assert (IZR n < IZR (2 ^ 53))%R by (apply IZR_lt; lia).
  assert (0 <= IZR n)%R by (apply IZR_le; lia).
  pose proof (bpow_pos k). nra.
Qed.

Lemma representable_pos q :
  representable q -> (0 <= q)%R -> pos_repr q /\ (q < bpow 1024)%R.
Proof.
  intros (n & k & Hn & Hk & ->) Hq. pose proof (bpow_pos k) as Hp.
  assert (0 <= n).
  { destruct (Z_lt_le_dec n 0) as [Hneg|]; [|assumption].
    apply IZR_lt in Hneg. nra. }
  split.
  - exists n, k. repeat split; lia.
  - apply bpow_1024_bound; lia.
Qed.

Lemma representable_opp q : representable q -> representable (- q).
Proof.
  intros (n & k & Hn & Hk & ->). exists (- n), k.
  repeat split; try lia. rewrite opp_IZR. lra.
Qed.

(** The float that [binary_round_aux] returns for the real [x] with the
    sign [sx] stays within any representable bounds of the signed real. *)
Lemma binary_round_aux_bounds (sx : bool) m e l (x lo hi : R) :
  0 <= m ->
  brackets (shr_record_of_loc m l) e x ->
  e <= fexp prec emax (Zdigits2 m + e) ->
  representable lo -> representable hi ->
  (lo <= (if sx then - x else x) <= hi)%R ->
  let r := binary_round_aux prec emax sx m e l in
  SF_finite r = true /\ (lo <= SF_value r <= hi)%R.
Proof.
  intros Hm Hb He Hlo Hhi Hx.
  destruct (binary_round_aux_spec sx m e l x Hm Hb He) as (M & HM & Hbelow & Habove & Hr).
  assert (Hx0 : (0 <= x)%R).
  { destruct Hb as ((H1 & _) & _). pose proof (bpow_pos e).
    assert (0 <= IZR (shr_m (shr_record_of_loc m l)))%R
      by (rewrite shr_record_of_loc_m; apply IZR_le; lia).
    nra. }
  cbv zeta in *. destruct sx.
  - (* negative *)
    destruct (representable_pos (- lo) (representable_opp _ Hlo)) as [Plo Blo]; [lra|].
    assert (HMlo : (M <= - lo)%R) by (apply Habove; [exact Plo | lra]).
    assert (HMhi : (- M <= hi)%R).
    { destruct (Rle_lt_dec 0 hi) as [|Hneg]; [lra|].
      destruct (representable_pos (- hi) (representable_opp _ Hhi)) as [Phi _]; [lra|].
      assert (- hi <= M)%R by (apply Hbelow; [exact Phi | lra]). lra. }
    destruct Hr as [[_ Hinf] | [[-> HM0] | (mz & ez & -> & HMv)]].
    + lra.
    + simpl. split; [reflexivity | lra].
    + simpl. split; [reflexivity|]. lra.
  - (* positive *)
    destruct (representable_pos hi Hhi) as [Phi Bhi]; [lra|].
    assert (HMhi : (M <= hi)%R) by (apply Habove; [exact Phi | lra]).
    assert (HMlo : (lo <= M)%R).
    { destruct (Rle_lt_dec lo 0) as [|Hpos]; [lra|].
      destruct (representable_pos lo Hlo) as [Plo _]; [lra|].
      apply Hbelow; [exact Plo | lra]. }
    destruct Hr as [[_ Hinf] | [[-> HM0] | (mz & ez & -> & HMv)]].
    + lra.
    + simpl. split; [reflexivity | lra].
    + simpl. split; [reflexivity|]. lra.
Qed.

(** ** Valid floats *)

Lemma valid_finite s m e :
  valid_binary (S754_finite s m e) = true ->
  Zpos m < 2 ^ 53 /\ -1074 <= e <= 971 /\ (e = -1074 \/ 2 ^ 52 <= Zpos m) /\
  (e = -1074 \/ Zdigits2 (Zpos m) = 53) /\ 0 < Zdigits2 (Zpos m) <= 53.
Proof.
  unfold valid_binary, bounded, canonical_mantissa. intros H.
  apply andb_prop in H as [Hc Hb]. apply Z.eqb_eq in Hc. apply Z.leb_le in Hb.
  rewrite fexp_eq in Hc. change (emax - prec) with 971 in Hb.
  change (Zpos (digits2_pos m)) with (Zdigits2 (Zpos m)) in Hc.
  destruct (digits_bounds (Zpos m)) as (Hd & Hlo & Hhi); [lia|].
  set (d := Zdigits2 (Zpos m)) in *.
  assert (d <= 53) by lia.
  assert (2 ^ d <= 2 ^ 53) by (apply Z.pow_le_mono_r; lia).
  split; [lia|]. split; [lia|]. split; [|split; [lia|lia]].
  destruct (Z.eq_dec e (-1074)); [left; assumption | right].
  assert (d = 53) by lia. subst d. rewrite H1 in Hlo. exact Hlo.
Qed.

Lemma representable_value x :
  valid_binary x = true -> representable (SF_value x).
Proof.
  destruct x as [s|s| |s m e]; intros Hv; simpl.
  1-3: exists 0, 0; (split; [lia | split; [lia | simpl; lra]]).
  destruct (valid_finite s m e Hv) as (Hm & He & _).
  destruct s.
  - exists (- Zpos m), e. split; [lia | split; [lia | reflexivity]].
  - exists (Zpos m), e. split; [lia | split; [lia | reflexivity]].
Qed.

Lemma digits_unique m D : 0 < m -> 2 ^ (D - 1) <= m < 2 ^ D -> Zdigits2 m = D.
Proof.
  intros Hm [Hlo Hhi]. destruct (digits_bounds m Hm) as (Hd & Hlo' & Hhi').
  set (d := Zdigits2 m) in *.
  assert (0 < D).
  { destruct (Z_lt_le_dec 0 D); [assumption|].
    assert (2 ^ D <= 2 ^ 0) by (apply Z.pow_le_mono_r_iff; lia). simpl in H. lia. }
  destruct (Z.lt_trichotomy d D) as [Hlt | [Heq | Hgt]]; [exfalso | assumption | exfalso].
  - assert (2 ^ d <= 2 ^ (D - 1)) by (apply Z.pow_le_mono_r; lia). lia.
  - assert (2 ^ D <= 2 ^ (d - 1)) by (apply Z.pow_le_mono_r; lia). lia.
Qed.

Lemma digits_mul_ge a b :
  0 < a -> 0 < b -> Zdigits2 a + Zdigits2 b - 1 <= Zdigits2 (a * b).
Proof.
  intros Ha Hb.
  destruct (digits_bounds a Ha) as (Hda & Hla & _).
  destruct (digits_bounds b Hb) as (Hdb & Hlb & _).
  destruct (digits_bounds (a * b)) as (Hd & _ & Hh); [nia|].
  set (da := Zdigits2 a) in *. set (db := Zdigits2 b) in *. set (d := Zdigits2 (a * b)) in *.
  destruct (Z_le_gt_dec (da + db - 1) d) as [|Hgt]; [assumption | exfalso].
  assert (2 ^ d <= 2 ^ (da - 1 + (db - 1))) by (apply Z.pow_le_mono_r; lia).
  rewrite Z.pow_add_r in H by lia.
  assert (0 < 2 ^ (da - 1)) by (apply Z.pow_pos_nonneg; lia).
  assert (0 < 2 ^ (db - 1)) by (apply Z.pow_pos_nonneg; lia).
  nia.
Qed.

Lemma brackets_exact m e :
  brackets (shr_record_of_loc m loc_Exact) e (IZR m * bpow e).
Proof.
  unfold brackets. simpl. pose proof (bpow_pos e).
  split; [split; nra|]. split; [reflexivity | discriminate].
Qed.

(** ** Multiplication *)

Lemma SFmul_bounds x y (lo hi : R) :
  valid_binary x = true -> valid_binary y = true ->
  SF_finite x = true -> SF_finite y = true ->
  representable lo -> representable hi ->
  (lo <= SF_value x * SF_value y <= hi)%R ->
  SF_finite (SF64mul x y) = true /\ (lo <= SF_value (SF64mul x y) <= hi)%R.
Proof.
  intros Vx Vy Fx Fy Hlo Hhi Hb.
  destruct x as [sx|sx| |sx mx ex]; try discriminate;
  destruct y as [sy|sy| |sy my ey]; try discriminate;
  try (simpl in *; split; [reflexivity | lra]).
  unfold SF64mul, SFmul.
  destruct (valid_finite _ _ _ Vx) as (Hmx & Hex & Hcx & Hdx & Hdx').
  destruct (valid_finite _ _ _ Vy) as (Hmy & Hey & Hcy & Hdy & Hdy').
  apply binary_round_aux_bounds with (x := (IZR (Zpos (mx * my)) * bpow (ex + ey))%R);
    try assumption.
  - lia.
  - apply brackets_exact.
  - rewrite fexp_eq. rewrite Pos2Z.inj_mul.
    pose proof (digits_mul_ge (Zpos mx) (Zpos my)). lia.
  - simpl in Hb. rewrite Pos2Z.inj_mul, mult_IZR, bpow_add.
    destruct sx, sy; simpl; lra.
Qed.


(** ** Alignment to a smaller exponent *)

Lemma iter_xO m d : Zpos (Pos.iter xO m d) = Zpos m * 2 ^ Zpos d.
Proof.
  induction d as [|d IH] using Pos.peano_ind.
  - simpl. lia.
  - rewrite Pos.iter_succ, Pos2Z.inj_xO, IH, Pos2Z.inj_succ, Z.pow_succ_r by lia. ring.
Qed.

Lemma shl_align_spec mx ex ex' :
  let mz := fst (shl_align mx ex ex') in
  let ez := snd (shl_align mx ex ex') in
  ez = Z.min ex ex' /\ Zpos mz = Zpos mx * 2 ^ (ex - ez) /\
  (IZR (Zpos mz) * bpow ez = IZR (Zpos mx) * bpow ex)%R.
Proof.
  unfold shl_align. destruct (ex' - ex) as [|d|d] eqn:E; cbv zeta; simpl fst; simpl snd.
  - rewrite Z.sub_diag. split; [lia|]. split; [change (2 ^ 0) with 1; lia | reflexivity].
  - rewrite Z.sub_diag. split; [lia|]. split; [change (2 ^ 0) with 1; lia | reflexivity].
  - assert (Hd : ex - ex' = Zpos d) by lia.
    split; [lia|]. replace (Z.min ex ex') with ex' by lia.
    rewrite iter_xO, Hd. split; [reflexivity|].
    rewrite mult_IZR, (bpow_split ex ex'), Hd, (bpow_nonneg (Zpos d)) by lia. lra.
Qed.

Lemma digits_shift m k : 0 < m -> 0 <= k -> Zdigits2 (m * 2 ^ k) = Zdigits2 m + k.
Proof.
  intros Hm Hk. destruct (digits_bounds m Hm) as (Hd & Hlo & Hhi).
  assert (0 < 2 ^ k) by (apply Z.pow_pos_nonneg; lia).
  apply digits_unique; [nia|].
  replace (Zdigits2 m + k - 1) with (Zdigits2 m - 1 + k) by lia.
  rewrite !Z.pow_add_r by lia. nia.
Qed.

(** ** Rounding of an exact multiple *)

Lemma binary_round_bounds (sx : bool) mx ex (lo hi : R) :
  representable lo -> representable hi ->
  (lo <= (if sx then - (IZR (Zpos mx) * bpow ex) else IZR (Zpos mx) * bpow ex) <= hi)%R ->
  let r := binary_round prec emax sx mx ex in
  SF_finite r = true /\ (lo <= SF_value r <= hi)%R.
Proof.
  intros Hlo Hhi Hb. unfold binary_round.
  destruct (shl_align_spec mx ex (fexp prec emax (Zpos (digits2_pos mx) + ex))) as (Hez & Hmz & Hval).
  destruct (shl_align mx ex (fexp prec emax (Zpos (digits2_pos mx) + ex))) as [mz ez].
  simpl fst in *. simpl snd in *.
  apply binary_round_aux_bounds with (x := (IZR (Zpos mz) * bpow ez)%R); try assumption.
  - lia.
  - apply brackets_exact.
  - rewrite Hmz. rewrite digits_shift by lia.
    change (Zpos (digits2_pos mx)) with (Zdigits2 (Zpos mx)) in Hez.
    replace (Zdigits2 (Zpos mx) + (ex - ez) + ez) with (Zdigits2 (Zpos mx) + ex) by lia.
    lia.
  - rewrite Hval. exact Hb.
Qed.

Lemma binary_normalize_bounds m e (lo hi : R) :
  representable lo -> representable hi ->
  (lo <= IZR m * bpow e <= hi)%R ->
  let r := binary_normalize prec emax m e false in
  SF_finite r = true /\ (lo <= SF_value r <= hi)%R.
Proof.
  intros Hlo Hhi Hb. unfold binary_normalize. destruct m as [|p|p].
  - simpl. split; [reflexivity | lra].
  - apply binary_round_bounds; assumption.
  - apply binary_round_bounds; try assumption.
    change (Zneg p) with (- Zpos p) in Hb. rewrite opp_IZR in Hb. lra.
Qed.

(** ** Addition and subtraction *)


Lemma cond_Zopp_signed s m : cond_Zopp s m = signed s m.
Proof. reflexivity. Qed.

Lemma aligned_value (s : bool) m e ez :
  ez <= e ->
  (IZR (signed s (Zpos (fst (shl_align m e ez)))) * bpow ez =
   SF_value (S754_finite s m e))%R.
Proof.
  intros Hle. destruct (shl_align_spec m e ez) as (Hez & _ & Hval).
  replace (snd (shl_align m e ez)) with ez in Hval by lia.
  simpl SF_value. destruct s; unfold signed.
  - rewrite opp_IZR. lra.
  - lra.
Qed.

Lemma SFadd_bounds x y (lo hi : R) :
  valid_binary x = true -> valid_binary y = true ->
  SF_finite x = true -> SF_finite y = true ->
  representable lo -> representable hi ->
  (lo <= SF_value x + SF_value y <= hi)%R ->
  SF_finite (SF64add x y) = true /\ (lo <= SF_value (SF64add x y) <= hi)%R.
Proof.
  intros Vx Vy Fx Fy Hlo Hhi Hb.
  destruct x as [sx|sx| |sx mx ex]; try discriminate;
  destruct y as [sy|sy| |sy my ey]; try discriminate.
  - destruct sx, sy; simpl in *; split; try reflexivity; lra.
  - simpl in *. split; [reflexivity | lra].
  - simpl in *. split; [reflexivity | lra].
  - unfold SF64add, SFadd. rewrite !cond_Zopp_signed.
    apply binary_normalize_bounds; try assumption.
    rewrite plus_IZR, Rmult_plus_distr_r.
    rewrite !aligned_value by lia. exact Hb.
Qed.

Lemma SFsub_bounds x y (lo hi : R) :
  valid_binary x = true -> valid_binary y = true ->
  SF_finite x = true -> SF_finite y = true ->
  representable lo -> representable hi ->
  (lo <= SF_value x - SF_value y <= hi)%R ->
  SF_finite (SF64sub x y) = true /\ (lo <= SF_value (SF64sub x y) <= hi)%R.
Proof.
  intros Vx Vy Fx Fy Hlo Hhi Hb.
  destruct x as [sx|sx| |sx mx ex]; try discriminate;
  destruct y as [sy|sy| |sy my ey]; try discriminate.
  - destruct sx, sy; simpl in *; split; try reflexivity; lra.
  - simpl in *. split; [reflexivity|]. destruct sy; simpl; lra.
  - simpl in *. split; [reflexivity | lra].
  - unfold SF64sub, SFsub. rewrite !cond_Zopp_signed.
    apply binary_normalize_bounds; try assumption.
    rewrite minus_IZR, Rmult_minus_distr_r.
    rewrite !aligned_value by lia. exact Hb.
Qed.


(** ** Division *)

Lemma new_location_cases n k :
  (k = 0 /\ new_location n k = loc_Exact) \/
  (k <> 0 /\ exists c, new_location n k = loc_Inexact c).
Proof.
  unfold new_location, new_location_even, new_location_odd.
  destruct (Z.eq_dec k 0) as [->|Hne].
  - left. split; [reflexivity|]. destruct (Z.even n); reflexivity.
  - right. split; [assumption|].
    destruct (Z.even n);
      match goal with
      | |- context [if ?b then loc_Exact else _] => destruct b eqn:Eb
      end; try (eexists; reflexivity);
      apply Z.eqb_eq in Eb; contradiction.
Qed.

Lemma brackets_quotient q r m2 l e (x : R) :
  0 <= q -> 0 <= r < m2 ->
  x = ((IZR q + IZR r / IZR m2) * bpow e)%R ->
  (r = 0 /\ l = loc_Exact \/ r <> 0 /\ exists c, l = loc_Inexact c) ->
  brackets (shr_record_of_loc q l) e x.
Proof.
  intros Hq Hr Hx Hl. pose proof (bpow_pos e) as Hp.
  assert (Hm2 : (0 < IZR m2)%R) by (apply IZR_lt; lia).
  assert (Hr0 : (0 <= IZR r / IZR m2 < 1)%R).
  { split.
    - apply Rmult_le_pos; [apply IZR_le; lia | left; apply Rinv_0_lt_compat; exact Hm2].
    - apply Rmult_lt_reg_r with (IZR m2); [exact Hm2|].
      unfold Rdiv. rewrite Rmult_assoc, Rinv_l, Rmult_1_r, Rmult_1_l by lra.
      apply IZR_lt. lia. }
  unfold brackets. rewrite shr_record_of_loc_m.
  destruct Hl as [[-> ->] | [Hne [c ->]]].
  - simpl. assert (x = (IZR q * bpow e)%R) by (rewrite Hx; unfold Rdiv; rewrite Rmult_0_l; lra).
    split; [split; nra|]. split; [intros; assumption | discriminate].
  - assert (Hrp : (0 < IZR r / IZR m2)%R).
    { apply Rmult_lt_0_compat; [apply IZR_lt; lia | apply Rinv_0_lt_compat; exact Hm2]. }
    split; [split; nra|].
    destruct c; simpl; (split; [try discriminate; intros; discriminate | intros _; nra]).
Qed.

Lemma fexp_mono a b : a <= b -> fexp prec emax a <= fexp prec emax b.
Proof. rewrite !fexp_eq. lia. Qed.

Lemma digits_nonneg m : 0 <= m -> 0 <= Zdigits2 m.
Proof.
  intros Hm. destruct (Z.eq_dec m 0) as [->|]; [simpl; lia|].
  destruct (digits_bounds m); lia.
Qed.

Lemma digits_ge m D : 0 < D -> 2 ^ (D - 1) <= m -> D <= Zdigits2 m.
Proof.
  intros HD Hm.
  assert (0 < 2 ^ (D - 1)) by (apply Z.pow_pos_nonneg; lia).
  destruct (digits_bounds m) as (Hd & _ & Hhi); [lia|].
  destruct (Z_le_gt_dec D (Zdigits2 m)) as [|Hgt]; [assumption | exfalso].
  assert (2 ^ Zdigits2 m <= 2 ^ (D - 1)) by (apply Z.pow_le_mono_r; lia). lia.
Qed.

Lemma SFdiv_core_spec m1 e1 m2 e2 :
  0 < m1 -> 0 < m2 ->
  let q := fst (fst (SFdiv_core_binary prec emax m1 e1 m2 e2)) in
  let e' := snd (fst (SFdiv_core_binary prec emax m1 e1 m2 e2)) in
  let l := snd (SFdiv_core_binary prec emax m1 e1 m2 e2) in
  0 <= q /\
  brackets (shr_record_of_loc q l) e' (IZR m1 * bpow e1 / (IZR m2 * bpow e2))%R /\
  e' <= fexp prec emax (Zdigits2 q + e').
Proof.
  intros H1 H2. unfold SFdiv_core_binary.
  remember (Zdigits2 m1) as d1 eqn:Ed1. remember (Zdigits2 m2) as d2 eqn:Ed2.
  remember (Z.min (fexp prec emax (d1 + e1 - (d2 + e2))) (e1 - e2)) as e' eqn:Ee'.
  remember (e1 - e2 - e') as s eqn:Es.
  assert (Hs : 0 <= s) by lia.
  remember (match s with Zpos _ => Z.shiftl m1 s | 0 => m1 | Zneg _ => 0 end) as m' eqn:Em.
  assert (Hm' : m' = m1 * 2 ^ s).
  { rewrite Em. clear Em Es. destruct s as [|p|p]; try lia.
    rewrite Z.shiftl_mul_pow2 by lia. reflexivity. }
  assert (Hpow : 0 < 2 ^ s) by (apply Z.pow_pos_nonneg; lia).
  pose proof (Z.div_mod m' m2 ltac:(lia)) as Hdm.
  pose proof (Z.mod_pos_bound m' m2 H2) as Hrb.
  assert (Hde : Z.div_eucl m' m2 = (m' / m2, m' mod m2)).
  { unfold Z.div, Z.modulo. destruct (Z.div_eucl m' m2). reflexivity. }
  rewrite Hde. cbv zeta. simpl fst. simpl snd.
  remember (m' / m2) as q eqn:Eq. remember (m' mod m2) as r eqn:Er.
  assert (Hq : 0 <= q) by (rewrite Eq; apply Z.div_pos; nia).
  split; [exact Hq|]. split.
  - apply brackets_quotient with (r := r) (m2 := m2); try assumption.
    + assert (Hm2 : (0 < IZR m2)%R) by (apply IZR_lt; lia).
      pose proof (bpow_pos e') as Hp'. pose proof (bpow_pos e2) as Hp2.
      assert (Em' : (IZR m' = IZR m2 * IZR q + IZR r)%R).
      { rewrite <- mult_IZR, <- plus_IZR. f_equal. exact Hdm. }
      assert (Ee1 : bpow e1 = (IZR (2 ^ s) * bpow e' * bpow e2)%R).
      { rewrite <- (bpow_nonneg s) by lia. rewrite <- !bpow_add. f_equal. lia. }
      rewrite Hm', mult_IZR in Em'. rewrite Ee1. field_simplify; try lra.
      replace (IZR m1 * IZR (2 ^ s) * bpow e')%R with ((IZR m2 * IZR q + IZR r) * bpow e')%R
        by (rewrite <- Em'; reflexivity).
      field. lra.
    + apply new_location_cases.
  - (* enough digits *)
    apply Z.le_trans with (fexp prec emax (d1 + e1 - (d2 + e2))); [lia|].
    apply fexp_mono.
    assert (d1 + s - d2 <= Zdigits2 q); [|lia].
    destruct (Z_le_gt_dec (d1 + s - d2) 0) as [Hle|Hgt].
    + pose proof (digits_nonneg q Hq). lia.
    + apply digits_ge; [lia|].
      rewrite Eq. apply Z.div_le_lower_bound; [lia|].
      destruct (digits_bounds m1 H1) as (Hd1 & Hlo1 & _).
      destruct (digits_bounds m2 H2) as (Hd2 & _ & Hhi2).
      rewrite <- Ed1 in Hd1, Hlo1. rewrite <- Ed2 in Hd2, Hhi2.
      assert (E : 2 ^ (d1 - 1) * 2 ^ s = 2 ^ (d1 + s - d2 - 1) * 2 ^ d2).
      { rewrite <- !Z.pow_add_r by lia. f_equal. lia. }
      assert (0 < 2 ^ (d1 + s - d2 - 1)) by (apply Z.pow_pos_nonneg; lia).
      nia.
Qed.

Lemma SFdiv_bounds x y (lo hi : R) :
  valid_binary x = true -> valid_binary y = true ->
  SF_finite x = true -> SF_finite y = true -> SF_value y <> 0%R ->
  representable lo -> representable hi ->
  (lo <= SF_value x / SF_value y <= hi)%R ->
  SF_finite (SF64div x y) = true /\ (lo <= SF_value (SF64div x y) <= hi)%R.
Proof.
  intros Vx Vy Fx Fy Hy0 Hlo Hhi Hb.
  destruct y as [sy|sy| |sy my ey]; try discriminate; [simpl in Hy0; lra|].
  destruct x as [sx|sx| |sx mx ex]; try discriminate.
  - simpl in *. split; [reflexivity|]. unfold Rdiv in Hb. rewrite Rmult_0_l in Hb. exact Hb.
  - unfold SF64div, SFdiv.
    destruct (SFdiv_core_spec (Zpos mx) ex (Zpos my) ey) as (Hq & Hbr & Hen); try lia.
    destruct (SFdiv_core_binary prec emax (Zpos mx) ex (Zpos my) ey) as [[mz ez] lz].
    simpl fst in *. simpl snd in *.
    apply binary_round_aux_bounds with
      (x := (IZR (Zpos mx) * bpow ex / (IZR (Zpos my) * bpow ey))%R); try assumption.
    simpl SF_value in Hb.
    pose proof (bpow_pos ex). pose proof (bpow_pos ey).
    assert (0 < IZR (Zpos mx))%R by (apply IZR_lt; lia).
    assert (0 < IZR (Zpos my))%R by (apply IZR_lt; lia).
    assert (IZR (Zpos my) * bpow ey <> 0)%R by nra.
    destruct sx, sy; simpl xorb; cbv iota.
    + replace (IZR (Zpos mx) * bpow ex / (IZR (Zpos my) * bpow ey))%R
        with (- IZR (Zpos mx) * bpow ex / (- IZR (Zpos my) * bpow ey))%R by (field; lra).
      exact Hb.
    + replace (- (IZR (Zpos mx) * bpow ex / (IZR (Zpos my) * bpow ey)))%R
        with (- IZR (Zpos mx) * bpow ex / (IZR (Zpos my) * bpow ey))%R by (field; lra).
      exact Hb.
    + replace (- (IZR (Zpos mx) * bpow ex / (IZR (Zpos my) * bpow ey)))%R
        with (IZR (Zpos mx) * bpow ex / (- IZR (Zpos my) * bpow ey))%R by (field; lra).
      exact Hb.
    + exact Hb.
Qed.


(** ** Comparison *)

Lemma magnitude_lt m1 e1 m2 e2 :
  Zpos m1 < 2 ^ 53 -> -1074 <= e1 -> (e2 = -1074 \/ 2 ^ 52 <= Zpos m2) ->
  e1 < e2 ->
  (IZR (Zpos m1) * bpow e1 < IZR (Zpos m2) * bpow e2)%R.
Proof.
  intros H1 He1 Hc Hlt. assert (H52 : 2 ^ 52 <= Zpos m2) by lia.
  rewrite (bpow_split e2 e1), (bpow_nonneg (e2 - e1)) by lia.
  rewrite <- Rmult_assoc, <- mult_IZR. pose proof (bpow_pos e1).
  apply Rmult_lt_compat_r; [assumption|]. apply IZR_lt.
  assert (2 <= 2 ^ (e2 - e1)).
  { change 2 with (2 ^ 1) at 1. apply Z.pow_le_mono_r; lia. }
  nia.
Qed.

Lemma magnitude_compare m1 e1 m2 e2 :
  valid_binary (S754_finite false m1 e1) = true ->
  valid_binary (S754_finite false m2 e2) = true ->
  match (match e1 ?= e2 with Lt => Lt | Gt => Gt | Eq => Pos.compare_cont Eq m1 m2 end) with
  | Lt => (IZR (Zpos m1) * bpow e1 < IZR (Zpos m2) * bpow e2)%R
  | Eq => (IZR (Zpos m1) * bpow e1 = IZR (Zpos m2) * bpow e2)%R
  | Gt => (IZR (Zpos m2) * bpow e2 < IZR (Zpos m1) * bpow e1)%R
  end.
Proof.
  intros V1 V2.
  destruct (valid_finite _ _ _ V1) as (Hm1 & He1 & Hc1 & _).
  destruct (valid_finite _ _ _ V2) as (Hm2 & He2 & Hc2 & _).
  destruct (Z.compare_spec e1 e2) as [->|Hlt|Hgt].
  - change (Pos.compare_cont Eq m1 m2) with (Pos.compare m1 m2).
    pose proof (bpow_pos e2).
    destruct (Pos.compare_spec m1 m2) as [->|Hlt|Hgt].
    + reflexivity.
    + apply Rmult_lt_compat_r; [assumption|]. apply IZR_lt. lia.
    + apply Rmult_lt_compat_r; [assumption|]. apply IZR_lt. lia.
  - apply magnitude_lt; lia.
  - apply magnitude_lt; lia.
Qed.

Lemma valid_sign s s' m e :
  valid_binary (S754_finite s m e) = true -> valid_binary (S754_finite s' m e) = true.
Proof. intros H. exact H. Qed.

Lemma SFcompare_spec x y :
  valid_binary x = true -> valid_binary y = true ->
  SF_finite x = true -> SF_finite y = true ->
  match SFcompare x y with
  | Some Lt => (SF_value x < SF_value y)%R
  | Some Eq => SF_value x = SF_value y
  | Some Gt => (SF_value y < SF_value x)%R
  | None => False
  end.
Proof.
  intros Vx Vy Fx Fy.
  destruct x as [sx|sx| |sx mx ex]; try discriminate;
  destruct y as [sy|sy| |sy my ey]; try discriminate.
  - simpl. reflexivity.
  - simpl. pose proof (bpow_pos ey). assert (0 < IZR (Zpos my))%R by (apply IZR_lt; lia).
    destruct sy; nra.
  - simpl. pose proof (bpow_pos ex). assert (0 < IZR (Zpos mx))%R by (apply IZR_lt; lia).
    destruct sx; nra.
  - pose proof (bpow_pos ex). pose proof (bpow_pos ey).
    assert (0 < IZR (Zpos mx))%R by (apply IZR_lt; lia).
    assert (0 < IZR (Zpos my))%R by (apply IZR_lt; lia).
    pose proof (magnitude_compare mx ex my ey (valid_sign _ false _ _ Vx) (valid_sign _ false _ _ Vy)) as Hc.
    unfold SFcompare. simpl SF_value.
    destruct sx, sy.
    + destruct (match ex ?= ey with Lt => Lt | Gt => Gt | Eq => Pos.compare_cont Eq mx my end) eqn:E.
      * replace (match ex ?= ey with Lt => Gt | Eq => CompOpp (Pos.compare_cont Eq mx my) | Gt => Lt end) with Eq
          by (destruct (ex ?= ey); try discriminate; rewrite E; reflexivity).
        lra.
      * replace (match ex ?= ey with Lt => Gt | Eq => CompOpp (Pos.compare_cont Eq mx my) | Gt => Lt end) with Gt
          by (destruct (ex ?= ey); try discriminate; try rewrite E; reflexivity).
        lra.
      * replace (match ex ?= ey with Lt => Gt | Eq => CompOpp (Pos.compare_cont Eq mx my) | Gt => Lt end) with Lt
          by (destruct (ex ?= ey); try discriminate; try rewrite E; reflexivity).
        lra.
    + nra.
    + nra.
    + destruct (match ex ?= ey with Lt => Lt | Gt => Gt | Eq => Pos.compare_cont Eq mx my end); lra.
Qed.

(** ** Primitive floats *)

Local Open Scope float_scope.

Lemma finite_valid x : valid_binary (Prim2SF x) = true.
Proof. apply Prim2SF_valid. Qed.

Lemma ltb_value x y :
  finite x -> finite y -> ((x <? y) = true <-> (value x < value y)%R).
Proof.
  intros Fx Fy. rewrite FloatAxioms.ltb_spec. unfold SFltb, value.
  pose proof (SFcompare_spec _ _ (finite_valid x) (finite_valid y) Fx Fy) as H.
  destruct (SFcompare (Prim2SF x) (Prim2SF y)) as [[]|]; split; intros; try discriminate; try reflexivity; try lra; contradiction.
Qed.

Lemma leb_value x y :
  finite x -> finite y -> ((x <=? y) = true <-> (value x <= value y)%R).
Proof.
  intros Fx Fy. rewrite FloatAxioms.leb_spec. unfold SFleb, value.
  pose proof (SFcompare_spec _ _ (finite_valid x) (finite_valid y) Fx Fy) as H.
  destruct (SFcompare (Prim2SF x) (Prim2SF y)) as [[]|]; split; intros; try discriminate; try reflexivity; try lra; contradiction.
Qed.

Lemma eqb_value x y :
  finite x -> finite y -> ((x =? y) = true <-> value x = value y).
Proof.
  intros Fx Fy. rewrite FloatAxioms.eqb_spec. unfold SFeqb, value.
  pose proof (SFcompare_spec _ _ (finite_valid x) (finite_valid y) Fx Fy) as H.
  destruct (SFcompare (Prim2SF x) (Prim2SF y)) as [[]|]; split; intros; try discriminate; try reflexivity; try lra; contradiction.
Qed.

(** A float between two finite floats is finite. *)
Lemma leb_finite a x b :
  finite a -> finite b -> (a <=? x) = true -> (x <=? b) = true -> finite x.
Proof.
  unfold finite. rewrite !FloatAxioms.leb_spec. unfold SFleb.
  destruct (Prim2SF a) as [sa|sa| |sa ma ea]; try discriminate;
  destruct (Prim2SF b) as [sb|sb| |sb mb eb]; try discriminate;
  destruct (Prim2SF x) as [s|[]| |s m e]; simpl; intros; try reflexivity; try discriminate;
  repeat match goal with H : context [if ?c then _ else _] |- _ => destruct c end; discriminate.
Qed.

Lemma representable_float x : representable (value x).
Proof. apply representable_value, finite_valid. Qed.

Section Bounds.

Variables (x y : float) (lo hi : R).
Hypotheses (Fx : finite x) (Fy : finite y).
Hypotheses (Hlo : representable lo) (Hhi : representable hi).

Lemma mul_bounds :
  (lo <= value x * value y <= hi)%R ->
  finite (x * y) /\ (lo <= value (x * y) <= hi)%R.
Proof.
  intros H. unfold finite, value. rewrite FloatAxioms.mul_spec.
  apply SFmul_bounds; try assumption; apply finite_valid.
Qed.

Lemma add_bounds :
  (lo <= value x + value y <= hi)%R ->
  finite (x + y) /\ (lo <= value (x + y) <= hi)%R.
Proof.
  intros H. unfold finite, value. rewrite FloatAxioms.add_spec.
  apply SFadd_bounds; try assumption; apply finite_valid.
Qed.

Lemma sub_bounds :
  (lo <= value x - value y <= hi)%R ->
  finite (x - y) /\ (lo <= value (x - y) <= hi)%R.
Proof.
  intros H. unfold finite, value. rewrite FloatAxioms.sub_spec.
  apply SFsub_bounds; try assumption; apply finite_valid.
Qed.

Lemma div_bounds :
  value y <> 0%R ->
  (lo <= value x / value y <= hi)%R ->
  finite (x / y) /\ (lo <= value (x / y) <= hi)%R.
Proof.
  intros Hy H. unfold finite, value. rewrite FloatAxioms.div_spec.
  apply SFdiv_bounds; try assumption; apply finite_valid.
Qed.

End Bounds.

(** ** Integers as floats *)

Lemma representable_int n : (Z.abs n < 2 ^ 53)%Z -> representable (IZR n).
Proof.
  intros Hn. exists n, 0%Z. split; [exact Hn | split; [lia|]].
  change (bpow 0) with 1%R. lra.
Qed.

Lemma of_uint63_value n :
  (0 <= n < 2 ^ 53)%Z ->
  finite (of_uint63 (Uint63.of_Z n)) /\ value (of_uint63 (Uint63.of_Z n)) = IZR n.
Proof.
  intros Hn. unfold finite, value. rewrite FloatAxioms.of_uint63_spec.
  assert (E : Uint63.to_Z (Uint63.of_Z n) = n).
  { rewrite Uint63.of_Z_spec. apply Z.mod_small.
    change Uint63.wB with (2 ^ 63)%Z. lia. }
  rewrite E.
  destruct (binary_normalize_bounds n 0 (IZR n) (IZR n)) as [F V].
  - apply representable_int. lia.
  - apply representable_int. lia.
  - change (bpow 0) with 1%R. lra.
  - split; [exact F | lra].
Qed.

Lemma opp_value x : finite x -> finite (- x) /\ value (- x) = (- value x)%R.
Proof.
  unfold finite, value. rewrite FloatAxioms.opp_spec.
  destruct (Prim2SF x) as [s|s| |s m e]; simpl; intros H; try discriminate.
  - split; [reflexivity | lra].
  - split; [reflexivity|]. destruct s; simpl; lra.
Qed.

End FloatTheory.

(** ** Python floats as real numbers *)

Module PyFloatFacts.

Import FloatSem FloatTheory.
Local Open Scope float_scope.

Lemma bpow_neg k : (0 <= k)%Z -> bpow (- k) = (/ IZR (2 ^ k))%R.
Proof.
  intros Hk. unfold bpow. rewrite powerRZ_neg'. fold (bpow k).
  rewrite bpow_nonneg by exact Hk. reflexivity.
Qed.

(** [float(n)] is exact. *)
Lemma of_int_value n :
  (Z.abs n < 2 ^ 53)%Z ->
  finite (PyFloat.of_int n) /\ value (PyFloat.of_int n) = IZR n.
Proof.
  intros Hn. unfold PyFloat.of_int. destruct (Z.ltb_spec n 0) as [Hneg|Hpos].
  - destruct (of_uint63_value (- n)) as [F V]; [lia|].
    destruct (opp_value _ F) as [F' V']. split; [exact F'|].
    rewrite V', V, opp_IZR. lra.
  - apply of_uint63_value. lia.
Qed.

Lemma value_0 : value 0 = 0%R.
Proof. exact (proj2 (of_int_value 0 ltac:(lia))). Qed.
Lemma value_1 : value 1 = 1%R.
Proof. exact (proj2 (of_int_value 1 ltac:(lia))). Qed.
Lemma value_2 : value 2 = 2%R.
Proof. exact (proj2 (of_int_value 2 ltac:(lia))). Qed.
Lemma value_4 : value 4 = 4%R.
Proof. exact (proj2 (of_int_value 4 ltac:(lia))). Qed.
Lemma value_6 : value 6 = 6%R.
Proof. exact (proj2 (of_int_value 6 ltac:(lia))). Qed.
Lemma value_255 : value 255 = 255%R.
Proof. exact (proj2 (of_int_value 255 ltac:(lia))). Qed.

Lemma finite_0 : finite 0. Proof. reflexivity. Qed.
Lemma finite_1 : finite 1. Proof. reflexivity. Qed.
Lemma finite_2 : finite 2. Proof. reflexivity. Qed.
Lemma finite_4 : finite 4. Proof. reflexivity. Qed.
Lemma finite_6 : finite 6. Proof. reflexivity. Qed.
Lemma finite_255 : finite 255. Proof. reflexivity. Qed.

(** A float between 0 and 1 in the order of floats is finite, with a
    value between 0 and 1. *)
Lemma unit_of_leb x :
  (0 <=? x) = true -> (x <=? 1) = true -> finite x /\ (0 <= value x <= 1)%R.
Proof.
  intros H0 H1.
  assert (F : finite x) by (apply (leb_finite 0 x 1); [exact finite_0 | exact finite_1 | assumption..]).
  split; [exact F|].
  apply (leb_value 0 x finite_0 F) in H0. apply (leb_value x 1 F finite_1) in H1.
  rewrite value_0 in H0. rewrite value_1 in H1. lra.
Qed.

Lemma clamp01_unit x :
  finite (PyFloat.clamp01 x) /\ (0 <= value (PyFloat.clamp01 x) <= 1)%R.
Proof.
  destruct (FloatFacts.clamp01_range x) as [H0 H1]. apply unit_of_leb; assumption.
Qed.

(** ** Truncation *)

Lemma trunc_Z_spec x :
  finite x ->
  exists z, PyFloat.trunc_Z x = Some z /\
    ((0 <= value x)%R -> (0 <= z)%Z /\ (IZR z <= value x < IZR z + 1)%R) /\
    ((value x <= 0)%R -> (z <= 0)%Z /\ (IZR z - 1 < value x <= IZR z)%R).
Proof.
  unfold finite, value, PyFloat.trunc_Z.
  destruct (Prim2SF x) as [s|s| |s m e]; try discriminate; intros _.
  - exists 0%Z. simpl. split; [reflexivity|]. split; intros _; (split; [lia | lra]).
  - set (mag := if (0 <=? e)%Z then (Zpos m * 2 ^ e)%Z else (Zpos m / 2 ^ (- e))%Z).
    assert (Hmag : (0 <= mag)%Z /\ (IZR mag <= IZR (Zpos m) * bpow e < IZR mag + 1)%R).
    { unfold mag. destruct (Z.leb_spec 0 e) as [He|He].
      - rewrite bpow_nonneg by exact He. rewrite <- mult_IZR.
        assert (0 < 2 ^ e)%Z by (apply Z.pow_pos_nonneg; lia).
        split; [nia | lra].
      - assert (Ee : bpow e = (/ IZR (2 ^ (- e)))%R).
        { rewrite <- bpow_neg by lia. f_equal. lia. }
        rewrite Ee. clear Ee.
        assert (Hp : (0 < 2 ^ (- e))%Z) by (apply Z.pow_pos_nonneg; lia).
        remember (2 ^ (- e))%Z as P eqn:EP.
        pose proof (Z.div_mod (Zpos m) P ltac:(lia)) as Hdm.
        pose proof (Z.mod_pos_bound (Zpos m) P Hp) as Hr.
        remember (Zpos m / P)%Z as q eqn:Eq. remember (Zpos m mod P)%Z as r eqn:Er.
        assert (HP : (0 < IZR P)%R) by (apply IZR_lt; exact Hp).
        split; [rewrite Eq; apply Z.div_pos; lia|].
        rewrite Hdm, plus_IZR, mult_IZR.
        assert (Hr0 : (0 <= IZR r)%R) by (apply IZR_le; lia).
        assert (Hr1 : (IZR r < IZR P)%R) by (apply IZR_lt; lia).
        assert (E : ((IZR P * IZR q + IZR r) * / IZR P = IZR q + IZR r * / IZR P)%R)
          by (field; lra).
        rewrite E.
        assert (0 <= IZR r * / IZR P < 1)%R.
        { split.
          - apply Rmult_le_pos; [exact Hr0 | left; apply Rinv_0_lt_compat; exact HP].
          - apply Rmult_lt_reg_r with (IZR P); [exact HP|].
            rewrite Rmult_assoc, Rinv_l, Rmult_1_r, Rmult_1_l by lra. exact Hr1. }
        lra. }
    destruct Hmag as [Hm0 Hmv].
    assert (Hpos : (0 < IZR (Zpos m) * bpow e)%R).
    { apply Rmult_lt_0_compat; [apply IZR_lt; lia | apply bpow_pos]. }
    simpl SF_value. destruct s.
    + exists (- mag)%Z. split; [reflexivity|]. rewrite opp_IZR. split.
      * intros H. lra.
      * intros _. split; [lia | lra].
    + exists mag. split; [reflexivity|]. split.
      * intros _. split; [lia | lra].
      * intros H. lra.
Qed.

(** [int(x)] of a float known to lie between two integers. *)
Lemma to_int_bounds x lo hi :
  finite x -> (0 <= lo)%Z -> (IZR lo <= value x <= IZR hi)%R ->
  exists z, PyFloat.to_int x = Ok z /\ (lo <= z <= hi)%Z /\ (IZR z <= value x < IZR z + 1)%R.
Proof.
  intros F Hlo Hv. destruct (trunc_Z_spec x F) as (z & Hz & Hnn & _).
  assert (H0 : (0 <= IZR lo)%R) by (apply IZR_le; exact Hlo).
  destruct Hnn as [Hz0 Hzv]; [lra|].
  exists z. unfold PyFloat.to_int. rewrite Hz. split; [reflexivity|]. split; [|exact Hzv].
  split.
  - apply Z.lt_succ_r. apply lt_IZR. rewrite succ_IZR. lra.
  - apply le_IZR. lra.
Qed.

(** [x % 1.0] for a float of magnitude below 1. *)
Lemma mod1_unit x :
  finite x -> (-1 < value x < 1)%R ->
  finite (PyFloat.mod1 x) /\ (0 <= value (PyFloat.mod1 x) <= 1)%R.
Proof.
  intros F Hv. destruct (trunc_Z_spec x F) as (z & Hz & Hnn & Hnp).
  assert (z = 0%Z).
  { destruct (Rle_lt_dec 0 (value x)) as [H|H].
    - destruct (Hnn H) as [H0 [Hl _]].
      assert (IZR z < 1)%R by lra. apply lt_IZR in H1. lia.
    - destruct Hnp as [H0 [_ Hu]]; [lra|].
      assert (-1 < IZR z)%R by lra. apply lt_IZR in H1. lia. }
  subst z.
  assert (Hm : finite (PyFloat.fmod1 x) /\ value (PyFloat.fmod1 x) = value x).
  { unfold PyFloat.fmod1. rewrite Hz. change (PyFloat.of_int 0) with 0.
    destruct (sub_bounds x 0 (value x) (value x) F finite_0
                (representable_float x) (representable_float x)) as [F' V'].
    - rewrite value_0. lra.
    - split; [exact F' | lra]. }
  destruct Hm as [Fm Vm]. unfold PyFloat.mod1. cbv zeta.
  destruct (PyFloat.fmod1 x =? 0) eqn:E0.
  - split; [exact finite_0 | rewrite value_0; lra].
  - destruct (PyFloat.fmod1 x <? 0) eqn:E1.
    + apply (ltb_value _ _ Fm finite_0) in E1. rewrite value_0, Vm in E1.
      apply add_bounds; try assumption; try exact finite_1.
      * rewrite <- value_0. apply representable_float.
      * rewrite <- value_1. apply representable_float.
      * rewrite Vm, value_1. lra.
    + split; [exact Fm|]. rewrite Vm.
      assert (~ (value (PyFloat.fmod1 x) < value 0)%R).
      { intros H. apply (ltb_value _ _ Fm finite_0) in H. congruence. }
      rewrite Vm, value_0 in H. lra.
Qed.

End PyFloatFacts.

(** ** Interval arithmetic on floats *)

Module Intervals.

Import FloatSem FloatTheory PyFloatFacts.
Local Open Scope float_scope.

Lemma representable_small n : (Z.abs n < 2 ^ 53)%Z -> representable (IZR n).
Proof. apply representable_int. Qed.

Lemma in_range_const n :
  (Z.abs n < 2 ^ 53)%Z -> in_range n n (PyFloat.of_int n).
Proof.
  intros Hn. destruct (of_int_value n Hn) as [F V]. split; [exact F | rewrite V; lra].
Qed.

Lemma in_range_weaken lo hi lo' hi' x :
  in_range lo hi x -> (lo' <= lo)%Z -> (hi <= hi')%Z -> in_range lo' hi' x.
Proof.
  intros [F [H1 H2]] Hl Hh. split; [exact F|].
  apply IZR_le in Hl, Hh. lra.
Qed.

Lemma add_range a b c d x y :
  in_range a b x -> in_range c d y ->
  (Z.abs (a + c) < 2 ^ 53)%Z -> (Z.abs (b + d) < 2 ^ 53)%Z ->
  in_range (a + c) (b + d) (x + y).
Proof.
  intros [Fx Hx] [Fy Hy] H1 H2.
  apply add_bounds; try assumption; try (apply representable_int; assumption).
  rewrite !plus_IZR. lra.
Qed.

Lemma sub_range a b c d x y :
  in_range a b x -> in_range c d y ->
  (Z.abs (a - d) < 2 ^ 53)%Z -> (Z.abs (b - c) < 2 ^ 53)%Z ->
  in_range (a - d) (b - c) (x - y).
Proof.
  intros [Fx Hx] [Fy Hy] H1 H2.
  apply sub_bounds; try assumption; try (apply representable_int; assumption).
  rewrite !minus_IZR. lra.
Qed.

Lemma unit_float_0 : unit_float 0.
Proof. split; [exact finite_0 | rewrite value_0; simpl; lra]. Qed.

Lemma unit_float_1 : unit_float 1.
Proof. split; [exact finite_1 | rewrite value_1; simpl; lra]. Qed.

Lemma mul_unit x y : unit_float x -> unit_float y -> unit_float (x * y).
Proof.
  intros [Fx Hx] [Fy Hy].
  apply mul_bounds; try assumption; try (apply representable_int; simpl; lia).
  simpl in *. nra.
Qed.

Lemma one_minus_unit x : unit_float x -> unit_float (1 - x).
Proof.
  intros [Fx Hx].
  apply sub_bounds; try assumption; try exact finite_1;
    try (apply representable_int; simpl; lia).
  rewrite value_1. simpl in *. lra.
Qed.

Lemma clamp01_unit_float x : unit_float (PyFloat.clamp01 x).
Proof.
  destruct (clamp01_unit x) as [F V]. split; [exact F | simpl; lra].
Qed.

(** A quotient of a smaller by a larger positive float. *)
Lemma div_unit x y :
  finite x -> finite y -> (0 <= value x <= value y)%R -> (0 < value y)%R ->
  exists q, PyFloat.div x y = Ok q /\ unit_float q.
Proof.
  intros Fx Fy Hx Hy. unfold PyFloat.div.
  destruct (y =? 0) eqn:E.
  - apply (eqb_value _ _ Fy finite_0) in E. rewrite value_0 in E. lra.
  - eexists. split; [reflexivity|].
    apply div_bounds; try assumption; try (apply representable_int; simpl; lia).
    + lra.
    + simpl. split.
      * apply Rmult_le_pos; [lra | left; apply Rinv_0_lt_compat; exact Hy].
      * apply Rmult_le_reg_r with (value y); [exact Hy|].
        unfold Rdiv. rewrite Rmult_assoc, Rinv_l, Rmult_1_r, Rmult_1_l by lra. lra.
Qed.

(** [x * 255] and its integer part, for [x] between 0 and 1. *)
Lemma channel_of_unit x :
  unit_float x ->
  exists n, PyFloat.to_int (x * 255) = Ok n /\ (0 <= n <= 255)%Z.
Proof.
  intros [Fx Hx].
  destruct (mul_bounds x 255 0 255 Fx finite_255) as [F V];
    try (apply representable_int; simpl; lia).
  - rewrite value_255. simpl in Hx. lra.
  - destruct (to_int_bounds (x * 255) 0 255 F ltac:(lia) V) as (n & Hn & Hr & _).
    exists n. split; assumption.
Qed.

(** ** Maximum and minimum *)

Lemma max2_spec a b :
  finite a -> finite b ->
  (PyFloat.max2 a b = a \/ PyFloat.max2 a b = b) /\
  (value a <= value (PyFloat.max2 a b))%R /\ (value b <= value (PyFloat.max2 a b))%R.
Proof.
  intros Fa Fb. unfold PyFloat.max2. destruct (a <? b) eqn:E.
  - apply (ltb_value _ _ Fa Fb) in E. split; [right; reflexivity | lra].
  - split; [left; reflexivity|].
    assert (~ (value a < value b)%R) by (intros H; apply (ltb_value _ _ Fa Fb) in H; congruence).
    lra.
Qed.

Lemma min2_spec a b :
  finite a -> finite b ->
  (PyFloat.min2 a b = a \/ PyFloat.min2 a b = b) /\
  (value (PyFloat.min2 a b) <= value a)%R /\ (value (PyFloat.min2 a b) <= value b)%R.
Proof.
  intros Fa Fb. unfold PyFloat.min2. destruct (b <? a) eqn:E.
  - apply (ltb_value _ _ Fb Fa) in E. split; [right; reflexivity | lra].
  - split; [left; reflexivity|].
    assert (~ (value b < value a)%R) by (intros H; apply (ltb_value _ _ Fb Fa) in H; congruence).
    lra.
Qed.

Lemma max3_spec a b c :
  finite a -> finite b -> finite c ->
  let m := PyFloat.max3 a b c in
  (m = a \/ m = b \/ m = c) /\
  (value a <= value m)%R /\ (value b <= value m)%R /\ (value c <= value m)%R.
Proof.
  intros Fa Fb Fc. unfold PyFloat.max3.
  destruct (max2_spec a b Fa Fb) as (H1 & H2 & H3).
  assert (F1 : finite (PyFloat.max2 a b)) by (destruct H1 as [-> | ->]; assumption).
  destruct (max2_spec (PyFloat.max2 a b) c F1 Fc) as (H4 & H5 & H6).
  cbv zeta. split; [|lra].
  destruct H4 as [-> | ->]; [|auto]. destruct H1 as [-> | ->]; auto.
Qed.

Lemma min3_spec a b c :
  finite a -> finite b -> finite c ->
  let m := PyFloat.min3 a b c in
  (m = a \/ m = b \/ m = c) /\
  (value m <= value a)%R /\ (value m <= value b)%R /\ (value m <= value c)%R.
Proof.
  intros Fa Fb Fc. unfold PyFloat.min3.
  destruct (min2_spec a b Fa Fb) as (H1 & H2 & H3).
  assert (F1 : finite (PyFloat.min2 a b)) by (destruct H1 as [-> | ->]; assumption).
  destruct (min2_spec (PyFloat.min2 a b) c F1 Fc) as (H4 & H5 & H6).
  cbv zeta. split; [|lra].
  destruct H4 as [-> | ->]; [|auto]. destruct H1 as [-> | ->]; auto.
Qed.

(** ** The floats of the channel values *)

Import FloatEnum.

Lemma G_value : grid_unit = (/ 1048576)%R.
Proof.
  unfold grid_unit. change (-20)%Z with (- (20))%Z.
  rewrite (bpow_neg 20) by lia. reflexivity.
Qed.

Lemma representable_grid n : (Z.abs n < 2 ^ 53)%Z -> representable (IZR n * grid_unit).
Proof. intros Hn. exists n, (-20)%Z. split; [exact Hn | split; [lia | reflexivity]]. Qed.

Lemma grid_step i j : (0 <= j)%Z -> (j < i)%Z -> (grid j + 4112 <= grid i)%Z.
Proof.
  unfold grid. intros. change (2 ^ 20)%Z with 1048576%Z.
  Z.div_mod_to_equations. lia.
Qed.

Lemma grid_range n : (0 <= n <= 255)%Z -> (0 <= grid n <= 1048576)%Z.
Proof.
  unfold grid. intros. change (2 ^ 20)%Z with 1048576%Z.
  Z.div_mod_to_equations. lia.
Qed.

Lemma unit_of_value n :
  (0 <= n <= 255)%Z ->
  unit_float (unit_of n) /\
  (IZR (grid n) * grid_unit <= value (unit_of n) <= IZR (grid n + 1) * grid_unit)%R.
Proof.
  intros Hn. destruct (of_int_value n ltac:(lia)) as [F V].
  pose proof (grid_range n Hn) as Hg.
  assert (Hn0 : (0 <= IZR n <= 255)%R) by (split; apply IZR_le; lia).
  unfold unit_of. split.
  - apply div_bounds; try assumption; try exact finite_255;
      try (apply representable_int; simpl; lia).
    + rewrite value_255. lra.
    + rewrite V, value_255. simpl. lra.
  - apply div_bounds; try assumption; try exact finite_255;
      try (apply representable_grid; lia).
    + rewrite value_255. lra.
    + rewrite V, value_255, G_value.
      assert (H1 : (grid n * 255 <= n * 1048576)%Z)
        by (unfold grid; change (2 ^ 20)%Z with 1048576%Z; Z.div_mod_to_equations; lia).
      assert (H2 : (n * 1048576 < (grid n + 1) * 255)%Z)
        by (unfold grid; change (2 ^ 20)%Z with 1048576%Z; Z.div_mod_to_equations; lia).
      apply IZR_le in H1. apply IZR_lt in H2.
      rewrite !mult_IZR in H1, H2. lra.
Qed.

Lemma unit_of_le i j :
  (0 <= i <= 255)%Z -> (0 <= j <= 255)%Z ->
  (value (unit_of i) <= value (unit_of j))%R -> (i <= j)%Z.
Proof.
  intros Hi Hj Hv. destruct (Z_le_gt_dec i j) as [|Hgt]; [assumption | exfalso].
  destruct (unit_of_value i Hi) as [_ [Hil _]].
  destruct (unit_of_value j Hj) as [_ [_ Hju]].
  pose proof (grid_step i j ltac:(lia) ltac:(lia)) as Hs.
  assert (IZR (grid j + 1) < IZR (grid i))%R by (apply IZR_lt; lia).
  assert (0 < grid_unit)%R by (apply bpow_pos). nra.
Qed.

End Intervals.

(** ** Brightness clamp, blend end points, dark themes *)

Module ColorClaims.

Import Spec SpecColor Enum FloatEnum HexFacts FloatFacts ColorDerivator.
Local Open Scope float_scope.



Lemma blend_channel_ends c1 c2 :
  (0 <= c1 <= 255)%Z -> (0 <= c2 <= 255)%Z ->
  blend_channel c1 c2 0 = Ok c1 /\ blend_channel c1 c2 1 = Ok c2.
Proof.
  intros H1 H2.
  assert (E10 : (1 - 0 = 1)%float) by reflexivity.
  assert (E11 : (1 - 1 = 0)%float) by reflexivity.
  pose proof (forallb_In _ _ blend_ends_checked c1 (channel_values_spec c1 H1)) as A.
  pose proof (forallb_In _ _ blend_ends_checked c2 (channel_values_spec c2 H2)) as B.
  unfold blend_ends_cell in A, B.
  cbv zeta in A, B.
  repeat (apply andb_prop in A as [A ?]). repeat (apply andb_prop in B as [B ?]).
  repeat match goal with
  | X : Leibniz.eqb _ _ = true |- _ => apply Leibniz.eqb_spec in X
  | X : result_Z_eqb _ _ = true |- _ => apply result_Z_eqb_eq in X
  end.
  unfold blend_channel. rewrite E10, E11. split; congruence.
Qed.

(** The amended C5.  For colours [a] and [b] written as [#] and six
    hexadecimal digits, [blend_colors a b 0.0] is [a] in lower case and
    [blend_colors a b 1.0] is [b] in lower case; they are [a] and [b]
    themselves when these have no upper-case digit. *)
Theorem blend_end_points a b :
  is_hex_color a = true -> is_hex_color b = true ->
  blend_colors a b 0 = Ok (Py.lower a) /\
  blend_colors a b 1 = Ok (Py.lower b) /\
  (is_lower_hex_color a = true -> blend_colors a b 0 = Ok a) /\
  (is_lower_hex_color b = true -> blend_colors a b 1 = Ok b).
Proof.
  intros Ha Hb.
  destruct (hex_color_channels a Ha) as (r1 & g1 & b1 & Hca & Hr1 & Hg1 & Hb1 & Fa).
  destruct (hex_color_channels b Hb) as (r2 & g2 & b2 & Hcb & Hr2 & Hg2 & Hb2 & Fb).
  destruct (blend_channel_ends r1 r2 Hr1 Hr2) as [R0 R1].
  destruct (blend_channel_ends g1 g2 Hg1 Hg2) as [G0 G1].
  destruct (blend_channel_ends b1 b2 Hb1 Hb2) as [B0 B1].
  assert (E0 : blend_colors a b 0 = Ok (Py.lower a)).
  { unfold blend_colors. rewrite Hca, Hcb. cbn [bind]. rewrite R0, G0, B0. cbn [bind].
    rewrite Fa. reflexivity. }
  assert (E1 : blend_colors a b 1 = Ok (Py.lower b)).
  { unfold blend_colors. rewrite Hca, Hcb. cbn [bind]. rewrite R1, G1, B1. cbn [bind].
    rewrite Fb. reflexivity. }
  split; [exact E0 | split; [exact E1 | split]].
  - intros Hl. rewrite E0, (lower_hex_color_fixed a Hl). reflexivity.
  - intros Hl. rewrite E1, (lower_hex_color_fixed b Hl). reflexivity.
Qed.

Lemma blend_end_points_witness :
  blend_colors "#1E90ff" "#00aa7f" 0 = Ok "#1e90ff" /\
  blend_colors "#1E90ff" "#00aa7f" 1 = Ok "#00aa7f".
Proof.
  destruct (blend_end_points "#1E90ff" "#00aa7f") as (H0 & _ & _ & H1).
  - vm_compute. reflexivity.
  - vm_compute. reflexivity.
  - split; [exact H0 | apply H1; vm_compute; reflexivity].
Defined.

(** C5 as stated fails on a colour with an upper-case digit: the blend is
    printed in lower case. *)
Lemma blend_end_point_not_verbatim :
  is_hex_color "#FFFFFF" = true /\ is_hex_color "#000000" = true /\
  blend_colors "#FFFFFF" "#000000" 0 = Ok "#ffffff" /\
  blend_colors "#FFFFFF" "#000000" 0 <> Ok "#FFFFFF".
Proof.
  assert (E : blend_colors "#FFFFFF" "#000000" 0 = Ok "#ffffff") by (vm_compute; reflexivity).
  split; [reflexivity | split; [reflexivity | split; [exact E|]]].
  rewrite E. discriminate.
Qed.

(** C6.  A theme whose background reads as the channels [r g b] is dark
    exactly when the relative luminance of these channels is below 0.5.
    A black background is dark; a white one is light, given that 1 to
    any power is 1. *)
Theorem is_dark_by_luminance pow t r g b :
  channels_of (background t) = Ok (r, g, b) ->
  pow 1 2.4 = 1 ->
  is_dark pow t = Ok (relative_luminance pow r g b <? 0.5) /\
  (is_dark pow t = Ok true <-> (relative_luminance pow r g b <? 0.5) = true) /\
  (forall t0, background t0 = "#000000"%string -> is_dark pow t0 = Ok true) /\
  (forall t1, background t1 = "#ffffff"%string -> is_dark pow t1 = Ok false).
Proof.
  intros Hch Hpow.
  assert (E : is_dark pow t = Ok (relative_luminance pow r g b <? 0.5)).
  { unfold is_dark, _get_luminance. unfold channels_of in Hch.
    rewrite (unit_channels_of _ _ _ _ Hch). reflexivity. }
  split; [exact E | split; [|split]].
  - rewrite E. split; [intros H; inversion H; reflexivity | intros ->; reflexivity].
  - intros t0 H0. unfold is_dark. rewrite H0. vm_compute. reflexivity.
  - intros t1 H1. unfold is_dark, _get_luminance. rewrite H1.
    change (unit_channels (Py.lstrip_char "#" "#ffffff")) with (Ok (1, 1, 1) : result (float * float * float)).
    cbn [bind]. unfold to_linear.
    change (1 <=? 0.03928) with false. cbv iota.
    change ((1 + 0.055) / 1.055) with 1. rewrite Hpow. vm_compute. reflexivity.
Qed.

Lemma is_dark_by_luminance_witness :
  is_dark (fun x _ => x) (new_theme "demo") = Ok true /\
  is_dark (fun x _ => x) (GhosttyParser.set_background (new_theme "demo") "#ffffff") = Ok false.
Proof.
  destruct (is_dark_by_luminance (fun x _ => x) (new_theme "demo") 0 0 0) as (_ & _ & H0 & H1).
  - vm_compute. reflexivity.
  - reflexivity.
  - split; [apply H0 | apply H1]; reflexivity.
Defined.

End ColorClaims.

(** ** The HSV round trip stays within the unit cube *)

Module HsvFacts.

Import FloatSem FloatTheory PyFloatFacts Intervals FloatEnum Enum HexFacts Spec.
Local Open Scope float_scope.

Lemma grid_unit_pos : (0 < grid_unit)%R.
Proof. apply bpow_pos. Qed.

(** The difference of a larger and a smaller channel float. *)
Lemma range_value kM km :
  (0 <= km)%Z -> (km < kM)%Z -> (kM <= 255)%Z ->
  finite (unit_of kM - unit_of km) /\
  (IZR (grid kM - grid km - 1) * grid_unit <= value (unit_of kM - unit_of km)
     <= value (unit_of kM))%R.
Proof.
  intros H0 H1 H2.
  destruct (unit_of_value kM ltac:(lia)) as [[FM UM] [LM HM]].
  destruct (unit_of_value km ltac:(lia)) as [[Fm Um] [Lm Hm]].
  pose proof (grid_range kM ltac:(lia)). pose proof (grid_range km ltac:(lia)).
  apply sub_bounds; try assumption.
  - apply representable_grid. lia.
  - apply representable_float.
  - rewrite !minus_IZR. rewrite plus_IZR in Hm. simpl in Um.
    pose proof grid_unit_pos. nra.
Qed.

Lemma diff_value kM km k :
  (0 <= km)%Z -> (km < kM)%Z -> (kM <= 255)%Z -> (km <= k <= kM)%Z ->
  finite (unit_of kM - unit_of k) /\
  (0 <= value (unit_of kM - unit_of k) <= value (unit_of kM - unit_of km))%R.
Proof.
  intros H0 H1 H2 Hk.
  destruct (range_value kM km H0 H1 H2) as [FR [LR HR]].
  destruct (Z.eq_dec k km) as [->|Hne].
  - split; [exact FR|]. split; [|lra].
    pose proof (grid_step kM km H0 H1). pose proof grid_unit_pos.
    assert (0 <= IZR (grid kM - grid km - 1))%R by (apply IZR_le; lia). nra.
  - destruct (unit_of_value kM ltac:(lia)) as [[FM UM] [LM HM]].
    destruct (unit_of_value k ltac:(lia)) as [[Fk Uk] [Lk Hk']].
    pose proof (grid_range kM ltac:(lia)). pose proof (grid_range km ltac:(lia)).
    pose proof (grid_step k km H0 ltac:(lia)) as Hs.
    assert (Hk0 : (value (unit_of k) <= value (unit_of kM))%R).
    { destruct (Z.eq_dec k kM) as [->|]; [lra|].
      pose proof (grid_step kM k ltac:(lia) ltac:(lia)).
      assert (IZR (grid k + 1) <= IZR (grid kM))%R by (apply IZR_le; lia).
      pose proof grid_unit_pos. nra. }
    destruct (sub_bounds (unit_of kM) (unit_of k) 0 (IZR (grid kM - grid km - 1) * grid_unit)
                FM Fk) as [F V].
    + apply (representable_int 0). simpl. lia.
    + apply representable_grid. lia.
    + split; [lra|].
      assert (IZR (grid kM + 1) - IZR (grid k) <= IZR (grid kM - grid km - 1))%R.
      { rewrite <- minus_IZR. apply IZR_le. lia. }
      pose proof grid_unit_pos. nra.
    + split; [exact F | lra].
Qed.

Lemma range_positive kM km :
  (0 <= km)%Z -> (km < kM)%Z -> (kM <= 255)%Z ->
  (0 < value (unit_of kM - unit_of km))%R.
Proof.
  intros H0 H1 H2. destruct (range_value kM km H0 H1 H2) as [_ [L _]].
  pose proof (grid_step kM km H0 H1). pose proof grid_unit_pos.
  assert (1 <= IZR (grid kM - grid km - 1))%R by (apply IZR_le; lia). nra.
Qed.

Lemma channel_ratio kM km k :
  (0 <= km)%Z -> (km < kM)%Z -> (kM <= 255)%Z -> (km <= k <= kM)%Z ->
  exists q, PyFloat.div (unit_of kM - unit_of k) (unit_of kM - unit_of km) = Ok q /\
            unit_float q.
Proof.
  intros H0 H1 H2 Hk.
  destruct (range_value kM km H0 H1 H2) as [FR _].
  destruct (diff_value kM km k H0 H1 H2 Hk) as [FD VD].
  apply div_unit; try assumption. apply range_positive; assumption.
Qed.

Lemma in_range_unit x : unit_float x -> in_range 0 1 x.
Proof. intros H. exact H. Qed.

(** The hue before it is reduced modulo 1 lies between -1 and 5. *)
Lemma hue_range (c1 c2 : bool) rc gc bc :
  unit_float rc -> unit_float gc -> unit_float bc ->
  in_range (-1) 5 (if c1 then bc - gc else if c2 then 2 + rc - bc else 4 + gc - rc).
Proof.
  intros Hr Hg Hb.
  assert (H2 : in_range 2 2 2) by (apply (in_range_const 2); simpl; lia).
  assert (H4 : in_range 4 4 4) by (apply (in_range_const 4); simpl; lia).
  destruct c1; [|destruct c2].
  - apply in_range_weaken with (lo := (0 - 1)%Z) (hi := (1 - 0)%Z); try lia.
    apply sub_range; try assumption; simpl; lia.
  - apply in_range_weaken with (lo := (2 + 0 - 1)%Z) (hi := (2 + 1 - 0)%Z); try lia.
    apply sub_range; try assumption; try (simpl; lia).
    apply add_range; try assumption; simpl; lia.
  - apply in_range_weaken with (lo := (4 + 0 - 1)%Z) (hi := (4 + 1 - 0)%Z); try lia.
    apply sub_range; try assumption; try (simpl; lia).
    apply add_range; try assumption; simpl; lia.
Qed.

Lemma hue_unit h0 : in_range (-1) 5 h0 -> unit_float (PyFloat.mod1 (h0 / 6)).
Proof.
  intros [F V].
  destruct (div_bounds h0 6 (IZR (-1) * bpow (-2)) (IZR 7 * bpow (-3)) F finite_6) as [F' V'].
  - exists (-1)%Z, (-2)%Z. split; [simpl; lia | split; [lia | reflexivity]].
  - exists 7%Z, (-3)%Z. split; [simpl; lia | split; [lia | reflexivity]].
  - rewrite value_6. lra.
  - rewrite value_6.
    change (-2)%Z with (- (2))%Z. change (-3)%Z with (- (3))%Z.
    rewrite !bpow_neg by lia. simpl IZR in *. simpl Z.pow. lra.
  - change (-2)%Z with (- (2))%Z in V'. change (-3)%Z with (- (3))%Z in V'.
    rewrite !bpow_neg in V' by lia. simpl Z.pow in V'.
    destruct (mod1_unit (h0 / 6) F') as [F'' V'']; [lra|].
    split; [exact F'' | simpl; lra].
Qed.

(** [rgb_to_hsv] on the floats of three channel values. *)
Lemma rgb_to_hsv_unit kr kg kb :
  (0 <= kr <= 255)%Z -> (0 <= kg <= 255)%Z -> (0 <= kb <= 255)%Z ->
  exists h s v,
    colorsys.rgb_to_hsv (unit_of kr) (unit_of kg) (unit_of kb) = Ok (h, s, v) /\
    unit_float h /\ unit_float s /\ unit_float v.
Proof.
  intros Hr Hg Hb.
  destruct (unit_of_value kr Hr) as [Ur _].
  destruct (unit_of_value kg Hg) as [Ug _].
  destruct (unit_of_value kb Hb) as [Ub _].
  pose proof (max3_spec _ _ _ (proj1 Ur) (proj1 Ug) (proj1 Ub)) as (HM & M1 & M2 & M3).
  pose proof (min3_spec _ _ _ (proj1 Ur) (proj1 Ug) (proj1 Ub)) as (Hm & m1 & m2 & m3).
  assert (EM : exists kM, (0 <= kM <= 255)%Z /\
             PyFloat.max3 (unit_of kr) (unit_of kg) (unit_of kb) = unit_of kM).
  { destruct HM as [-> | [-> | ->]]; eexists; split; try reflexivity; assumption. }
  assert (Em : exists km, (0 <= km <= 255)%Z /\
             PyFloat.min3 (unit_of kr) (unit_of kg) (unit_of kb) = unit_of km).
  { destruct Hm as [-> | [-> | ->]]; eexists; split; try reflexivity; assumption. }
  destruct EM as (kM & HkM & EM). destruct Em as (km & Hkm & Em).
  unfold colorsys.rgb_to_hsv. rewrite EM, Em in *. clear HM Hm.
  destruct (unit_of_value kM HkM) as [UM _].
  destruct (unit_of_value km Hkm) as [Um _].
  destruct (unit_of km =? unit_of kM) eqn:Eeq.
  - exists 0, 0, (unit_of kM). split; [reflexivity|].
    split; [exact unit_float_0 | split; [exact unit_float_0 | exact UM]].
  - assert (Hlt : (km < kM)%Z).
    { assert (Hle : (km <= kM)%Z) by (apply unit_of_le; try assumption; lra).
      destruct (Z.eq_dec km kM) as [E|]; [|lia]. subst km.
      assert ((unit_of kM =? unit_of kM) = true)
        by (apply (eqb_value _ _ (proj1 UM) (proj1 UM)); reflexivity).
      congruence. }
    assert (Ir : (km <= kr <= kM)%Z) by (split; apply unit_of_le; assumption).
    assert (Ig : (km <= kg <= kM)%Z) by (split; apply unit_of_le; assumption).
    assert (Ib : (km <= kb <= kM)%Z) by (split; apply unit_of_le; assumption).
    destruct (range_value kM km ltac:(lia) Hlt ltac:(lia)) as [FR [_ HR]].
    pose proof (range_positive kM km ltac:(lia) Hlt ltac:(lia)) as PR.
    destruct (div_unit (unit_of kM - unit_of km) (unit_of kM) FR (proj1 UM)) as (s & Es & Us);
      [lra | lra |].
    destruct (channel_ratio kM km kr ltac:(lia) Hlt ltac:(lia) Ir) as (rc & Erc & Urc).
    destruct (channel_ratio kM km kg ltac:(lia) Hlt ltac:(lia) Ig) as (gc & Egc & Ugc).
    destruct (channel_ratio kM km kb ltac:(lia) Hlt ltac:(lia) Ib) as (bc & Ebc & Ubc).
    rewrite Es. cbn [bind]. rewrite Erc. cbn [bind]. rewrite Egc. cbn [bind].
    rewrite Ebc. cbn [bind].
    eexists _, s, (unit_of kM). split; [reflexivity|].
    split; [|split; [exact Us | exact UM]].
    apply hue_unit. apply hue_range; assumption.
Qed.

(** [hsv_to_rgb] on three floats between 0 and 1. *)
Lemma hsv_to_rgb_unit h s v :
  unit_float h -> unit_float s -> unit_float v ->
  exists r g b, colorsys.hsv_to_rgb h s v = Ok (r, g, b) /\
                unit_float r /\ unit_float g /\ unit_float b.
Proof.
  intros Uh Us Uv. unfold colorsys.hsv_to_rgb.
  destruct (s =? 0).
  - exists v, v, v. split; [reflexivity | split; [exact Uv | split; exact Uv]].
  - destruct Uh as [Fh Vh].
    destruct (mul_bounds h 6 0 6 Fh finite_6) as [F6 V6];
      try (apply representable_int; simpl; lia).
    { rewrite value_6. simpl in Vh. lra. }
    destruct (to_int_bounds (h * 6) 0 6 F6 ltac:(lia) V6) as (i & Ei & Ri & Vi).
    rewrite Ei. cbn [bind].
    destruct (of_int_value i ltac:(lia)) as [Fi Vii].
    assert (Uf : unit_float (h * 6 - PyFloat.of_int i)).
    { apply sub_bounds; try assumption; try (apply representable_int; simpl; lia).
      rewrite Vii. simpl. lra. }
    set (f := h * 6 - PyFloat.of_int i) in *.
    assert (Up : unit_float (v * (1 - s))) by (apply mul_unit, one_minus_unit; assumption).
    assert (Uq : unit_float (v * (1 - s * f))).
    { apply mul_unit; [assumption|]. apply one_minus_unit, mul_unit; assumption. }
    assert (Ut : unit_float (v * (1 - s * (1 - f)))).
    { apply mul_unit; [assumption|]. apply one_minus_unit, mul_unit; [assumption|].
      apply one_minus_unit; assumption. }
    repeat match goal with
    | |- context [if ?c then _ else _] => destruct c
    end; eexists _, _, _; (split; [reflexivity | split; [eassumption | split; eassumption]]).
Qed.

(** ** Printing a colour *)

Lemma format_checked : forallb format_cell channel_values = true.
Proof. vm_compute. reflexivity. Qed.

Lemma format_cell_inv n :
  (0 <= n <= 255)%Z ->
  exists a b, Py.format_02x n = String a (String b "") /\
    is_lower_hex_digit a = true /\ is_lower_hex_digit b = true /\
    Py.int 16 (String a (String b "")) = Ok n /\ a <> "#"%char.
Proof.
  intros Hn.
  pose proof (forallb_In _ _ format_checked n (channel_values_spec n Hn)) as H.
  unfold format_cell in H.
  destruct (Py.format_02x n) as [|a [|b [|]]]; try discriminate.
  apply andb_prop in H as [H H4]. apply andb_prop in H as [H H3].
  apply andb_prop in H as [H1 H2].
  exists a, b. split; [reflexivity|]. split; [exact H1|]. split; [exact H2|].
  split; [apply FloatFacts.result_Z_eqb_eq; exact H3|].
  intros ->. discriminate.
Qed.

Lemma format_color_lower r g b :
  (0 <= r <= 255)%Z -> (0 <= g <= 255)%Z -> (0 <= b <= 255)%Z ->
  is_lower_hex_color (format_color r g b) = true /\
  SpecColor.channels_of (format_color r g b) = Ok (r, g, b).
Proof.
  intros Hr Hg Hb.
  destruct (format_cell_inv r Hr) as (r1 & r2 & Er & Lr1 & Lr2 & Ir & Nr).
  destruct (format_cell_inv g Hg) as (g1 & g2 & Eg & Lg1 & Lg2 & Ig & _).
  destruct (format_cell_inv b Hb) as (b1 & b2 & Eb & Lb1 & Lb2 & Ib & _).
  unfold format_color. rewrite Er, Eg, Eb. split.
  - simpl. unfold six. simpl. rewrite Lr1, Lr2, Lg1, Lg2, Lb1, Lb2. reflexivity.
  - unfold SpecColor.channels_of. simpl Py.lstrip_char.
    destruct (Ascii.eqb_spec r1 "#") as [|_]; [contradiction|].
    unfold hex_channels, Py.slice. simpl substring.
    rewrite Ir. cbn [bind]. rewrite Ig. cbn [bind]. rewrite Ib. reflexivity.
Qed.

Lemma rgb_string_unit r g b :
  unit_float r -> unit_float g -> unit_float b ->
  exists out, ColorDerivator.rgb_string (r, g, b) = Ok out /\ is_lower_hex_color out = true.
Proof.
  intros Ur Ug Ub. unfold ColorDerivator.rgb_string.
  destruct (channel_of_unit r Ur) as (r' & -> & Hr).
  destruct (channel_of_unit g Ug) as (g' & -> & Hg).
  destruct (channel_of_unit b Ub) as (b' & -> & Hb).
  cbn [bind]. eexists. split; [reflexivity|]. apply format_color_lower; assumption.
Qed.

(** ** The brightness and saturation adjustments return a colour *)

Lemma adjust_brightness_color color factor :
  is_hex_color color = true ->
  exists out, ColorDerivator.adjust_brightness color factor = Ok out /\
              is_lower_hex_color out = true.
Proof.
  intros Hc. destruct (hex_color_channels color Hc) as (kr & kg & kb & Hch & Hr & Hg & Hb & _).
  unfold ColorDerivator.adjust_brightness.
  rewrite (FloatFacts.unit_channels_of _ _ _ _ Hch). cbn [bind].
  destruct (rgb_to_hsv_unit kr kg kb Hr Hg Hb) as (h & s & v & -> & Uh & Us & Uv). cbn [bind].
  destruct (hsv_to_rgb_unit h s (PyFloat.clamp01 (v + factor)) Uh Us (clamp01_unit_float _))
    as (r & g & b & -> & Ur & Ug & Ub).
  cbn [bind]. apply rgb_string_unit; assumption.
Qed.

Lemma adjust_saturation_color color factor :
  is_hex_color color = true ->
  exists out, ColorDerivator.adjust_saturation color factor = Ok out /\
              is_lower_hex_color out = true.
Proof.
  intros Hc. destruct (hex_color_channels color Hc) as (kr & kg & kb & Hch & Hr & Hg & Hb & _).
  unfold ColorDerivator.adjust_saturation.
  rewrite (FloatFacts.unit_channels_of _ _ _ _ Hch). cbn [bind].
  destruct (rgb_to_hsv_unit kr kg kb Hr Hg Hb) as (h & s & v & -> & Uh & Us & Uv). cbn [bind].
  destruct (hsv_to_rgb_unit h (PyFloat.clamp01 (s + factor)) v Uh (clamp01_unit_float _) Uv)
    as (r & g & b & -> & Ur & Ug & Ub).
  cbn [bind]. apply rgb_string_unit; assumption.
Qed.

End HsvFacts.

(** ** Blending *)

Module BlendFacts.

Import FloatSem FloatTheory PyFloatFacts Intervals FloatEnum Enum HexFacts HsvFacts Spec SpecColor.
Import ColorDerivator.
Local Open Scope float_scope.

(** A real between 0 and 1 lies in one of the 256 cells of width 1/256. *)
Lemma cell_of_unit (t : R) :
  (0 <= t <= 1)%R ->
  exists j, (0 <= j <= 255)%Z /\ (IZR j <= 256 * t <= IZR j + 1)%R.
Proof.
  intros Ht. destruct (archimed (256 * t)) as [Hup Hlow].
  set (z := (up (256 * t) - 1)%Z).
  assert (Hz : (IZR z <= 256 * t < IZR z + 1)%R).
  { unfold z. rewrite minus_IZR. lra. }
  assert (Hz0 : (0 <= z <= 256)%Z).
  { split.
    - apply Z.lt_succ_r. apply lt_IZR. rewrite succ_IZR. lra.
    - apply le_IZR. lra. }
  destruct (Z.eq_dec z 256%Z) as [E|Hne].
  - exists 255%Z. split; [lia|]. rewrite E in Hz. lra.
  - exists z. split; [lia | lra].
Qed.

Lemma representable_256 n : (Z.abs n < 2 ^ 53)%Z -> representable (IZR n * bpow (-8)).
Proof. intros Hn. exists n, (-8)%Z. split; [exact Hn | split; [lia | reflexivity]]. Qed.

Lemma bpow_m8 : bpow (-8) = (/ 256)%R.
Proof. change (-8)%Z with (- (8))%Z. rewrite bpow_neg by lia. reflexivity. Qed.

(** One channel of a blend with a ratio between 0 and 1 is at most the
    larger channel and at least the smaller channel less one. *)
Lemma blend_channel_bounds c1 c2 ratio :
  (0 <= c1 <= 255)%Z -> (0 <= c2 <= 255)%Z ->
  (0 <=? ratio) = true -> (ratio <=? 1) = true ->
  exists z, blend_channel c1 c2 ratio = Ok z /\
    (Z.max 0 (Z.min c1 c2 - 1) <= z <= Z.max c1 c2)%Z.
Proof.
  intros H1 H2 R0 R1.
  destruct (unit_of_leb ratio R0 R1) as [Fr Vr].
  destruct (cell_of_unit (value ratio) Vr) as (j & Hj & Hjv).
  destruct (of_int_value c1 ltac:(lia)) as [F1 V1].
  destruct (of_int_value c2 ltac:(lia)) as [F2 V2].
  set (m := Z.min c1 c2). set (M := Z.max c1 c2).
  assert (Hm : (0 <= m <= c1 /\ m <= c2 /\ c1 <= M /\ c2 <= M <= 255)%Z) by (unfold m, M; lia).
  assert (Rm : (0 <= IZR m <= IZR c1 /\ IZR m <= IZR c2 /\ IZR c1 <= IZR M /\ IZR c2 <= IZR M)%R).
  { repeat split; apply IZR_le; lia. }
  assert (Rj : (0 <= IZR j <= 255)%R) by (split; apply IZR_le; lia).
  (* 1 - ratio *)
  destruct (sub_bounds 1 ratio (IZR (255 - j) * bpow (-8)) (IZR (256 - j) * bpow (-8))
              finite_1 Fr) as [Fa Va]; try (apply representable_256; lia).
  { rewrite value_1, bpow_m8, !minus_IZR. lra. }
  rewrite bpow_m8, !minus_IZR in Va.
  (* c1 * (1 - ratio) *)
  destruct (mul_bounds (PyFloat.of_int c1) (1 - ratio)
              (IZR (m * (255 - j)) * bpow (-8)) (IZR (M * (256 - j)) * bpow (-8))
              F1 Fa) as [Fx Vx]; try (apply representable_256; nia).
  { rewrite V1, bpow_m8, !mult_IZR, !minus_IZR. nra. }
  rewrite bpow_m8, !mult_IZR, !minus_IZR in Vx.
  (* c2 * ratio *)
  destruct (mul_bounds (PyFloat.of_int c2) ratio
              (IZR (m * j) * bpow (-8)) (IZR (M * (j + 1)) * bpow (-8))
              F2 Fr) as [Fy Vy]; try (apply representable_256; nia).
  { rewrite V2, bpow_m8, !mult_IZR, plus_IZR. nra. }
  rewrite bpow_m8, !mult_IZR, plus_IZR in Vy.
  (* the sum *)
  destruct (add_bounds (PyFloat.of_int c1 * (1 - ratio)) (PyFloat.of_int c2 * ratio)
              (IZR (m * 255) * bpow (-8)) (IZR (M * 257) * bpow (-8))
              Fx Fy) as [Fs Vs]; try (apply representable_256; lia).
  { rewrite bpow_m8, !mult_IZR. nra. }
  rewrite bpow_m8, !mult_IZR in Vs.
  assert (HM : (IZR M <= 255)%R) by (apply IZR_le; lia).
  assert (Hm' : (IZR m <= 255)%R) by (apply IZR_le; lia).
  destruct (to_int_bounds _ 0 (M + 1) Fs ltac:(lia)) as (z & Ez & Rz & Vz).
  { rewrite plus_IZR. lra. }
  exists z. unfold blend_channel. split; [exact Ez|].
  fold m M. split.
  - assert (IZR m - 2 < IZR z)%R by lra.
    replace (IZR m - 2)%R with (IZR (m - 2)) in H by (rewrite minus_IZR; reflexivity).
    apply lt_IZR in H. lia.
  - assert (IZR z < IZR M + 1)%R by lra.
    rewrite <- plus_IZR in H. apply lt_IZR in H. lia.
Qed.

Lemma blend_colors_bounds a b ratio :
  is_hex_color a = true -> is_hex_color b = true ->
  (0 <=? ratio) = true -> (ratio <=? 1) = true ->
  exists out,
    blend_colors a b ratio = Ok out /\ is_lower_hex_color out = true /\
    blend_between (fun x y => Z.max 0 (Z.min x y - 1)) Z.max a b ratio.
Proof.
  intros Ha Hb R0 R1.
  destruct (hex_color_channels a Ha) as (r1 & g1 & b1 & Hca & Hr1 & Hg1 & Hb1 & _).
  destruct (hex_color_channels b Hb) as (r2 & g2 & b2 & Hcb & Hr2 & Hg2 & Hb2 & _).
  destruct (blend_channel_bounds r1 r2 ratio Hr1 Hr2 R0 R1) as (r & Er & Br).
  destruct (blend_channel_bounds g1 g2 ratio Hg1 Hg2 R0 R1) as (g & Eg & Bg).
  destruct (blend_channel_bounds b1 b2 ratio Hb1 Hb2 R0 R1) as (b' & Eb & Bb).
  assert (E : blend_colors a b ratio = Ok (format_color r g b')).
  { unfold blend_colors. rewrite Hca, Hcb. cbn [bind]. rewrite Er, Eg, Eb. reflexivity. }
  destruct (format_color_lower r g b') as [L C]; try lia.
  exists (format_color r g b'). split; [exact E|]. split; [exact L|].
  exists (r1, g1, b1), (r2, g2, b2), (format_color r g b'), (r, g, b').
  unfold channels_of at 1 2. split; [exact Hca|]. split; [exact Hcb|].
  split; [exact E|]. split; [exact C|].
  unfold channels_in. split; [exact Br | split; [exact Bg | exact Bb]].
Qed.

End BlendFacts.

(** ** Results of the colour primitives *)

Module PrimitiveClaims.

Import Spec SpecColor Enum FloatEnum HexFacts FloatFacts HsvFacts BlendFacts ColorDerivator.
Local Open Scope float_scope.

(** C9.  For colours written as [#] and six hexadecimal digits of either
    case, [adjust_brightness] and [adjust_saturation] with any factor,
    and [blend_colors] with a ratio between 0 and 1, return [#] and six
    lower-case hexadecimal digits; so a colour with an upper-case digit
    is never returned as it is. *)
Theorem primitives_return_lower_case color other factor ratio :
  is_hex_color color = true -> is_hex_color other = true ->
  (0 <=? ratio) = true -> (ratio <=? 1) = true ->
  returns_lower_hex_color (adjust_brightness color factor) /\
  returns_lower_hex_color (adjust_saturation color factor) /\
  returns_lower_hex_color (blend_colors color other ratio) /\
  (is_lower_hex_color color = false ->
   adjust_brightness color factor <> Ok color /\
   adjust_saturation color factor <> Ok color /\
   blend_colors color other ratio <> Ok color /\
   blend_colors other color ratio <> Ok color).
Proof.
  intros Hc Ho R0 R1.
  pose proof (adjust_brightness_color color factor Hc) as B.
  pose proof (adjust_saturation_color color factor Hc) as S.
  destruct (blend_colors_bounds color other ratio Hc Ho R0 R1) as (o1 & E1 & L1 & _).
  destruct (blend_colors_bounds other color ratio Ho Hc R0 R1) as (o2 & E2 & L2 & _).
  split; [exact B | split; [exact S | split; [exists o1; split; assumption|]]].
  intros Hu. destruct B as (ob & Eb & Lb). destruct S as (os & Es & Ls).
  rewrite Eb, Es, E1, E2.
  repeat split; intros H; inversion H; congruence.
Qed.

Lemma primitives_return_lower_case_witness :
  returns_lower_hex_color (adjust_brightness "#1E90FF" 0.1) /\
  returns_lower_hex_color (adjust_saturation "#1E90FF" (-0.2)) /\
  returns_lower_hex_color (blend_colors "#1E90FF" "#00AA7F" 0.3) /\
  adjust_brightness "#1E90FF" 0.1 <> Ok "#1E90FF"%string.
Proof.
  destruct (primitives_return_lower_case "#1E90FF" "#00AA7F" 0.1 0.3) as (B & _ & L & U);
    try (vm_compute; reflexivity).
  destruct (primitives_return_lower_case "#1E90FF" "#00AA7F" (-0.2) 0.3) as (_ & S & _ & _);
    try (vm_compute; reflexivity).
  split; [exact B | split; [exact S | split; [exact L|]]].
  apply U. vm_compute. reflexivity.
Defined.

(** C10 as stated fails: with ratio 0.05 the blend of a colour with
    itself has channels one below the colour's. *)
Lemma blend_below_both_channels :
  is_hex_color "#030303" = true /\
  (0 <=? 0.05) = true /\ (0.05 <=? 1) = true /\
  blend_colors "#030303" "#030303" 0.05 = Ok "#020202" /\
  ~ blend_between Z.min Z.max "#030303" "#030303" 0.05.
Proof.
  assert (E : blend_colors "#030303" "#030303" 0.05 = Ok "#020202") by (vm_compute; reflexivity).
  split; [reflexivity | split; [reflexivity | split; [reflexivity | split; [exact E|]]]].
  intros (ca & cb & out & cout & Ha & Hb & Ho & Hc & Hin).
  rewrite E in Ho. inversion Ho; subst out.
  vm_compute in Ha, Hb, Hc. inversion Ha; subst ca. inversion Hb; subst cb. inversion Hc; subst cout.
  unfold channels_in in Hin. lia.
Qed.

(** The amended C10.  For colours [a] and [b] written as [#] and six
    hexadecimal digits and a ratio between 0 and 1, every channel of
    [blend_colors a b ratio] is at most the larger of the two channels
    of [a] and [b], at least the smaller of them less one, and not
    negative; so every channel lies between 0 and 255. *)
Theorem blend_channels_bounded a b ratio :
  is_hex_color a = true -> is_hex_color b = true ->
  (0 <=? ratio) = true -> (ratio <=? 1) = true ->
  blend_between (fun x y => Z.max 0 (Z.min x y - 1)) Z.max a b ratio /\
  blend_between (fun _ _ => 0%Z) (fun _ _ => 255%Z) a b ratio.
Proof.
  intros Ha Hb R0 R1.
  destruct (blend_colors_bounds a b ratio Ha Hb R0 R1) as (out & E & L & Hbt).
  split; [exact Hbt|].
  destruct Hbt as (ca & cb & out' & cout & Hca & Hcb & Ho & Hc & Hin).
  exists ca, cb, out', cout. repeat (split; [assumption|]).
  destruct (hex_color_channels a Ha) as (r1 & g1 & b1 & Hca' & Hr1 & Hg1 & Hb1 & _).
  destruct (hex_color_channels b Hb) as (r2 & g2 & b2 & Hcb' & Hr2 & Hg2 & Hb2 & _).
  unfold channels_of in Hca, Hcb. rewrite Hca' in Hca. rewrite Hcb' in Hcb.
  inversion Hca; subst ca. inversion Hcb; subst cb.
  destruct cout as [[r g] b']. unfold channels_in in *. lia.
Qed.

Lemma blend_channels_bounded_witness :
  blend_between (fun x y => Z.max 0 (Z.min x y - 1)) Z.max "#1e90ff" "#00aa7f" 0.3 /\
  blend_between (fun _ _ => 0%Z) (fun _ _ => 255%Z) "#1e90ff" "#00aa7f" 0.3.
Proof.
  apply (blend_channels_bounded "#1e90ff" "#00aa7f" 0.3); vm_compute; reflexivity.
Defined.

End PrimitiveClaims.

(** ** Fixed points of the colour primitives *)

Module FixedPointClaims.

Import Spec SpecColor Enum FloatEnum HexFacts FloatFacts HsvFacts BlendFacts ColorDerivator.
Local Open Scope float_scope.







End FixedPointClaims.

(** ** The generator *)

Module GeneratorFacts.

Import Spec SpecColor SpecGen HexFacts HsvFacts BlendFacts.
Import ColorDerivator PhpStormThemeGenerator.
Local Open Scope float_scope.

Lemma succeeds_jstr r : succeeds r -> succeeds (jstr r).
Proof. intros [s ->]. exists (JStr s). reflexivity. Qed.

Lemma succeeds_members l :
  Forall (fun kv => succeeds (snd kv)) l -> succeeds (members l).
Proof.
  induction 1 as [|[k r] l [v Hv] _ [vs Hvs]].
  - exists []. reflexivity.
  - simpl in Hv. subst r. exists ((k, v) :: vs). simpl. rewrite Hvs. reflexivity.
Qed.

Lemma succeeds_jobj l :
  Forall (fun kv => succeeds (snd kv)) l -> succeeds (jobj l).
Proof.
  intros H. destruct (succeeds_members l H) as [vs Hvs].
  exists (JObj vs). unfold jobj, map_result. rewrite Hvs. reflexivity.
Qed.

Lemma lower_succeeds r : returns_lower_hex_color r -> succeeds r.
Proof. intros (out & -> & _). exists out. reflexivity. Qed.

(** A call that returns a colour hands a colour to what follows. *)
Lemma bind_color {B} r (k : string -> result B) :
  returns_lower_hex_color r ->
  (forall x, is_hex_color x = true -> succeeds (k x)) ->
  succeeds (bind r k).
Proof.
  intros (out & -> & L) Hk. simpl. apply Hk. apply lower_is_hex_color. exact L.
Qed.

Lemma blend_returns a b ratio :
  is_hex_color a = true -> is_hex_color b = true ->
  (0 <=? ratio) = true -> (ratio <=? 1) = true ->
  returns_lower_hex_color (blend_colors a b ratio).
Proof.
  intros Ha Hb R0 R1.
  destruct (blend_colors_bounds a b ratio Ha Hb R0 R1) as (out & E & L & _).
  exists out. split; assumption.
Qed.

Lemma is_dark_succeeds pow t :
  is_hex_color (background t) = true -> succeeds (is_dark pow t).
Proof.
  intros Hb. destruct (hex_color_channels _ Hb) as (r & g & b & Hch & _).
  unfold is_dark, _get_luminance. rewrite (FloatFacts.unit_channels_of _ _ _ _ Hch).
  cbn [bind]. eexists. reflexivity.
Qed.

Lemma palette_get_color p k d :
  (forall k c, p !! k = Some c -> is_hex_color c = true) ->
  is_hex_color d = true -> is_hex_color (palette_get p k d) = true.
Proof.
  intros Hp Hd. unfold palette_get. destruct (p !! k) as [c|] eqn:E; simpl.
  - exact (Hp k c E).
  - exact Hd.
Qed.

Ltac color :=
  first [ assumption | reflexivity | apply palette_get_color; [assumption | reflexivity] ].

Ltac entry :=
  cbn [snd];
  first
    [ apply succeeds_Ok
    | apply succeeds_jstr, lower_succeeds, adjust_brightness_color; color
    | apply succeeds_jstr, lower_succeeds, blend_returns; color
    | apply succeeds_jobj; repeat (apply List.Forall_cons; [entry|]); apply List.Forall_nil ].

Ltac entries := apply succeeds_jobj; repeat (apply List.Forall_cons; [entry|]); apply List.Forall_nil.

Lemma derive_ui_colors_succeeds pow self :
  well_formed (ghostty self) -> succeeds (_derive_ui_colors pow self).
Proof.
  intros (Hbg & Hfg & Hcc & Hsb & Hsf & Hp).
  unfold _derive_ui_colors. cbv zeta.
  apply succeeds_bind; [apply is_dark_succeeds; assumption | intros dark _].
  repeat (apply bind_color; [apply adjust_brightness_color; color | intros ? ?]).
  entries.
Qed.

Lemma generate_theme_json_succeeds pow self :
  well_formed (ghostty self) -> succeeds (generate_theme_json pow self).
Proof.
  intros Hwf. pose proof Hwf as (Hbg & Hfg & Hcc & Hsb & Hsf & Hp).
  unfold generate_theme_json. cbv zeta.
  apply succeeds_bind; [apply derive_ui_colors_succeeds; exact Hwf | intros ui _].
  apply succeeds_bind; [apply is_dark_succeeds; assumption | intros dark _].
  entries.
Qed.

Lemma generate_editor_scheme_succeeds pow self :
  well_formed (ghostty self) -> succeeds (generate_editor_scheme pow self).
Proof.
  intros (Hbg & Hfg & Hcc & Hsb & Hsf & Hp).
  unfold generate_editor_scheme. cbv zeta.
  apply succeeds_bind; [apply is_dark_succeeds; assumption | intros dark _].
  apply bind_color; [apply adjust_brightness_color; assumption | intros line _].
  apply succeeds_Ok.
Qed.

Lemma generate_plugin_xml_succeeds pow self :
  is_hex_color (background (ghostty self)) = true -> succeeds (generate_plugin_xml pow self).
Proof.
  intros Hbg. unfold generate_plugin_xml. cbv zeta.
  apply succeeds_bind; [apply is_dark_succeeds; assumption | intros dark _].
  apply succeeds_Ok.
Qed.

End GeneratorFacts.

(** ** The fallbacks of absent slots *)

Module GeneratorClaims.

Import Spec SpecColor SpecGen HexFacts GeneratorFacts.
Import ColorDerivator GhosttyParser PhpStormThemeGenerator.

Lemma palette_get_with_slot (p : gmap Z string) k d i di :
  p !! k = None ->
  (if (i =? k)%Z then String.eqb di d else true) = true ->
  palette_get (<[k := d]> p) i di = palette_get p i di.
Proof.
  intros Habs Hc. unfold palette_get. destruct (Z.eqb_spec i k) as [->|Hne].
  - apply String.eqb_eq in Hc. subst di. rewrite lookup_insert_eq, Habs. reflexivity.
  - rewrite lookup_insert_ne by congruence. reflexivity.
Qed.

Ltac absent_slot Habs :=
  repeat rewrite (palette_get_with_slot _ _ _ _ _ Habs) by reflexivity.

Ltac each_fallback Hin :=
  repeat (destruct Hin as [Hin | Hin]; [inversion Hin; subst; clear Hin|]);
  [..| destruct Hin].

Lemma derive_ui_colors_absent pow self k d :
  palette (ghostty self) !! k = None -> In (k, d) documented_fallbacks ->
  _derive_ui_colors pow (with_slot self k d) = _derive_ui_colors pow self.
Proof.
  intros Habs Hin. destruct self as [[n p bg fg cc ct sb sf] id].
  cbn [ghostty palette] in Habs.
  unfold _derive_ui_colors, with_slot, is_dark.
  cbv beta iota zeta delta [ghostty theme_id set_palette palette background foreground
    selection_background selection_foreground cursor_color cursor_text name].
  each_fallback Hin; absent_slot Habs; reflexivity.
Qed.

Lemma generate_theme_json_absent pow self k d :
  palette (ghostty self) !! k = None -> In (k, d) documented_fallbacks ->
  generate_theme_json pow (with_slot self k d) = generate_theme_json pow self.
Proof.
  intros Habs Hin. unfold generate_theme_json.
  rewrite (derive_ui_colors_absent pow self k d Habs Hin).
  destruct self as [[n p bg fg cc ct sb sf] id].
  cbn [ghostty palette] in Habs.
  unfold with_slot, is_dark.
  cbv beta iota zeta delta [ghostty theme_id set_palette palette background foreground
    selection_background selection_foreground cursor_color cursor_text name].
  each_fallback Hin; absent_slot Habs; reflexivity.
Qed.

Lemma generate_editor_scheme_absent pow self k d :
  palette (ghostty self) !! k = None -> In (k, d) scheme_fallbacks ->
  generate_editor_scheme pow (with_slot self k d) = generate_editor_scheme pow self.
Proof.
  intros Habs Hin. destruct self as [[n p bg fg cc ct sb sf] id].
  cbn [ghostty palette] in Habs.
  unfold generate_editor_scheme, _add_syntax_colors, syntax_mappings, scheme_colors,
    with_slot, is_dark.
  cbv beta iota zeta delta [ghostty theme_id set_palette palette background foreground
    selection_background selection_foreground cursor_color cursor_text name].
  each_fallback Hin; absent_slot Habs; reflexivity.
Qed.

(** C1 as stated fails: with slot 2 absent the editor scheme colours
    strings with [#00ff00], not with the documented [#00aa00]. *)
Lemma scheme_fallback_not_documented :
  exists self scheme,
    palette (ghostty self) !! 2 = None /\
    In (2, "#00aa00") documented_fallbacks /\
    In ("DEFAULT_STRING", "#00ff00") (syntax_mappings self) /\
    (forall pow, generate_editor_scheme pow self = Ok scheme) /\
    In "00FF00" (nested_values scheme) /\
    (forall pow, generate_editor_scheme pow (with_slot self 2 "#00aa00") <> Ok scheme).
Proof.
  exists {| ghostty := new_theme "demo"; theme_id := "id" |}.
  eexists. split; [reflexivity|]. split; [vm_compute; tauto|].
  split; [vm_compute; tauto|].
  split; [intros pow; vm_compute; reflexivity|].
  split; [vm_compute; tauto|].
  intros pow H. vm_compute in H. discriminate H.
Qed.

(** The amended C1.  With palette slot [k] absent, the UI colour table
    and the theme JSON are what they are with the slot set to its
    documented fallback, and the editor scheme is what it is with the
    slot set to the fallback of its own table: 1 -> #ff0000,
    2 -> #00ff00, 3 -> #ffff00, 4 -> #0000ff, 5 -> #ff00ff,
    6 -> #00ffff, 8 -> #555555. *)
Theorem fallback_of_absent_slot pow self k :
  palette (ghostty self) !! k = None ->
  (forall d, In (k, d) documented_fallbacks ->
     _derive_ui_colors pow (with_slot self k d) = _derive_ui_colors pow self /\
     generate_theme_json pow (with_slot self k d) = generate_theme_json pow self) /\
  (forall d, In (k, d) scheme_fallbacks ->
     generate_editor_scheme pow (with_slot self k d) = generate_editor_scheme pow self).
Proof.
  intros Habs. split.
  - intros d Hin. split.
    + apply derive_ui_colors_absent; assumption.
    + apply generate_theme_json_absent; assumption.
  - intros d Hin. apply generate_editor_scheme_absent; assumption.
Qed.

Lemma fallback_of_absent_slot_witness :
  (generate_theme_json (fun x _ => x)
     (with_slot {| ghostty := new_theme "demo"; theme_id := "id" |} 4 "#0078d4") =
   generate_theme_json (fun x _ => x) {| ghostty := new_theme "demo"; theme_id := "id" |}) /\
  (generate_editor_scheme (fun x _ => x)
     (with_slot {| ghostty := new_theme "demo"; theme_id := "id" |} 4 "#0000ff") =
   generate_editor_scheme (fun x _ => x) {| ghostty := new_theme "demo"; theme_id := "id" |}).
Proof.
  destruct (fallback_of_absent_slot (fun x _ => x)
              {| ghostty := new_theme "demo"; theme_id := "id" |} 4) as [Hui Hscheme].
  - reflexivity.
  - split.
    + apply Hui. vm_compute. tauto.
    + apply Hscheme. vm_compute. tauto.
Defined.

End GeneratorClaims.

(** ** The colour values of the editor scheme *)

Module SchemeFacts.

Import Spec SpecColor SpecGen HexFacts HsvFacts GeneratorFacts.
Import ColorDerivator GhosttyParser PhpStormThemeGenerator.

Lemma upper_char_not_lower c : is_lower_letter (Py.upper_char c) = false.
Proof. destruct c as [[] [] [] [] [] [] [] []]; reflexivity. Qed.

Lemma upper_no_lower s : no_lower_case (Py.upper s) = true.
Proof.
  induction s as [|c s IH]; [reflexivity|].
  unfold no_lower_case in *. simpl. rewrite upper_char_not_lower, IH. reflexivity.
Qed.

Lemma lstrip_no_lower ch s :
  no_lower_case s = true -> no_lower_case (Py.lstrip_char ch s) = true.
Proof.
  induction s as [|c s IH]; [reflexivity|].
  intros H. simpl. destruct (Ascii.eqb c ch); [|exact H].
  apply IH. unfold no_lower_case in *. simpl in H. apply andb_prop in H as [_ H]. exact H.
Qed.

Lemma lstrip_no_hash s : Py.startswith_char "#" (Py.lstrip_char "#" s) = false.
Proof.
  induction s as [|c s IH]; [reflexivity|].
  simpl. destruct (Ascii.eqb c "#") eqn:E; [exact IH|].
  simpl. exact E.
Qed.

Lemma upper_hex_digit c :
  is_hex_digit c = true ->
  is_upper_hex_digit (Py.upper_char c) = true /\ Ascii.eqb (Py.upper_char c) "#" = false.
Proof. destruct c as [[] [] [] [] [] [] [] []]; vm_compute; try discriminate; auto. Qed.

(** A colour in upper case, with and without its [#]. *)
Lemma upper_hex_color c :
  is_hex_color c = true ->
  is_upper_hex_color (Py.upper c) = true /\
  six is_upper_hex_digit (Py.lstrip_char "#" (Py.upper c)) = true.
Proof.
  destruct c as [|c0 s]; [discriminate|]. simpl.
  destruct (Ascii.eqb_spec c0 "#") as [->|Hne].
  2:{ intros H. exfalso. revert H.
      destruct c0 as [[] [] [] [] [] [] [] []]; try discriminate. congruence. }
  intros H. apply six_inv in H as (c1 & c2 & c3 & c4 & c5 & c6 & -> & H1 & H2 & H3 & H4 & H5 & H6).
  destruct (upper_hex_digit c1 H1) as [U1 N1].
  destruct (upper_hex_digit c2 H2) as [U2 _].
  destruct (upper_hex_digit c3 H3) as [U3 _].
  destruct (upper_hex_digit c4 H4) as [U4 _].
  destruct (upper_hex_digit c5 H5) as [U5 _].
  destruct (upper_hex_digit c6 H6) as [U6 _].
  change (Py.upper_char "#") with "#"%char. cbn [Py.upper Py.lstrip_char].
  change (Ascii.eqb "#" "#") with true. cbv iota. cbn [Py.lstrip_char]. rewrite N1.
  unfold is_upper_hex_color, six. cbn [String.length all_chars].
  rewrite U1, U2, U3, U4, U5, U6. split; reflexivity.
Qed.

(** The tree that [generate_editor_scheme] returns. *)
Lemma generate_editor_scheme_tree pow self scheme :
  generate_editor_scheme pow self = Ok scheme ->
  exists dark line,
    is_dark pow (ghostty self) = Ok dark /\
    adjust_brightness (foreground (ghostty self)) (-0.3) = Ok line /\
    scheme = Element "scheme"
               [("name", name (ghostty self)); ("version", "142");
                ("parent_scheme", if dark then "Darcula" else "Default")]
               [Element "colors" [] (scheme_colors self line);
                Element "attributes" [] (_add_syntax_colors self)].
Proof.
  unfold generate_editor_scheme. cbv zeta. intros H.
  apply bind_Ok in H as (dark & Hd & H). apply bind_Ok in H as (line & Hl & H).
  inversion H. exists dark, line. repeat split; assumption.
Qed.

Lemma top_level_values_tree self attrs line rest :
  top_level_values
    (Element "scheme" attrs [Element "colors" [] (scheme_colors self line); Element "attributes" [] rest]) =
  map Py.upper
    [background (ghostty self); foreground (ghostty self); cursor_color (ghostty self);
     selection_background (ghostty self); selection_foreground (ghostty self); line;
     background (ghostty self)].
Proof. reflexivity. Qed.

Lemma nested_values_tree self attrs colors :
  nested_values
    (Element "scheme" attrs [Element "colors" [] colors; Element "attributes" [] (_add_syntax_colors self)]) =
  map (fun entry => Py.lstrip_char "#" (Py.upper (snd entry))) (syntax_mappings self).
Proof. reflexivity. Qed.

End SchemeFacts.

Module SchemeClaims.

Import Spec SpecColor SpecGen HexFacts HsvFacts GeneratorFacts SchemeFacts.
Import ColorDerivator GhosttyParser PhpStormThemeGenerator.

(** C4 as stated fails: a cursor colour written without [#] in the theme
    file is written without [#] at the top level of the scheme. *)
Lemma top_level_value_without_hash :
  exists t scheme,
    parse_theme_file "demo" "cursor-color=ffffff" = Ok t /\
    (forall pow id,
       generate_editor_scheme pow {| ghostty := t; theme_id := id |} = Ok scheme) /\
    In "FFFFFF" (top_level_values scheme) /\
    Py.startswith_char "#" "FFFFFF" = false.
Proof.
  exists (set_cursor_color (new_theme "demo") "ffffff"). eexists.
  split; [vm_compute; reflexivity|].
  split; [intros pow id; vm_compute; reflexivity|].
  split; [vm_compute; tauto | reflexivity].
Qed.

(** The amended C4.  In the tree of the editor scheme of any theme, no
    colour value has a lower-case letter, and the values inside nested
    value options do not start with [#].  When the colours of the theme
    are all written as [#] and six hexadecimal digits, the seven
    top-level values are [#] and six upper-case hexadecimal digits, and
    the eight nested values are six upper-case hexadecimal digits. *)
Theorem scheme_color_values pow self scheme :
  generate_editor_scheme pow self = Ok scheme ->
  length (top_level_values scheme) = 7%nat /\
  length (nested_values scheme) = 8%nat /\
  Forall (fun v => no_lower_case v = true) (top_level_values scheme) /\
  Forall (fun v => no_lower_case v = true /\ Py.startswith_char "#" v = false)
         (nested_values scheme) /\
  (well_formed (ghostty self) ->
   Forall (fun v => is_upper_hex_color v = true) (top_level_values scheme) /\
   Forall (fun v => six is_upper_hex_digit v = true) (nested_values scheme)).
Proof.
  intros H. apply generate_editor_scheme_tree in H as (dark & line & Hd & Hl & ->).
  rewrite top_level_values_tree, nested_values_tree.
  split; [reflexivity|]. split; [reflexivity|]. split; [|split].
  - cbn [map]. repeat (apply List.Forall_cons; [apply upper_no_lower|]). apply List.Forall_nil.
  - unfold syntax_mappings. cbn [map snd].
    repeat (apply List.Forall_cons;
            [split; [apply lstrip_no_lower, upper_no_lower | apply lstrip_no_hash]|]).
    apply List.Forall_nil.
  - intros (Hbg & Hfg & Hcc & Hsb & Hsf & Hp).
    assert (Hline : is_hex_color line = true).
    { destruct (adjust_brightness_color (foreground (ghostty self)) (-0.3) Hfg) as (out & E & L).
      rewrite E in Hl. inversion Hl; subst out. apply lower_is_hex_color. exact L. }
    split.
    + cbn [map].
      repeat (apply List.Forall_cons; [apply upper_hex_color; assumption|]).
      apply List.Forall_nil.
    + unfold syntax_mappings. cbn [map snd].
      repeat (apply List.Forall_cons;
              [apply upper_hex_color;
               first [assumption | apply palette_get_color; [assumption | reflexivity]]|]).
      apply List.Forall_nil.
Qed.

Lemma scheme_color_values_witness :
  exists scheme,
    generate_editor_scheme (fun x _ => x)
      {| ghostty := set_palette (new_theme "demo") 2 "#98c379"; theme_id := "id" |} = Ok scheme /\
    Forall (fun v => is_upper_hex_color v = true) (top_level_values scheme) /\
    Forall (fun v => six is_upper_hex_digit v = true) (nested_values scheme) /\
    In "98C379" (nested_values scheme) /\ In "#FFFFFF" (top_level_values scheme).
Proof.
  destruct (generate_editor_scheme_succeeds (fun x _ => x)
              {| ghostty := set_palette (new_theme "demo") 2 "#98c379"; theme_id := "id" |})
    as [scheme Hs].
  { repeat (split; [reflexivity|]).
    intros k c H. cbn [ghostty palette set_palette new_theme] in H.
    apply lookup_insert_Some in H as [[_ <-] | [_ H]]; [reflexivity|].
    rewrite lookup_empty in H. discriminate. }
  exists scheme. split; [exact Hs|].
  destruct (scheme_color_values _ _ _ Hs) as (_ & _ & _ & _ & Hwf).
  destruct Hwf as [Ht Hn].
  { repeat (split; [reflexivity|]).
    intros k c H. cbn [ghostty palette set_palette new_theme] in H.
    apply lookup_insert_Some in H as [[_ <-] | [_ H]]; [reflexivity|].
    rewrite lookup_empty in H. discriminate. }
  split; [exact Ht | split; [exact Hn|]].
  apply generate_editor_scheme_tree in Hs as (dark & line & _ & _ & ->).
  rewrite top_level_values_tree, nested_values_tree.
  split; [vm_compute; tauto | vm_compute; tauto].
Defined.

End SchemeClaims.

(** ** Printing the editor scheme, and the conversion of a theme file *)

Module XmlFacts.

Import Spec SpecColor SpecGen HexFacts HsvFacts GeneratorFacts SchemeFacts.
Import ColorDerivator GhosttyParser PhpStormThemeGenerator.

Section Characters.

Variables lone_surrogate xml_char_beyond : ascii -> bool.

Lemma plain_char c :
  is_plain c = true ->
  Xml.encodable lone_surrogate c = true /\ Xml.is_xml_char xml_char_beyond c = true.
Proof. destruct c as [[] [] [] [] [] [] [] []]; vm_compute; try discriminate; auto. Qed.

Lemma plain_text s :
  Xml.every is_plain s = true ->
  Xml.every (Xml.encodable lone_surrogate) s = true /\
  Xml.every (Xml.is_xml_char xml_char_beyond) s = true.
Proof.
  induction s as [|c s IH]; [split; reflexivity|].
  cbn [Xml.every]. intros H. apply andb_prop in H as [Hc Hs].
  destruct (plain_char c Hc) as [-> ->]. destruct (IH Hs) as [-> ->]. split; reflexivity.
Qed.

End Characters.

Lemma upper_digit_plain c : is_upper_hex_digit c = true -> is_plain c = true.
Proof. destruct c as [[] [] [] [] [] [] [] []]; vm_compute; congruence. Qed.

Lemma upper_digits_plain s :
  six is_upper_hex_digit s = true -> Xml.every is_plain s = true.
Proof.
  intros H. apply six_inv in H as (c1 & c2 & c3 & c4 & c5 & c6 & -> & H1 & H2 & H3 & H4 & H5 & H6).
  cbn [Xml.every].
  rewrite (upper_digit_plain c1 H1), (upper_digit_plain c2 H2), (upper_digit_plain c3 H3),
    (upper_digit_plain c4 H4), (upper_digit_plain c5 H5), (upper_digit_plain c6 H6).
  reflexivity.
Qed.

(** A colour in upper case, with or without its [#], is printable. *)
Lemma upper_color_plain c :
  is_hex_color c = true ->
  Xml.every is_plain (Py.upper c) = true /\
  Xml.every is_plain (Py.lstrip_char "#" (Py.upper c)) = true.
Proof.
  intros Hc. destruct (upper_hex_color c Hc) as [U S]. split.
  - destruct (Py.upper c) as [|c0 s]; [discriminate|]. simpl in U.
    destruct (Ascii.eqb_spec c0 "#") as [->|Hne].
    + cbn [Xml.every]. rewrite (upper_digits_plain s U). reflexivity.
    + exfalso. revert U. destruct c0 as [[] [] [] [] [] [] [] []]; try discriminate. congruence.
  - apply upper_digits_plain. exact S.
Qed.

(** The values of the tree of a theme with well-formed colours satisfy
    every property of texts that holds of the name of the theme and of
    printable texts. *)
Lemma scheme_tree_values (p : string -> bool) (self : generator) (dark : bool) (line : string) :
  (forall s, Xml.every is_plain s = true -> p s = true) ->
  well_formed (ghostty self) -> is_hex_color line = true ->
  Xml.all_values p
    (Element "scheme"
       [("name", name (ghostty self)); ("version", "142");
        ("parent_scheme", if dark then "Darcula" else "Default")]
       [Element "colors" [] (scheme_colors self line);
        Element "attributes" [] (_add_syntax_colors self)]) = p (name (ghostty self)).
Proof.
  intros Hp (Hbg & Hfg & Hcc & Hsb & Hsf & Hpal) Hline.
  assert (Hup : forall c, is_hex_color c = true -> p (Py.upper c) = true)
    by (intros c Hc; apply Hp, upper_color_plain, Hc).
  assert (Hns : forall c, is_hex_color c = true -> p (Py.lstrip_char "#" (Py.upper c)) = true)
    by (intros c Hc; apply Hp, upper_color_plain, Hc).
  assert (Hpg : forall k d, is_hex_color d = true ->
            p (Py.lstrip_char "#" (Py.upper (palette_get (palette (ghostty self)) k d))) = true)
    by (intros k d Hd; apply Hns, palette_get_color; assumption).
  assert (Hdark : p (if dark then "Darcula" else "Default") = true)
    by (destruct dark; apply Hp; reflexivity).
  unfold scheme_colors, _add_syntax_colors, syntax_mappings, syntax_option, _add_color_option.
  cbn [Xml.all_values forallb map snd].
  rewrite Hdark, !Hpg by reflexivity.
  rewrite !Hup, !Hns by assumption.
  rewrite !(Hp "142"), !(Hp "BACKGROUND"), !(Hp "FOREGROUND"), !(Hp "CARET_COLOR"),
    !(Hp "SELECTION_BACKGROUND"), !(Hp "SELECTION_FOREGROUND"), !(Hp "LINE_NUMBERS_COLOR"),
    !(Hp "GUTTER_BACKGROUND"), !(Hp "DEFAULT_KEYWORD"), !(Hp "DEFAULT_STRING"),
    !(Hp "DEFAULT_NUMBER"), !(Hp "DEFAULT_COMMENT"), !(Hp "DEFAULT_IDENTIFIER"),
    !(Hp "DEFAULT_FUNCTION_DECLARATION"), !(Hp "DEFAULT_CLASS_NAME"), !(Hp "DEFAULT_CONSTANT")
    by reflexivity.
  cbn [andb]. rewrite !andb_true_r. reflexivity.
Qed.

(** For a theme with well-formed colours the editor scheme is printed
    exactly when the XML parser accepts the name of the theme. *)
Lemma generate_editor_scheme_xml_succeeds pow ls xb pretty self :
  well_formed (ghostty self) ->
  (succeeds (generate_editor_scheme_xml pow self ls xb pretty) <->
   xml_text ls xb (name (ghostty self)) = true).
Proof.
  intros Hwf.
  destruct (generate_editor_scheme_succeeds pow self Hwf) as [scheme Hs].
  pose proof Hs as Htree.
  apply generate_editor_scheme_tree in Htree as (dark & line & _ & Hl & ->).
  assert (Hline : is_hex_color line = true).
  { destruct Hwf as (_ & Hfg & _).
    destruct (adjust_brightness_color (foreground (ghostty self)) (-0.3) Hfg) as (out & E & L).
    rewrite E in Hl. inversion Hl; subst out. apply lower_is_hex_color. exact L. }
  unfold generate_editor_scheme_xml, Xml.reparse, xml_text. rewrite Hs. cbn [bind].
  rewrite (scheme_tree_values (Xml.every (Xml.encodable ls)) self dark line
             (fun s H => proj1 (plain_text ls xb s H)) Hwf Hline).
  rewrite (scheme_tree_values (Xml.every (Xml.is_xml_char xb)) self dark line
             (fun s H => proj2 (plain_text ls xb s H)) Hwf Hline).
  destruct (Xml.every (Xml.encodable ls) (name (ghostty self)));
    destruct (Xml.every (Xml.is_xml_char xb) (name (ghostty self))); cbn [negb bind andb];
    split; intros H; try discriminate; try reflexivity;
    try (eexists; reflexivity); destruct H as [x H]; discriminate.
Qed.

Lemma parse_line_name t line t' : parse_line t line = Ok t' -> name t' = name t.
Proof.
  unfold parse_line.
  destruct (String.eqb (Py.strip line) "" || Py.startswith_char "#" (Py.strip line));
    [intros H; inversion H; reflexivity|].
  destruct (Py.split1 "=" (Py.strip line)) as [[key value]|];
    [|intros H; inversion H; reflexivity].
  destruct (String.eqb (Py.strip key) "palette").
  - destruct (Py.split1 "=" (Py.strip value)) as [[index color]|];
      [|intros H; inversion H; reflexivity].
    destruct (Py.int 10 index) as [k|e]; cbn [bind try_except_ValueError].
    + intros H. inversion H. reflexivity.
    + destruct e; intros H; inversion H; reflexivity.
  - repeat match goal with
    | |- context [if ?b then _ else _] => destruct b; [intros H; inversion H; reflexivity|]
    end.
    intros H. inversion H. reflexivity.
Qed.

Lemma parse_lines_name lines : forall t t', parse_lines t lines = Ok t' -> name t' = name t.
Proof.
  induction lines as [|l ls IH]; intros t t' H.
  - inversion H. reflexivity.
  - cbn [parse_lines] in H. apply bind_Ok in H as (t1 & H1 & H2).
    rewrite (IH _ _ H2). apply (parse_line_name _ _ _ H1).
Qed.

End XmlFacts.

Module ConversionClaims.

Import Spec SpecColor SpecGen HexFacts GeneratorFacts XmlFacts.
Import ColorDerivator GhosttyParser PhpStormThemeGenerator.




End ConversionClaims.

(** ** Lines, fields and palette slots *)

Module ParserCover.

Import GhosttyParser SpecParser ParserFacts.

(** What one line does to the theme. *)
Lemma parse_line_spec t line :
  parse_line t line =
  Ok (match line_key line with
      | None => t
      | Some key =>
          if String.eqb key "palette" then
            match line_slot line with
            | Some (k, c) => set_palette t k c
            | None => t
            end
          else if String.eqb key "background" then set_background t (line_value line)
          else if String.eqb key "foreground" then set_foreground t (line_value line)
          else if String.eqb key "cursor-color" then set_cursor_color t (line_value line)
          else if String.eqb key "cursor-text" then set_cursor_text t (line_value line)
          else if String.eqb key "selection-background" then
            set_selection_background t (line_value line)
          else if String.eqb key "selection-foreground" then
            set_selection_foreground t (line_value line)
          else t
      end).
Proof.
  unfold parse_line, line_slot, line_value, line_key.
  destruct (String.eqb (Py.strip line) "" || Py.startswith_char "#" (Py.strip line)); [reflexivity|].
  destruct (Py.split1 "=" (Py.strip line)) as [[key value]|]; [|reflexivity].
  destruct (String.eqb (Py.strip key) "palette").
  - destruct (Py.split1 "=" (Py.strip value)) as [[index color]|]; [|reflexivity].
    destruct (Py.int 10 index) as [k|e] eqn:E; [reflexivity|].
    apply int_raises_ValueError in E. subst e. reflexivity.
  - repeat match goal with
    | |- context [if ?b then _ else _] => destruct b; [reflexivity|]
    end. reflexivity.
Qed.

Lemma says_nothing_line t line : says_nothing line = true -> parse_line t line = Ok t.
Proof.
  rewrite parse_line_spec. unfold says_nothing, field_of.
  destruct (line_key line) as [key|]; [|reflexivity].
  destruct (String.eqb key "palette").
  - destruct (line_slot line) as [[k c]|]; [discriminate | reflexivity].
  - destruct (String.eqb key "background"); [discriminate|].
    destruct (String.eqb key "foreground"); [discriminate|].
    destruct (String.eqb key "cursor-color"); [discriminate|].
    destruct (String.eqb key "cursor-text"); [discriminate|].
    destruct (String.eqb key "selection-background"); [discriminate|].
    destruct (String.eqb key "selection-foreground"); [discriminate|].
    reflexivity.
Qed.

(** X1.  Blank lines, comments, lines without [=], lines with a key
    that the parser does not know and palette lines without a slot
    number leave the theme as it is: a file of such lines parses to the
    theme that the parser starts from. *)
Theorem idle_lines_keep_theme file_name text :
  forallb says_nothing (file_lines text) = true ->
  parse_theme_file file_name text = Ok (new_theme file_name).
Proof.
  unfold parse_theme_file. generalize (new_theme file_name) as t.
  induction (file_lines text) as [|l ls IH]; intros t H; [reflexivity|].
  simpl in H. apply andb_prop in H as [Hl Hls].
  cbn [parse_lines]. rewrite (says_nothing_line t l Hl). cbn [bind]. apply IH. exact Hls.
Qed.

Lemma idle_lines_keep_theme_witness :
  parse_theme_file "demo"
    (String.concat (String "010" "")
       ["# a comment"; ""; "   "; "no equals sign"; "font-size = 12"; "palette = red";
        "palette = x=#ffffff"; "Background = #123456"]) = Ok (new_theme "demo").
Proof.
  apply idle_lines_keep_theme. vm_compute. reflexivity.
Defined.

Ltac key_cases lk :=
  destruct (String.eqb lk "palette") eqn:?;
  [| destruct (String.eqb lk "background") eqn:?;
     [| destruct (String.eqb lk "foreground") eqn:?;
        [| destruct (String.eqb lk "cursor-color") eqn:?;
           [| destruct (String.eqb lk "cursor-text") eqn:?;
              [| destruct (String.eqb lk "selection-background") eqn:?;
                 [| destruct (String.eqb lk "selection-foreground") eqn:? ]]]]]].

Ltac field_cases key Hf :=
  unfold field_of in Hf;
  repeat match type of Hf with
  | (if String.eqb key ?lit then _ else _) = _ =>
      destruct (String.eqb_spec key lit); [inversion Hf; subst; clear Hf|]
  end; [..| discriminate Hf].

(** One line: the name stays, as does every field that the line does not
    name and every slot that it does not assign. *)
Lemma parse_line_frame t line t' :
  parse_line t line = Ok t' ->
  name t' = name t /\
  (forall key f, field_of key = Some f -> has_key key line = false -> f t' = f t) /\
  (forall k, assigns_slot k line = false -> palette t' !! k = palette t !! k).
Proof.
  rewrite parse_line_spec. intros H. inversion H as [Ht']. clear H Ht'.
  unfold has_key, assigns_slot.
  destruct (line_key line) as [lk|] eqn:Ek.
  2:{ split; [reflexivity|]. split; reflexivity. }
  split; [|split].
  - key_cases lk; try reflexivity. destruct (line_slot line) as [[k c]|]; reflexivity.
  - intros key f Hf Hk. field_cases key Hf;
      (key_cases lk; try reflexivity; try congruence;
       destruct (line_slot line) as [[k c]|]; reflexivity).
  - intros k Hk. key_cases lk; try reflexivity.
    destruct (line_slot line) as [[k' c]|]; [|reflexivity].
    cbn [palette set_palette]. apply Z.eqb_neq in Hk.
    apply lookup_insert_ne. exact Hk.
Qed.

(** One line: the field that it names is its value, the slot that it
    assigns is its colour. *)
Lemma parse_line_sets t line t' :
  parse_line t line = Ok t' ->
  (forall key f, field_of key = Some f -> has_key key line = true -> f t' = line_value line) /\
  (forall k c, line_slot line = Some (k, c) -> palette t' !! k = Some c).
Proof.
  rewrite parse_line_spec. intros H. inversion H as [Ht']. clear H Ht'.
  unfold has_key. split.
  - intros key f Hf Hk. destruct (line_key line) as [lk|]; [|discriminate].
    apply String.eqb_eq in Hk. subst lk. field_cases key Hf; reflexivity.
  - intros k c Hs. pose proof Hs as Hs'. unfold line_slot in Hs'.
    destruct (line_key line) as [lk|]; [|discriminate].
    destruct (String.eqb lk "palette"); [|discriminate].
    rewrite Hs. cbn [palette set_palette]. apply lookup_insert_eq.
Qed.

Lemma parse_lines_frame lines : forall t t',
  parse_lines t lines = Ok t' ->
  name t' = name t /\
  (forall key f, field_of key = Some f ->
     forallb (fun l => negb (has_key key l)) lines = true -> f t' = f t) /\
  (forall k, forallb (fun l => negb (assigns_slot k l)) lines = true ->
     palette t' !! k = palette t !! k).
Proof.
  induction lines as [|l ls IH]; intros t t' H.
  - inversion H. subst. split; [reflexivity|]. split; reflexivity.
  - cbn [parse_lines] in H. apply bind_Ok in H as (t1 & H1 & H2).
    destruct (parse_line_frame t l t1 H1) as (N1 & F1 & P1).
    destruct (IH t1 t' H2) as (N2 & F2 & P2).
    split; [congruence|]. split.
    + intros key f Hf Hall. simpl in Hall. apply andb_prop in Hall as [Hl Hls].
      apply negb_true_iff in Hl.
      rewrite (F2 key f Hf Hls). apply (F1 key f Hf Hl).
    + intros k Hall. simpl in Hall. apply andb_prop in Hall as [Hl Hls].
      apply negb_true_iff in Hl. rewrite (P2 k Hls). apply (P1 k Hl).
Qed.

(** X2.  The parsed theme has the name of the file; a field that no line
    of the file names has its default value, and a palette slot that no
    line assigns is absent. *)
Theorem unset_fields_keep_defaults file_name text t :
  parse_theme_file file_name text = Ok t ->
  name t = file_name /\
  (forall key f, field_of key = Some f ->
     forallb (fun l => negb (has_key key l)) (file_lines text) = true ->
     f t = f (new_theme file_name)) /\
  (forall k, forallb (fun l => negb (assigns_slot k l)) (file_lines text) = true ->
     palette t !! k = None).
Proof.
  unfold parse_theme_file. intros H.
  destruct (parse_lines_frame _ _ _ H) as (N & F & P).
  split; [exact N|]. split; [exact F|].
  intros k Hk. rewrite (P k Hk). apply lookup_empty.
Qed.

Lemma unset_fields_keep_defaults_witness :
  exists t,
    parse_theme_file "demo"
      (String.concat (String "010" "") ["background = #101010"; "palette = 1=#cc0000"]) = Ok t /\
    name t = "demo" /\ foreground t = "#ffffff" /\ cursor_text t = "#000000" /\
    palette t !! 2 = None.
Proof.
  destruct (parse_lines_succeeds
              (file_lines (String.concat (String "010" "")
                 ["background = #101010"; "palette = 1=#cc0000"])) (new_theme "demo")) as [t Ht].
  exists t. split; [exact Ht|].
  destruct (unset_fields_keep_defaults "demo" _ t Ht) as (N & F & P).
  split; [exact N|]. split; [|split].
  - apply (F "foreground" foreground); vm_compute; reflexivity.
  - apply (F "cursor-text" cursor_text); vm_compute; reflexivity.
  - apply P. vm_compute. reflexivity.
Defined.

(** X3.  The last line that names a field decides it: the field of the
    parsed theme is the value of that line, whatever comes before. *)
Theorem last_line_of_a_field_wins file_name text pre line post key f :
  file_lines text = (pre ++ line :: post)%list ->
  field_of key = Some f ->
  has_key key line = true ->
  forallb (fun l => negb (has_key key l)) post = true ->
  exists t, parse_theme_file file_name text = Ok t /\ f t = line_value line.
Proof.
  intros Hlines Hf Hk Hpost.
  destruct (parse_lines_succeeds (file_lines text) (new_theme file_name)) as [t Ht].
  exists t. split; [exact Ht|].
  rewrite Hlines, parse_lines_app in Ht.
  apply bind_Ok in Ht as (t1 & _ & Ht). cbn [parse_lines] in Ht.
  apply bind_Ok in Ht as (t2 & H2 & Ht).
  destruct (parse_lines_frame _ _ _ Ht) as (_ & F & _).
  rewrite (F key f Hf Hpost).
  destruct (parse_line_sets _ _ _ H2) as [S _]. apply (S key f Hf Hk).
Qed.

Lemma last_line_of_a_field_wins_witness :
  exists t,
    parse_theme_file "demo"
      (String.concat (String "010" "")
         ["background = #101010"; "  background=#a=b  "; "foreground = #cccccc"]) = Ok t /\
    background t = "#a=b".
Proof.
  apply (last_line_of_a_field_wins "demo" _ ["background = #101010"] "  background=#a=b  "
           ["foreground = #cccccc"] "background" background); vm_compute; reflexivity.
Defined.

(** X4.  The last line that assigns a palette slot decides it, for every
    integer that [int] reads as the slot number: no range is checked. *)
Theorem last_line_of_a_slot_wins file_name text pre line post k c :
  file_lines text = (pre ++ line :: post)%list ->
  line_slot line = Some (k, c) ->
  forallb (fun l => negb (assigns_slot k l)) post = true ->
  exists t, parse_theme_file file_name text = Ok t /\ palette t !! k = Some c.
Proof.
  intros Hlines Hs Hpost.
  destruct (parse_lines_succeeds (file_lines text) (new_theme file_name)) as [t Ht].
  exists t. split; [exact Ht|].
  rewrite Hlines, parse_lines_app in Ht.
  apply bind_Ok in Ht as (t1 & _ & Ht). cbn [parse_lines] in Ht.
  apply bind_Ok in Ht as (t2 & H2 & Ht).
  destruct (parse_lines_frame _ _ _ Ht) as (_ & _ & P).
  rewrite (P k Hpost).
  destruct (parse_line_sets _ _ _ H2) as [_ S]. apply (S k c Hs).
Qed.

Lemma last_line_of_a_slot_wins_witness :
  exists t,
    parse_theme_file "demo"
      (String.concat (String "010" "")
         ["palette = 300=#111111"; "palette= -1 = #222222 "; "palette = +3_00 = #333333";
          "palette = 4=#444444"]) = Ok t /\
    palette t !! 300 = Some "#333333".
Proof.
  apply (last_line_of_a_slot_wins "demo" _
           ["palette = 300=#111111"; "palette= -1 = #222222 "] "palette = +3_00 = #333333"
           ["palette = 4=#444444"] 300 "#333333"); vm_compute; reflexivity.
Defined.

End ParserCover.

(** ** How colour strings are read *)

Module InputCover.

Import Spec SpecColor SpecInput HexFacts ParserFacts ColorDerivator.

Lemma channels_decide a b : channels_of a = channels_of b -> read_alike a b.
Proof.
  unfold channels_of. intros H.
  unfold read_alike, adjust_brightness, adjust_saturation, blend_colors, _get_luminance,
    unit_channels.
  rewrite H. repeat split; reflexivity.
Qed.

Lemma digit_value_upper c :
  is_hex_digit c = true ->
  is_hex_digit (Py.upper_char c) = true /\ is_hex_digit (Py.lower_char c) = true /\
  Py.digit_value (Py.upper_char c) = Py.digit_value c /\
  Py.digit_value (Py.lower_char c) = Py.digit_value c.
Proof. destruct c as [[] [] [] [] [] [] [] []]; vm_compute; try discriminate; auto. Qed.

Lemma hex_pair_case (f : ascii -> ascii) c1 c2 :
  (forall c, is_hex_digit c = true ->
     is_hex_digit (f c) = true /\ Py.digit_value (f c) = Py.digit_value c) ->
  is_hex_digit c1 = true -> is_hex_digit c2 = true ->
  Py.int 16 (String (f c1) (String (f c2) "")) = Py.int 16 (String c1 (String c2 "")).
Proof.
  intros Hf H1 H2. destruct (Hf c1 H1) as [U1 D1]. destruct (Hf c2 H2) as [U2 D2].
  destruct (hex_pair_int c1 c2 H1 H2) as (E & _).
  destruct (hex_pair_int (f c1) (f c2) U1 U2) as (E' & _).
  rewrite E, E'. unfold Enum.hex_pair_value. rewrite D1, D2. reflexivity.
Qed.

Lemma channels_case (f : ascii -> ascii) (fs : string -> string) c :
  (forall ch s, fs (String ch s) = String (f ch) (fs s)) -> fs "" = "" ->
  f "#"%char = "#"%char ->
  (forall ch, is_hex_digit ch = true ->
     is_hex_digit (f ch) = true /\ Py.digit_value (f ch) = Py.digit_value ch) ->
  is_hex_color c = true -> channels_of (fs c) = channels_of c.
Proof.
  intros Hcons Hnil Hhash Hf.
  destruct c as [|c0 s]; [discriminate|]. simpl.
  destruct (Ascii.eqb_spec c0 "#") as [->|Hne].
  2:{ intros H. exfalso. revert H.
      destruct c0 as [[] [] [] [] [] [] [] []]; try discriminate. congruence. }
  intros H. apply six_inv in H as (c1 & c2 & c3 & c4 & c5 & c6 & -> & H1 & H2 & H3 & H4 & H5 & H6).
  rewrite !Hcons, Hnil, Hhash.
  assert (N : forall ch, is_hex_digit ch = true -> Ascii.eqb ch "#" = false).
  { intros ch. destruct ch as [[] [] [] [] [] [] [] []]; vm_compute; congruence. }
  unfold channels_of. cbn [Py.lstrip_char]. change (Ascii.eqb "#" "#") with true. cbv iota.
  cbn [Py.lstrip_char]. rewrite (N c1 H1), (N (f c1) (proj1 (Hf c1 H1))).
  unfold hex_channels, Py.slice. cbn [substring Nat.sub].
  rewrite (hex_pair_case f c1 c2 Hf H1 H2), (hex_pair_case f c3 c4 Hf H3 H4),
    (hex_pair_case f c5 c6 Hf H5 H6). reflexivity.
Qed.

(** X5.  The colour functions do not tell the letter case of a colour:
    a colour in upper case and in lower case is read as the colour
    itself. *)
Theorem letter_case_is_ignored c :
  is_hex_color c = true -> read_alike (Py.upper c) c /\ read_alike (Py.lower c) c.
Proof.
  intros Hc. split; apply channels_decide.
  - apply (channels_case Py.upper_char Py.upper); try reflexivity; [|exact Hc].
    intros ch Hch. destruct (digit_value_upper ch Hch) as (U & _ & D & _). split; assumption.
  - apply (channels_case Py.lower_char Py.lower); try reflexivity; [|exact Hc].
    intros ch Hch. destruct (digit_value_upper ch Hch) as (_ & L & _ & D). split; assumption.
Qed.

Lemma letter_case_is_ignored_witness :
  read_alike "#1E90FF" "#1e90Ff" /\ read_alike "#1e90ff" "#1e90Ff".
Proof.
  apply (letter_case_is_ignored "#1e90Ff"). reflexivity.
Defined.

(** X6.  Only the first six characters after the leading [#] are read:
    what follows a colour is ignored, and so is a missing [#]. *)
Theorem only_six_digits_are_read c extra :
  is_hex_color c = true ->
  read_alike (c ++ extra) c /\ read_alike (Py.lstrip_char "#" c) c.
Proof.
  intros Hc.
  destruct c as [|c0 s]; [discriminate|]. simpl in Hc.
  destruct (Ascii.eqb_spec c0 "#") as [->|Hne].
  2:{ exfalso. revert Hc.
      destruct c0 as [[] [] [] [] [] [] [] []]; try discriminate. congruence. }
  apply six_inv in Hc as (c1 & c2 & c3 & c4 & c5 & c6 & -> & H1 & _).
  assert (N : Ascii.eqb c1 "#" = false).
  { revert H1. destruct c1 as [[] [] [] [] [] [] [] []]; vm_compute; congruence. }
  split; apply channels_decide; unfold channels_of;
    cbv beta iota fix delta [String.append]; cbn [Py.lstrip_char];
    change (Ascii.eqb "#" "#") with true; cbv iota; cbn [Py.lstrip_char]; rewrite N;
    cbn [Py.lstrip_char]; rewrite ?N;
    unfold hex_channels, Py.slice; cbn [substring Nat.sub];
    try (destruct extra); reflexivity.
Qed.

Lemma only_six_digits_are_read_witness :
  read_alike "#1e90ff80" "#1e90ff" /\ read_alike "1e90ff" "#1e90ff".
Proof.
  apply (only_six_digits_are_read "#1e90ff" "80"). reflexivity.
Defined.

Lemma hex_channels_raises h e : hex_channels h = Raise e -> e = ValueError.
Proof.
  unfold hex_channels. intros H.
  destruct (Py.int 16 (Py.slice 0 2 h)) as [r|e1] eqn:E1;
    [|inversion H; subst; exact (int_raises_ValueError _ _ _ E1)].
  destruct (Py.int 16 (Py.slice 2 4 h)) as [g|e2] eqn:E2;
    [|inversion H; subst; exact (int_raises_ValueError _ _ _ E2)].
  destruct (Py.int 16 (Py.slice 4 6 h)) as [b|e3] eqn:E3;
    [discriminate | inversion H; subst; exact (int_raises_ValueError _ _ _ E3)].
Qed.

Lemma short_channels h :
  (String.length h <= 4)%nat -> hex_channels h = Raise ValueError.
Proof.
  intros Hlen.
  assert (E : Py.int 16 (Py.slice 4 6 h) = Raise ValueError).
  { do 5 (destruct h as [|? h]; [reflexivity|]). simpl in Hlen. lia. }
  destruct (hex_channels h) as [[[r g] b]|e] eqn:Eh.
  - exfalso. unfold hex_channels in Eh. rewrite E in Eh.
    destruct (Py.int 16 (Py.slice 0 2 h)); [|discriminate].
    destruct (Py.int 16 (Py.slice 2 4 h)); discriminate.
  - rewrite (hex_channels_raises h e Eh). reflexivity.
Qed.

(** X7.  A colour with fewer than five characters after the leading
    [#] is refused with [ValueError] by every colour function, whatever
    the other arguments are. *)
Theorem short_colors_are_refused s :
  (String.length (Py.lstrip_char "#" s) <= 4)%nat -> refused s.
Proof.
  intros Hlen. pose proof (short_channels _ Hlen) as E.
  assert (B : forall other ratio, blend_colors other s ratio = Raise ValueError).
  { intros other ratio. unfold blend_colors. rewrite E.
    destruct (hex_channels (Py.lstrip_char "#" other)) as [[[r g] b]|e] eqn:Eo; [reflexivity|].
    rewrite (hex_channels_raises _ e Eo). reflexivity. }
  unfold refused, adjust_brightness, adjust_saturation, blend_colors, is_dark, _get_luminance,
    unit_channels.
  repeat split; try (intros; rewrite E; reflexivity).
  - exact B.
  - intros pow t Hb. rewrite Hb, E. reflexivity.
Qed.

Lemma short_colors_are_refused_witness : refused "#fff" /\ refused "" /\ refused "##".
Proof.
  split; [|split]; apply short_colors_are_refused; vm_compute; lia.
Defined.

End InputCover.

(** ** Factors beyond the range of the clamp *)

Module ClampCover.

Import FloatSem FloatTheory PyFloatFacts Intervals FloatEnum Enum HexFacts FloatFacts HsvFacts.
Import Spec SpecColor ColorDerivator.
Local Open Scope float_scope.

Lemma clamp01_low x : finite x -> (value x <= 0)%R -> PyFloat.clamp01 x = 0.
Proof.
  intros F V. unfold PyFloat.clamp01, PyFloat.min2, PyFloat.max2.
  assert (H1 : (x <? 1) = true) by (apply (ltb_value x 1 F finite_1); rewrite value_1; lra).
  rewrite H1.
  destruct (0 <? x) eqn:H0; [|reflexivity].
  apply (ltb_value 0 x finite_0 F) in H0. rewrite value_0 in H0. lra.
Qed.

Lemma clamp01_high x : finite x -> (1 <= value x)%R -> PyFloat.clamp01 x = 1.
Proof.
  intros F V. unfold PyFloat.clamp01, PyFloat.min2, PyFloat.max2.
  destruct (x <? 1) eqn:H1; [|reflexivity].
  apply (ltb_value x 1 F finite_1) in H1. rewrite value_1 in H1. lra.
Qed.

Lemma value_m1 : value (-1) = (-1)%R.
Proof. exact (proj2 (of_int_value (-1) ltac:(lia))). Qed.

Lemma value_big : value 0x1p1022 = (IZR 4503599627370496 * bpow 970)%R.
Proof.
  unfold value.
  assert (E : Prim2SF 0x1p1022 = S754_finite false 4503599627370496 970)
    by (vm_compute; reflexivity).
  rewrite E. reflexivity.
Qed.

Lemma value_mbig : value (-0x1p1022) = (- (IZR 4503599627370496 * bpow 970))%R.
Proof.
  unfold value.
  assert (E : Prim2SF (-0x1p1022) = S754_finite true 4503599627370496 970)
    by (vm_compute; reflexivity).
  rewrite E. unfold SF_value. lra.
Qed.

(** A factor of at most -1 takes a component between 0 and 1 to 0. *)
Lemma clamp_sum_low v factor :
  unit_float v -> (-0x1p1022 <=? factor) = true -> (factor <=? -1) = true ->
  PyFloat.clamp01 (v + factor) = 0.
Proof.
  intros [Fv Vv] Hlo Hhi. simpl in Vv.
  assert (Fm1 : finite (-1)) by reflexivity.
  assert (Fb : finite (-0x1p1022)) by reflexivity.
  assert (Ff : finite factor) by (apply (leb_finite (-0x1p1022) factor (-1)); assumption).
  apply (leb_value factor (-1) Ff Fm1) in Hhi. rewrite value_m1 in Hhi.
  destruct (add_bounds v factor (value factor) 0 Fv Ff) as [F V].
  - apply representable_float.
  - apply (representable_int 0). simpl. lia.
  - lra.
  - apply clamp01_low; [exact F | lra].
Qed.

(** A factor of at least 1 takes a component between 0 and 1 to 1. *)
Lemma clamp_sum_high v factor :
  unit_float v -> (1 <=? factor) = true -> (factor <=? 0x1p1022) = true ->
  PyFloat.clamp01 (v + factor) = 1.
Proof.
  intros [Fv Vv] Hlo Hhi. simpl in Vv.
  assert (Fb : finite 0x1p1022) by reflexivity.
  assert (Ff : finite factor) by (apply (leb_finite 1 factor 0x1p1022); try assumption; exact finite_1).
  apply (leb_value 1 factor finite_1 Ff) in Hlo. rewrite value_1 in Hlo.
  apply (leb_value factor _ Ff Fb) in Hhi. rewrite value_big in Hhi.
  assert (B1 : (1 <= bpow 970)%R).
  { change 1%R with (bpow 0). apply bpow_le. lia. }
  assert (B2 : bpow 971 = (2 * bpow 970)%R) by (change 971%Z with (970 + 1)%Z; apply bpow_succ).
  destruct (add_bounds v factor 1 (IZR 4503599627370496 * bpow 971) Fv Ff) as [F V].
  - apply (representable_int 1). simpl. lia.
  - exists 4503599627370496%Z, 971%Z. split; [simpl; lia | split; [lia | reflexivity]].
  - rewrite B2. split; [lra|]. nra.
  - apply clamp01_high; [exact F | lra].
Qed.

(** X8.  A factor of 1 or more has the effect of the factor 1, for the
    brightness and for the saturation: the clamp absorbs the excess. *)
Theorem factors_above_one_saturate color factor :
  is_hex_color color = true ->
  (1 <=? factor) = true -> (factor <=? 0x1p1022) = true ->
  adjust_brightness color factor = adjust_brightness color 1 /\
  adjust_saturation color factor = adjust_saturation color 1.
Proof.
  intros Hc Hlo Hhi.
  destruct (hex_color_channels color Hc) as (kr & kg & kb & Hch & Hr & Hg & Hb & _).
  unfold adjust_brightness, adjust_saturation.
  rewrite (unit_channels_of _ _ _ _ Hch). cbn [bind].
  destruct (rgb_to_hsv_unit kr kg kb Hr Hg Hb) as (h & s & v & -> & Uh & Us & Uv). cbn [bind].
  rewrite (clamp_sum_high v factor Uv Hlo Hhi), (clamp_sum_high s factor Us Hlo Hhi).
  rewrite (clamp_sum_high v 1 Uv), (clamp_sum_high s 1 Us) by reflexivity.
  split; reflexivity.
Qed.

Lemma factors_above_one_saturate_witness :
  adjust_brightness "#336699" 1.5 = adjust_brightness "#336699" 1 /\
  adjust_saturation "#336699" 1.5 = adjust_saturation "#336699" 1.
Proof.
  apply (factors_above_one_saturate "#336699" 1.5); vm_compute; reflexivity.
Defined.

(** A finite float that stands for 0. *)
Lemma zero_mul x y : finite x -> value x = 0%R -> finite y ->
  finite (x * y) /\ value (x * y) = 0%R.
Proof.
  intros Fx Vx Fy.
  destruct (mul_bounds x y 0 0 Fx Fy) as [F V];
    try (apply (representable_int 0); simpl; lia).
  - rewrite Vx. lra.
  - split; [exact F | lra].
Qed.

Lemma zero_channel x : finite x -> value x = 0%R -> PyFloat.to_int (x * 255) = Ok 0%Z.
Proof.
  intros F V. destruct (zero_mul x 255 F V finite_255) as [F' V'].
  destruct (to_int_bounds (x * 255) 0 0 F' ltac:(lia)) as (z & -> & Hz & _).
  - rewrite V'. simpl. lra.
  - f_equal. lia.
Qed.

(** [hsv_to_rgb] with V = 0 returns three floats that stand for 0. *)
Lemma hsv_to_rgb_black h s :
  unit_float h -> unit_float s ->
  exists r g b, colorsys.hsv_to_rgb h s 0 = Ok (r, g, b) /\
    (finite r /\ value r = 0%R) /\ (finite g /\ value g = 0%R) /\ (finite b /\ value b = 0%R).
Proof.
  intros Uh Us. unfold colorsys.hsv_to_rgb.
  assert (Z0 : finite 0 /\ value 0 = 0%R) by (split; [exact finite_0 | exact value_0]).
  destruct (s =? 0).
  - exists 0, 0, 0. split; [reflexivity | split; [exact Z0 | split; exact Z0]].
  - destruct Uh as [Fh Vh].
    destruct (mul_bounds h 6 0 6 Fh finite_6) as [F6 V6];
      try (apply representable_int; simpl; lia).
    { rewrite value_6. simpl in Vh. lra. }
    destruct (to_int_bounds (h * 6) 0 6 F6 ltac:(lia) V6) as (i & Ei & Ri & Vi).
    rewrite Ei. cbn [bind].
    destruct (of_int_value i ltac:(lia)) as [Fi Vii].
    assert (Uf : unit_float (h * 6 - PyFloat.of_int i)).
    { apply sub_bounds; try assumption; try (apply representable_int; simpl; lia).
      rewrite Vii. simpl. lra. }
    set (f := h * 6 - PyFloat.of_int i) in *.
    assert (Zp : finite (0 * (1 - s)) /\ value (0 * (1 - s)) = 0%R).
    { apply zero_mul; [exact finite_0 | exact value_0 |]. apply one_minus_unit. exact Us. }
    assert (Zq : finite (0 * (1 - s * f)) /\ value (0 * (1 - s * f)) = 0%R).
    { apply zero_mul; [exact finite_0 | exact value_0 |].
      apply one_minus_unit, mul_unit; assumption. }
    assert (Zt : finite (0 * (1 - s * (1 - f))) /\ value (0 * (1 - s * (1 - f))) = 0%R).
    { apply zero_mul; [exact finite_0 | exact value_0 |].
      apply one_minus_unit, mul_unit; [assumption|]. apply one_minus_unit; assumption. }
    repeat match goal with
    | |- context [if ?c then _ else _] => destruct c
    end; eexists _, _, _; (split; [reflexivity | split; [eassumption | split; eassumption]]).
Qed.

(** X9.  A brightness factor of -1 or less gives black, whatever the
    colour. *)
Theorem factors_below_minus_one_give_black color factor :
  is_hex_color color = true ->
  (-0x1p1022 <=? factor) = true -> (factor <=? -1) = true ->
  adjust_brightness color factor = Ok "#000000"%string.
Proof.
  intros Hc Hlo Hhi.
  destruct (hex_color_channels color Hc) as (kr & kg & kb & Hch & Hr & Hg & Hb & _).
  unfold adjust_brightness.
  rewrite (unit_channels_of _ _ _ _ Hch). cbn [bind].
  destruct (rgb_to_hsv_unit kr kg kb Hr Hg Hb) as (h & s & v & -> & Uh & Us & Uv). cbn [bind].
  rewrite (clamp_sum_low v factor Uv Hlo Hhi).
  destruct (hsv_to_rgb_black h s Uh Us) as (r & g & b & -> & [Fr Vr] & [Fg Vg] & [Fb Vb]).
  cbn [bind]. unfold rgb_string.
  rewrite (zero_channel r Fr Vr), (zero_channel g Fg Vg), (zero_channel b Fb Vb).
  reflexivity.
Qed.

Lemma factors_below_minus_one_give_black_witness :
  adjust_brightness "#336699" (-1) = Ok "#000000"%string /\
  adjust_brightness "#FFFFFF" (-2.5) = Ok "#000000"%string.
Proof.
  split; apply factors_below_minus_one_give_black; vm_compute; reflexivity.
Defined.

(** The largest of three channel floats is the float of the largest
    channel. *)
Lemma max3_unit_of kr kg kb :
  (0 <= kr <= 255)%Z -> (0 <= kg <= 255)%Z -> (0 <= kb <= 255)%Z ->
  PyFloat.max3 (unit_of kr) (unit_of kg) (unit_of kb) = unit_of (Z.max kr (Z.max kg kb)).
Proof.
  intros Hr Hg Hb.
  destruct (unit_of_value kr Hr) as [Ur _].
  destruct (unit_of_value kg Hg) as [Ug _].
  destruct (unit_of_value kb Hb) as [Ub _].
  pose proof (max3_spec _ _ _ (proj1 Ur) (proj1 Ug) (proj1 Ub)) as (HM & M1 & M2 & M3).
  assert (EM : exists kM, (0 <= kM <= 255)%Z /\ (kM = kr \/ kM = kg \/ kM = kb) /\
             PyFloat.max3 (unit_of kr) (unit_of kg) (unit_of kb) = unit_of kM).
  { destruct HM as [E | [E | E]]; eexists; (split; [|split; [|exact E]]); auto. }
  destruct EM as (kM & HkM & Hin & EM). rewrite EM in *.
  assert (kr <= kM)%Z by (apply unit_of_le; assumption).
  assert (kg <= kM)%Z by (apply unit_of_le; assumption).
  assert (kb <= kM)%Z by (apply unit_of_le; assumption).
  f_equal. lia.
Qed.

(** X10.  A saturation factor of -1 or less gives the grey of the
    largest channel of the colour. *)
Theorem full_desaturation_gives_grey color r g b factor :
  is_hex_color color = true ->
  channels_of color = Ok (r, g, b) ->
  (-0x1p1022 <=? factor) = true -> (factor <=? -1) = true ->
  adjust_saturation color factor =
    Ok (format_color (Z.max r (Z.max g b)) (Z.max r (Z.max g b)) (Z.max r (Z.max g b))).
Proof.
  intros Hc Hrgb Hlo Hhi.
  destruct (hex_color_channels color Hc) as (kr & kg & kb & Hch & Hr & Hg & Hb & _).
  unfold channels_of in Hrgb. rewrite Hch in Hrgb. inversion Hrgb; subst kr kg kb.
  unfold adjust_saturation.
  rewrite (unit_channels_of _ _ _ _ Hch). cbn [bind].
  destruct (rgb_to_hsv_unit r g b Hr Hg Hb) as (h & s & v & E & Uh & Us & Uv).
  rewrite E. cbn [bind].
  apply rgb_to_hsv_v in E. rewrite (max3_unit_of r g b Hr Hg Hb) in E. subst v.
  rewrite (clamp_sum_low s factor Us Hlo Hhi).
  unfold colorsys.hsv_to_rgb. change (0 =? 0) with true. cbv iota. cbn [bind].
  set (m := Z.max r (Z.max g b)).
  assert (Hm : (0 <= m <= 255)%Z) by (unfold m; lia).
  pose proof (forallb_In _ _ grey_round_trip_checked m (channel_values_spec m Hm)) as A.
  unfold grey_round_trip_cell in A. cbv zeta in A.
  apply andb_prop in A as [_ A]. apply result_Z_eqb_eq in A.
  unfold rgb_string. rewrite A. reflexivity.
Qed.

Lemma full_desaturation_gives_grey_witness :
  adjust_saturation "#336699" (-1) = Ok "#999999"%string.
Proof.
  apply (full_desaturation_gives_grey "#336699" 51 102 153 (-1)); vm_compute; reflexivity.
Defined.

(** X14.  The brightness of a grey can be changed by any factor: the
    result is a grey again. *)
Theorem brightness_keeps_greys color n factor :
  is_hex_color color = true ->
  channels_of color = Ok (n, n, n) ->
  exists z, (0 <= z <= 255)%Z /\ adjust_brightness color factor = Ok (format_color z z z).
Proof.
  intros Hc Hn.
  destruct (hex_color_channels color Hc) as (r & g & b & Hch & Hr & _ & _ & _).
  unfold channels_of in Hn. rewrite Hch in Hn. inversion Hn; subst r g b.
  pose proof (forallb_In _ _ grey_round_trip_checked n (channel_values_spec n Hr)) as A.
  unfold grey_round_trip_cell in A. cbv zeta in A.
  apply andb_prop in A as [A _]. apply andb_prop in A as [A1 _].
  unfold adjust_brightness. rewrite (unit_channels_of _ _ _ _ Hch). cbn [bind].
  unfold colorsys.rgb_to_hsv.
  assert (EM : PyFloat.max3 (unit_of n) (unit_of n) (unit_of n) = unit_of n)
    by (destruct (max3_cases (unit_of n) (unit_of n) (unit_of n)) as [H | [H | H]]; exact H).
  assert (Em : PyFloat.min3 (unit_of n) (unit_of n) (unit_of n) = unit_of n)
    by (destruct (min3_cases (unit_of n) (unit_of n) (unit_of n)) as [H | [H | H]]; exact H).
  rewrite EM, Em, A1. cbn [bind].
  unfold colorsys.hsv_to_rgb. change (0 =? 0) with true. cbv iota. cbn [bind].
  destruct (channel_of_unit _ (clamp01_unit_float (unit_of n + factor))) as (z & Ez & Hz).
  exists z. split; [exact Hz|]. unfold rgb_string. rewrite Ez. reflexivity.
Qed.

Lemma brightness_keeps_greys_witness :
  exists z, (0 <= z <= 255)%Z /\ adjust_brightness "#808080" 0.15 = Ok (format_color z z z).
Proof.
  apply (brightness_keeps_greys "#808080" 128 0.15); vm_compute; reflexivity.
Defined.

End ClampCover.

(** ** The colours of the UI table, and the settings that no document reads *)

Module DocsCover.

Import Spec SpecColor SpecGen SpecDocs HexFacts HsvFacts BlendFacts GeneratorFacts.
Import ColorDerivator GhosttyParser PhpStormThemeGenerator.

Lemma colors_str c : is_hex_color c = true -> returns_colors (Ok (JStr c)).
Proof. intros H. exists (JStr c). split; [reflexivity|]. repeat constructor. exact H. Qed.

Lemma colors_int n : returns_colors (Ok (JInt n)).
Proof. exists (JInt n). split; [reflexivity | constructor]. Qed.

Lemma colors_jstr r : returns_lower_hex_color r -> returns_colors (jstr r).
Proof.
  intros (out & -> & L). exists (JStr out). split; [reflexivity|].
  repeat constructor. apply lower_is_hex_color. exact L.
Qed.

Lemma colors_members l :
  Forall (fun kv => returns_colors (snd kv)) l ->
  exists vs, members l = Ok vs /\
    Forall (fun s => is_hex_color s = true) (flat_map (fun kv => strings_of (snd kv)) vs).
Proof.
  induction 1 as [|[k r] l (v & Hv & Hc) _ (vs & Hvs & Hcs)].
  - exists []. split; [reflexivity | constructor].
  - simpl in Hv. subst r. exists ((k, v) :: vs). split.
    + simpl. rewrite Hvs. reflexivity.
    + simpl. apply Forall_app. split; assumption.
Qed.

Lemma colors_jobj l :
  Forall (fun kv => returns_colors (snd kv)) l -> returns_colors (jobj l).
Proof.
  intros H. destruct (colors_members l H) as (vs & Hvs & Hc).
  exists (JObj vs). split; [|exact Hc].
  unfold jobj, map_result. rewrite Hvs. reflexivity.
Qed.

Lemma colors_bind r (k : string -> result json) :
  returns_lower_hex_color r ->
  (forall x, is_hex_color x = true -> returns_colors (k x)) ->
  returns_colors (bind r k).
Proof.
  intros (out & -> & L) Hk. simpl. apply Hk. apply lower_is_hex_color. exact L.
Qed.

Ltac a_color :=
  first
    [ assumption | reflexivity | apply palette_get_color; [assumption | reflexivity]
    | match goal with
      | |- is_hex_color (if ?d then _ else _) = true => destruct d; reflexivity
      end ].

Ltac colored_entry :=
  cbn [snd];
  first
    [ apply colors_str; a_color
    | apply colors_int
    | apply colors_jstr, adjust_brightness_color; a_color
    | apply colors_jstr, blend_returns; a_color
    | apply colors_jobj; repeat (apply List.Forall_cons; [colored_entry|]); apply List.Forall_nil ].

(** X11.  For a theme whose colours are all written as [#] and six
    hexadecimal digits, the UI colour table is produced and every
    string in it is such a colour. *)
Theorem ui_table_holds_colors pow self :
  well_formed (ghostty self) -> returns_colors (_derive_ui_colors pow self).
Proof.
  intros (Hbg & Hfg & Hcc & Hsb & Hsf & Hp).
  unfold _derive_ui_colors. cbv zeta.
  destruct (is_dark_succeeds pow (ghostty self) Hbg) as [dark ->]. cbn [bind].
  repeat (apply colors_bind; [apply adjust_brightness_color; a_color | intros ? ?]).
  apply colors_jobj. repeat (apply List.Forall_cons; [colored_entry|]). apply List.Forall_nil.
Qed.

Lemma ui_table_holds_colors_witness :
  returns_colors (_derive_ui_colors (fun x _ => x)
                    {| ghostty := set_palette (new_theme "demo") 4 "#268BD2"; theme_id := "id" |}).
Proof.
  apply ui_table_holds_colors.
  repeat (split; [reflexivity|]).
  intros k c H. cbn [ghostty palette set_palette new_theme] in H.
  apply lookup_insert_Some in H as [[_ <-] | [_ H]]; [reflexivity|].
  rewrite lookup_empty in H. discriminate.
Defined.

Lemma palette_get_unread (p : gmap Z string) k c i d :
  k <> i -> palette_get (<[k := c]> p) i d = palette_get p i d.
Proof. intros H. unfold palette_get. rewrite lookup_insert_ne by exact H. reflexivity. Qed.

Ltac expose_theme :=
  unfold documents, generate_theme_json, _derive_ui_colors, generate_editor_scheme,
    generate_plugin_xml, _add_syntax_colors, syntax_mappings, scheme_colors, with_slot,
    on_theme, is_dark;
  cbv beta iota zeta delta [ghostty theme_id set_palette set_cursor_text set_cursor_color
    palette background foreground selection_background selection_foreground cursor_color
    cursor_text name].

(** X12.  Three settings of a theme file are read by no document, or
    not by all: the cursor text colour changes none of the three
    documents, a palette slot other than 1 to 6 and 8 changes none of
    them, and the cursor colour changes neither the theme JSON nor the
    plugin descriptor. *)
Theorem settings_that_are_not_read pow self :
  (forall v, documents pow (on_theme self (set_cursor_text (ghostty self) v)) =
             documents pow self) /\
  (forall k c, ~ In k slots_read -> documents pow (with_slot self k c) = documents pow self) /\
  (forall v,
     generate_theme_json pow (on_theme self (set_cursor_color (ghostty self) v)) =
     generate_theme_json pow self /\
     generate_plugin_xml pow (on_theme self (set_cursor_color (ghostty self) v)) =
     generate_plugin_xml pow self).
Proof.
  destruct self as [[n p bg fg cc ct sb sf] id]. split; [|split].
  - intros v. expose_theme. reflexivity.
  - intros k c Hk. unfold slots_read in Hk.
    assert (k <> 1 /\ k <> 2 /\ k <> 3 /\ k <> 4 /\ k <> 5 /\ k <> 6 /\ k <> 8)
      as (K1 & K2 & K3 & K4 & K5 & K6 & K8)
      by (repeat split; intros ->; apply Hk; simpl; tauto).
    expose_theme.
    repeat rewrite (palette_get_unread p k c) by assumption.
    reflexivity.
  - intros v. split; expose_theme; reflexivity.
Qed.

End DocsCover.

(** ** The text of the colour scheme file *)

Module IclsCover.

Import IclsFile SpecIcls.

Lemma split_newline_cons s : exists l ls, split_newline s = l :: ls.
Proof.
  induction s as [|c s (l & ls & IH)]; simpl.
  - eauto.
  - destruct (Ascii.eqb c "010"); [eauto|]. rewrite IH. eauto.
Qed.

(** Joining the lines of a text gives the text back. *)
Lemma join_split s : String.concat (String "010" "") (split_newline s) = s.
Proof.
  induction s as [|c s IH]; [reflexivity|]. simpl.
  destruct (split_newline_cons s) as (l & ls & E). rewrite E in *.
  destruct (Ascii.eqb_spec c "010") as [->|_].
  - simpl. simpl in IH. rewrite IH. reflexivity.
  - simpl in *. destruct ls; simpl in *; rewrite <- IH; reflexivity.
Qed.

Lemma append_assoc (a b c : string) : ((a ++ b) ++ c = a ++ (b ++ c))%string.
Proof.
  induction a as [|x a IH]; [reflexivity|].
  change (String x ((a ++ b) ++ c) = String x (a ++ (b ++ c)))%string.
  rewrite IH. reflexivity.
Qed.

Lemma join_app before line after :
  String.concat (String "010" "") (before ++ line :: after)%list =
  (terminated before ++ String.concat (String "010" "") (line :: after))%string.
Proof.
  induction before as [|l ls IH]; [reflexivity|].
  change ((l :: ls) ++ line :: after)%list with (l :: (ls ++ line :: after))%list.
  cbn [terminated]. rewrite append_assoc.
  change (String.concat (String "010" "") (l :: (ls ++ line :: after)%list) =
          l ++ String "010" (terminated ls ++ String.concat (String "010" "") (line :: after)))%string.
  rewrite <- IH. destruct ls; reflexivity.
Qed.

Lemma scheme_start_spec lines i :
  scheme_start lines = Some i ->
  exists line after,
    lines = (firstn i lines ++ line :: after)%list /\ skipn i lines = line :: after /\
    forallb (fun l => negb (contains "<scheme" l)) (firstn i lines) = true /\
    contains "<scheme" line = true.
Proof.
  revert i. induction lines as [|l ls IH]; intros i H; [discriminate|].
  simpl in H. destruct (contains "<scheme" l) eqn:E.
  - inversion H. subst i. exists l, ls.
    split; [reflexivity|]. split; [reflexivity|]. split; [reflexivity | exact E].
  - destruct (scheme_start ls) as [j|]; [|discriminate]. inversion H. subst i.
    destruct (IH j eq_refl) as (line & after & H1 & H2 & H3 & H4).
    exists line, after. simpl. rewrite E, H3. rewrite <- H1.
    split; [reflexivity|]. split; [exact H2|]. split; [reflexivity | exact H4].
Qed.

Lemma scheme_start_none lines :
  scheme_start lines = None <->
  forallb (fun l => negb (contains "<scheme" l)) lines = true.
Proof.
  induction lines as [|l ls IH]; simpl; [tauto|].
  destruct (contains "<scheme" l); simpl.
  - split; discriminate.
  - destruct (scheme_start ls); simpl in *; split; intros H; try discriminate; try tauto.
    apply IH in H. discriminate.
Qed.

(** X13.  The text written to the colour scheme file is the end of the
    scheme text: it starts with the first line that contains [<scheme],
    only whole lines without [<scheme] are left out, and nothing is
    written exactly when no line contains [<scheme]. *)
Theorem clean_content_is_the_end content :
  match clean_content content with
  | Some clean =>
      exists before line after,
        split_newline content = (before ++ line :: after)%list /\
        forallb (fun l => negb (contains "<scheme" l)) before = true /\
        contains "<scheme" line = true /\
        clean = String.concat (String "010" "") (line :: after) /\
        content = (terminated before ++ clean)%string
  | None => forallb (fun l => negb (contains "<scheme" l)) (split_newline content) = true
  end.
Proof.
  unfold clean_content.
  destruct (scheme_start (split_newline content)) as [i|] eqn:E.
  - destruct (scheme_start_spec _ i E) as (line & after & H1 & H2 & H3 & H4).
    exists (firstn i (split_newline content)), line, after.
    split; [exact H1|]. split; [exact H3|]. split; [exact H4|].
    rewrite H2. split; [reflexivity|].
    rewrite <- join_app, <- H1. symmetry. apply join_split.
  - apply scheme_start_none. exact E.
Qed.

End IclsCover.

(** ** White space on a line *)

Module PaddingCover.

Import GhosttyParser SpecParser ParserFacts ParserCover Spec.

Lemma append_nil_r (s : string) : (s ++ "")%string = s.
Proof.
  induction s as [|c s IH]; [reflexivity|].
  change (String c (s ++ "") = String c s)%string. rewrite IH. reflexivity.
Qed.

Lemma lstrip_spaces w x :
  all_chars Py.is_space w = true -> Py.lstrip_space (w ++ x) = Py.lstrip_space x.
Proof.
  induction w as [|c w IH]; [reflexivity|].
  intros H. simpl in H. apply andb_prop in H as [Hc Hw].
  change (String c w ++ x)%string with (String c (w ++ x)%string).
  cbn [Py.lstrip_space]. rewrite Hc. apply IH. exact Hw.
Qed.

Lemma rstrip_spaces_only w : all_chars Py.is_space w = true -> Py.rstrip_space w = "".
Proof.
  induction w as [|c w IH]; [reflexivity|].
  intros H. simpl in H. apply andb_prop in H as [Hc Hw].
  cbn [Py.rstrip_space]. rewrite (IH Hw), Hc. reflexivity.
Qed.

Lemma rstrip_spaces x w :
  all_chars Py.is_space w = true -> Py.rstrip_space (x ++ w) = Py.rstrip_space x.
Proof.
  intros Hw. induction x as [|c x IH].
  - apply rstrip_spaces_only. exact Hw.
  - change (String c x ++ w)%string with (String c (x ++ w)%string).
    cbn [Py.rstrip_space]. rewrite IH. reflexivity.
Qed.

Lemma rstrip_cons c s :
  Py.is_space c = false -> Py.rstrip_space (String c s) = String c (Py.rstrip_space s).
Proof.
  intros Hc. cbn [Py.rstrip_space]. rewrite Hc. destruct (Py.rstrip_space s); reflexivity.
Qed.

Lemma rstrip_idem s : Py.rstrip_space (Py.rstrip_space s) = Py.rstrip_space s.
Proof.
  induction s as [|c s IH]; [reflexivity|].
  cbn [Py.rstrip_space]. destruct (Py.rstrip_space s) as [|d r] eqn:E.
  - destruct (Py.is_space c) eqn:Hc; [reflexivity|].
    cbn [Py.rstrip_space]. rewrite Hc. reflexivity.
  - cbn [Py.rstrip_space] in *. rewrite IH. reflexivity.
Qed.

(** Stripping at the left and at the right commute. *)
Lemma lstrip_rstrip s :
  Py.lstrip_space (Py.rstrip_space s) = Py.rstrip_space (Py.lstrip_space s).
Proof.
  induction s as [|c s IH]; [reflexivity|].
  destruct (Py.is_space c) eqn:Hc.
  - cbn [Py.lstrip_space]. rewrite Hc, <- IH.
    cbn [Py.rstrip_space]. rewrite Hc.
    destruct (Py.rstrip_space s) as [|d r]; [reflexivity|].
    cbn [Py.lstrip_space]. rewrite Hc. reflexivity.
  - cbn [Py.lstrip_space]. rewrite Hc. rewrite (rstrip_cons c s Hc).
    cbn [Py.lstrip_space]. rewrite Hc. reflexivity.
Qed.

Lemma strip_rstrip s : Py.strip (Py.rstrip_space s) = Py.strip s.
Proof. unfold Py.strip. rewrite lstrip_rstrip, rstrip_idem. reflexivity. Qed.

(** A stripped string is not changed by stripping one side. *)
Lemma stripped_sides x :
  Py.strip x = x -> Py.lstrip_space x = x /\ Py.rstrip_space x = x.
Proof.
  unfold Py.strip. intros H. split.
  - rewrite <- H at 1. rewrite lstrip_rstrip.
    assert (E : Py.lstrip_space (Py.lstrip_space x) = Py.lstrip_space x).
    { clear H. induction x as [|c x IH]; [reflexivity|].
      cbn [Py.lstrip_space]. destruct (Py.is_space c) eqn:Hc; [exact IH|].
      cbn [Py.lstrip_space]. rewrite Hc. reflexivity. }
    rewrite E. exact H.
  - rewrite <- H at 1. rewrite rstrip_idem. exact H.
Qed.

Lemma lstrip_fixed_app x y :
  Py.lstrip_space x = x -> x <> "" -> Py.lstrip_space (x ++ y) = (x ++ y)%string.
Proof.
  destruct x as [|c x]; [congruence|]. intros H _.
  change (String c x ++ y)%string with (String c (x ++ y)%string).
  cbn [Py.lstrip_space] in *. destruct (Py.is_space c) eqn:Hc; [|reflexivity].
  exfalso.
  assert (L : forall s, (String.length (Py.lstrip_space s) <= String.length s)%nat).
  { induction s as [|d s IH]; simpl; [lia|]. destruct (Py.is_space d); simpl; lia. }
  pose proof (L x) as Hl. rewrite H in Hl. simpl in Hl. lia.
Qed.

Lemma rstrip_app_cons a c s :
  Py.is_space c = false ->
  Py.rstrip_space (a ++ String c s) = (a ++ String c (Py.rstrip_space s))%string.
Proof.
  intros Hc. induction a as [|d a IH].
  - apply rstrip_cons. exact Hc.
  - change (String d a ++ String c s)%string with (String d (a ++ String c s)%string).
    cbn [Py.rstrip_space]. rewrite IH.
    destruct a; reflexivity.
Qed.

Lemma contains_app ch a b :
  Py.contains_char ch (a ++ b) = Py.contains_char ch a || Py.contains_char ch b.
Proof.
  induction a as [|c a IH]; [reflexivity|].
  change (String c a ++ b)%string with (String c (a ++ b)%string).
  cbn [Py.contains_char]. rewrite IH. apply orb_assoc.
Qed.

Lemma spaces_have_no_equals w :
  all_chars Py.is_space w = true -> Py.contains_char "=" w = false.
Proof.
  induction w as [|c w IH]; [reflexivity|].
  intros H. simpl in H. apply andb_prop in H as [Hc Hw].
  cbn [Py.contains_char]. rewrite (IH Hw).
  destruct (Ascii.eqb_spec c "=") as [->|]; [discriminate | reflexivity].
Qed.

Lemma split1_app ch a b :
  Py.contains_char ch a = false -> Py.split1 ch (a ++ String ch b) = Some (a, b).
Proof.
  induction a as [|c a IH]; intros H.
  - simpl. rewrite Ascii.eqb_refl. reflexivity.
  - change (String c a ++ String ch b)%string with (String c (a ++ String ch b)%string).
    cbn [Py.contains_char] in H. apply orb_false_elim in H as [Hc Ha].
    cbn [Py.split1]. rewrite Hc, (IH Ha). reflexivity.
Qed.

(** The key and the value of a padded line. *)
Lemma padded_line w1 k w2 w3 v w4 :
  all_chars Py.is_space w1 = true -> all_chars Py.is_space w2 = true ->
  all_chars Py.is_space w3 = true -> all_chars Py.is_space w4 = true ->
  Py.strip k = k -> k <> "" ->
  Py.contains_char "=" k = false -> Py.startswith_char "#" k = false ->
  Py.strip v = v ->
  line_key (w1 ++ k ++ w2 ++ "=" ++ w3 ++ v ++ w4) = Some k /\
  line_value (w1 ++ k ++ w2 ++ "=" ++ w3 ++ v ++ w4) = v.
Proof.
  intros H1 H2 H3 H4 Hk Hk0 Hke Hkh Hv.
  destruct (stripped_sides k Hk) as [Lk Rk]. destruct (stripped_sides v Hv) as [Lv Rv].
  assert (E : Py.strip (w1 ++ k ++ w2 ++ "=" ++ w3 ++ v ++ w4) =
              ((k ++ w2) ++ String "=" (Py.rstrip_space (w3 ++ v ++ w4)))%string).
  { unfold Py.strip. rewrite (lstrip_spaces w1 _ H1).
    rewrite (lstrip_fixed_app k _ Lk Hk0).
    rewrite <- IclsCover.append_assoc.
    change ("=" ++ w3 ++ v ++ w4)%string with (String "=" (w3 ++ v ++ w4)%string).
    apply rstrip_app_cons. reflexivity. }
  assert (Ekey : Py.strip (k ++ w2) = k).
  { unfold Py.strip. rewrite (lstrip_fixed_app k _ Lk Hk0), (rstrip_spaces k w2 H2). exact Rk. }
  assert (Eval : Py.strip (Py.rstrip_space (w3 ++ v ++ w4)) = v).
  { rewrite strip_rstrip. unfold Py.strip. rewrite (lstrip_spaces w3 _ H3).
    rewrite <- lstrip_rstrip, (rstrip_spaces v w4 H4), Rv. exact Lv. }
  assert (Esplit : Py.split1 "=" ((k ++ w2) ++ String "=" (Py.rstrip_space (w3 ++ v ++ w4))) =
                   Some ((k ++ w2)%string, Py.rstrip_space (w3 ++ v ++ w4))).
  { apply split1_app. rewrite contains_app, Hke, (spaces_have_no_equals w2 H2). reflexivity. }
  assert (Ehead : String.eqb ((k ++ w2) ++ String "=" (Py.rstrip_space (w3 ++ v ++ w4))) "" ||
                  Py.startswith_char "#"
                    ((k ++ w2) ++ String "=" (Py.rstrip_space (w3 ++ v ++ w4))) = false).
  { destruct k as [|c k]; [congruence|]. simpl in Hkh. simpl. exact Hkh. }
  unfold line_key, line_value. rewrite E, Ehead, Esplit, Ekey, Eval. split; reflexivity.
Qed.

(** X15.  White space around a line, around its key and around its
    value does not count: a padded line is parsed as the line without
    the padding. *)
Theorem padding_is_ignored theme w1 k w2 w3 v w4 :
  all_chars Py.is_space w1 = true -> all_chars Py.is_space w2 = true ->
  all_chars Py.is_space w3 = true -> all_chars Py.is_space w4 = true ->
  Py.strip k = k -> k <> "" ->
  Py.contains_char "=" k = false -> Py.startswith_char "#" k = false ->
  Py.strip v = v ->
  parse_line theme (w1 ++ k ++ w2 ++ "=" ++ w3 ++ v ++ w4) = parse_line theme (k ++ "=" ++ v).
Proof.
  intros H1 H2 H3 H4 Hk Hk0 Hke Hkh Hv.
  destruct (padded_line w1 k w2 w3 v w4 H1 H2 H3 H4 Hk Hk0 Hke Hkh Hv) as [K V].
  destruct (padded_line "" k "" "" v "" eq_refl eq_refl eq_refl eq_refl Hk Hk0 Hke Hkh Hv)
    as [K' V'].
  change ("" ++ k ++ "" ++ "=" ++ "" ++ v ++ "")%string with (k ++ "=" ++ v ++ "")%string in K', V'.
  rewrite append_nil_r in K', V'.
  rewrite !parse_line_spec. unfold line_slot. rewrite K, V, K', V'. reflexivity.
Qed.

Lemma padding_is_ignored_witness :
  parse_line (new_theme "demo") "  selection-background   =  #3a3a3a  " =
  parse_line (new_theme "demo") "selection-background=#3a3a3a".
Proof.
  apply (padding_is_ignored (new_theme "demo") "  " "selection-background" "   " "  "
           "#3a3a3a" "  "); try reflexivity.
  discriminate.
Defined.

End PaddingCover.

(** ** What the three documents say of each other *)

Module AgreeCover.

Import Spec SpecGen SpecDocs GeneratorFacts SchemeFacts.
Import ColorDerivator GhosttyParser PhpStormThemeGenerator.

Lemma occurs_skip a piece r : occurs piece r -> occurs piece (a ++ r).
Proof.
  intros (before & after & ->). exists (a ++ before)%string, after.
  symmetry. apply IclsCover.append_assoc.
Qed.

Lemma occurs_inside a1 a2 piece r : occurs piece (a2 ++ r) -> occurs piece ((a1 ++ a2) ++ r).
Proof. intros H. rewrite IclsCover.append_assoc. apply occurs_skip. exact H. Qed.

Lemma occurs_start piece r : starts_with piece r -> occurs piece r.
Proof. intros (after & ->). exists ""%string, after. reflexivity. Qed.

Lemma starts_cons a p r : starts_with p r -> starts_with (a ++ p) (a ++ r).
Proof. intros (after & ->). exists after. symmetry. apply IclsCover.append_assoc. Qed.

Lemma starts_last p r : starts_with p (p ++ r).
Proof. exists r. reflexivity. Qed.

Ltac skip_to lit :=
  lazymatch goal with
  | |- occurs _ (String.append lit _) => idtac
  | |- occurs _ (String.append _ _) => apply occurs_skip; skip_to lit
  end.

Lemma members_head k v l vs :
  members ((k, Ok v) :: l) = Ok vs -> exists vs', vs = (k, v) :: vs' /\ members l = Ok vs'.
Proof.
  cbn [members bind]. intros H. apply bind_Ok in H as (vs' & H1 & H2).
  inversion H2. exists vs'. split; [reflexivity | exact H1].
Qed.

(** X16.  The three documents of a theme agree.  The parent scheme of
    the editor scheme is Darcula exactly when the theme JSON says dark,
    and the plugin descriptor then says Dark; the editor scheme carries
    the name of the theme; and the plugin descriptor registers the
    colour scheme under the path that the theme JSON gives as its
    editor scheme, and the theme under its identifier. *)
Theorem documents_agree pow self j scheme xml :
  generate_theme_json pow self = Ok j ->
  generate_editor_scheme pow self = Ok scheme ->
  generate_plugin_xml pow self = Ok xml ->
  exists dark,
    is_dark pow (ghostty self) = Ok dark /\
    json_member "dark" j = Some (JBool dark) /\
    assoc "parent_scheme" (attrib_of scheme) = Some (if dark then "Darcula" else "Default") /\
    occurs ("<li>" ++ (if dark then "Dark" else "Light") ++
            " theme with harmonious color palette</li>") xml /\
    assoc "name" (attrib_of scheme) = Some (name (ghostty self)) /\
    json_member "editorScheme" j = Some (JStr ("/" ++ name (ghostty self) ++ ".xml")) /\
    occurs ("<bundledColorScheme path=" ++ dq ++ "/" ++ name (ghostty self) ++ ".xml" ++
            dq ++ "/>") xml /\
    occurs ("<themeProvider id=" ++ dq ++ theme_id self ++ dq ++ " path=" ++ dq ++ "/" ++
            name (ghostty self) ++ ".theme.json" ++ dq ++ "/>") xml.
Proof.
  intros Hj Hs Hx.
  apply generate_editor_scheme_tree in Hs as (dark & line & Hd & _ & ->).
  exists dark. split; [exact Hd|].
  unfold generate_theme_json in Hj. cbv zeta in Hj.
  apply bind_Ok in Hj as (ui & _ & Hj). rewrite Hd in Hj. cbn [bind] in Hj.
  unfold jobj at 1, map_result in Hj. apply bind_Ok in Hj as (vs & Hvs & Hj).
  inversion Hj as [Ej]. clear Hj Ej.
  apply members_head in Hvs as (vs1 & -> & Hvs).
  apply members_head in Hvs as (vs2 & -> & Hvs).
  apply members_head in Hvs as (vs3 & -> & Hvs).
  apply members_head in Hvs as (vs4 & -> & _).
  unfold generate_plugin_xml in Hx. cbv zeta in Hx. rewrite Hd in Hx. cbn [bind] in Hx.
  inversion Hx as [Ex]. clear Hx Ex.
  split; [reflexivity|]. split; [reflexivity|]. split; [|split; [reflexivity|]].
  2: split; [reflexivity|]. 2: split.
  - skip_to "      <li>"%string.
    change "      <li>"%string with ("      " ++ "<li>")%string.
    apply occurs_inside, occurs_start.
    apply starts_cons, starts_cons, starts_last.
  - skip_to "    <bundledColorScheme path="%string.
    change "    <bundledColorScheme path="%string
      with ("    " ++ "<bundledColorScheme path=")%string.
    apply occurs_inside, occurs_start.
    repeat apply starts_cons. apply starts_last.
  - skip_to "    <themeProvider id="%string.
    change "    <themeProvider id="%string with ("    " ++ "<themeProvider id=")%string.
    apply occurs_inside, occurs_start.
    repeat apply starts_cons. apply starts_last.
Qed.

Lemma documents_agree_witness :
  exists j scheme xml,
    generate_theme_json (fun x _ => x) {| ghostty := new_theme "Nord"; theme_id := "id-1" |} = Ok j /\
    generate_editor_scheme (fun x _ => x) {| ghostty := new_theme "Nord"; theme_id := "id-1" |} = Ok scheme /\
    generate_plugin_xml (fun x _ => x) {| ghostty := new_theme "Nord"; theme_id := "id-1" |} = Ok xml /\
    json_member "dark" j = Some (JBool true) /\
    assoc "parent_scheme" (attrib_of scheme) = Some "Darcula" /\
    occurs ("<bundledColorScheme path=" ++ dq ++ "/Nord.xml" ++ dq ++ "/>") xml.
Proof.
  assert (Hwf : well_formed (new_theme "Nord")).
  { repeat (split; [reflexivity|]). intros k c H. cbn [palette new_theme] in H.
    rewrite lookup_empty in H. discriminate. }
  destruct (generate_theme_json_succeeds (fun x _ => x)
              {| ghostty := new_theme "Nord"; theme_id := "id-1" |} Hwf) as [j Hj].
  destruct (generate_editor_scheme_succeeds (fun x _ => x)
              {| ghostty := new_theme "Nord"; theme_id := "id-1" |} Hwf) as [scheme Hs].
  destruct (generate_plugin_xml_succeeds (fun x _ => x)
              {| ghostty := new_theme "Nord"; theme_id := "id-1" |} eq_refl) as [xml Hx].
  exists j, scheme, xml. split; [exact Hj|]. split; [exact Hs|]. split; [exact Hx|].
  destruct (documents_agree _ _ j scheme xml Hj Hs Hx)
    as (dark & Hd & H1 & H2 & _ & _ & _ & H3 & _).
  assert (E : dark = true) by (vm_compute in Hd; congruence). subst dark.
  split; [exact H1|]. split; [exact H2 | exact H3].
Defined.

End AgreeCover.

(** ** Theme files that convert *)

Module ConvertCover.

Import Spec SpecGen SpecParser SpecDocs ParserFacts ParserCover GeneratorFacts AgreeCover.
Import ColorDerivator GhosttyParser PhpStormThemeGenerator.

(** A line that sets a colour keeps the colours of the theme
    well-formed. *)
Lemma parse_line_well_formed t line t' :
  well_formed t -> sets_a_color line = true -> parse_line t line = Ok t' -> well_formed t'.
Proof.
  intros (Hbg & Hfg & Hcc & Hsb & Hsf & Hp) Hl. rewrite parse_line_spec.
  intros H. inversion H as [Ht']. clear H Ht'.
  unfold sets_a_color, field_of in Hl.
  destruct (line_key line) as [lk|]; [|repeat split; assumption].
  destruct (String.eqb lk "palette").
  { destruct (line_slot line) as [[k c]|]; [|repeat split; assumption].
    repeat (split; [assumption|]).
    intros k' c' H. cbn [palette set_palette] in H.
    apply lookup_insert_Some in H as [[_ <-] | [_ H]]; [exact Hl | exact (Hp k' c' H)]. }
  destruct (String.eqb lk "background") eqn:K1.
  { apply String.eqb_eq in K1. subst lk. simpl in Hl. repeat split; assumption. }
  destruct (String.eqb lk "foreground") eqn:K2.
  { apply String.eqb_eq in K2. subst lk. simpl in Hl. repeat split; assumption. }
  destruct (String.eqb lk "cursor-color") eqn:K3.
  { apply String.eqb_eq in K3. subst lk. simpl in Hl. repeat split; assumption. }
  destruct (String.eqb lk "cursor-text") eqn:K4.
  { repeat split; assumption. }
  destruct (String.eqb lk "selection-background") eqn:K5.
  { apply String.eqb_eq in K5. subst lk. simpl in Hl. repeat split; assumption. }
  destruct (String.eqb lk "selection-foreground") eqn:K6.
  { apply String.eqb_eq in K6. subst lk. simpl in Hl. repeat split; assumption. }
  repeat split; assumption.
Qed.

Lemma parse_lines_well_formed lines : forall t t',
  well_formed t -> forallb sets_a_color lines = true ->
  parse_lines t lines = Ok t' -> well_formed t'.
Proof.
  induction lines as [|l ls IH]; intros t t' Hwf Hall H.
  - inversion H. subst. exact Hwf.
  - simpl in Hall. apply andb_prop in Hall as [Hl Hls].
    cbn [parse_lines] in H. apply bind_Ok in H as (t1 & H1 & H2).
    apply (IH t1 t'); [|exact Hls | exact H2].
    apply (parse_line_well_formed t l t1 Hwf Hl H1).
Qed.

(** X17.  A theme file in which every line that sets a colour writes it
    as [#] and six hexadecimal digits, and whose name holds only
    characters that the XML parser accepts, is converted: it parses to a
    theme with well-formed colours, and the theme JSON, the editor
    scheme XML and the plugin descriptor are produced.  The cursor text
    colour, which no document reads, may be anything. *)
Theorem files_with_colors_convert pow ls xb pretty file_name text id :
  forallb sets_a_color (file_lines text) = true ->
  xml_text ls xb file_name = true ->
  exists t,
    parse_theme_file file_name text = Ok t /\ well_formed t /\
    succeeds (generate_theme_json pow {| ghostty := t; theme_id := id |}) /\
    succeeds (generate_editor_scheme_xml pow {| ghostty := t; theme_id := id |}
                ls xb pretty) /\
    succeeds (generate_plugin_xml pow {| ghostty := t; theme_id := id |}).
Proof.
  intros Hall Hname.
  destruct (parse_lines_succeeds (file_lines text) (new_theme file_name)) as [t Ht].
  assert (Hwf : well_formed t).
  { apply (parse_lines_well_formed (file_lines text) (new_theme file_name) t); [|exact Hall | exact Ht].
    repeat (split; [reflexivity|]). intros k c H. cbn [palette new_theme] in H.
    rewrite lookup_empty in H. discriminate. }
  pose proof (XmlFacts.parse_lines_name _ _ _ Ht) as Hn. cbn [name new_theme] in Hn.
  exists t. split; [exact Ht|]. split; [exact Hwf|]. split; [|split].
  - apply generate_theme_json_succeeds. exact Hwf.
  - apply (XmlFacts.generate_editor_scheme_xml_succeeds pow ls xb pretty
             {| ghostty := t; theme_id := id |} Hwf).
    cbn [ghostty]. rewrite Hn. exact Hname.
  - apply generate_plugin_xml_succeeds. destruct Hwf as [Hbg _]. exact Hbg.
Qed.

Lemma files_with_colors_convert_witness :
  exists t,
    parse_theme_file "demo"
      (String.concat (String "010" "")
         ["# Nord"; "background = #2E3440"; "foreground = #d8dee9"; "cursor-text = none";
          "palette = 0=#3b4252"; "palette = 4=#81A1C1"; "font-size = 12"]) = Ok t /\
    well_formed t /\
    succeeds (generate_theme_json (fun x _ => x) {| ghostty := t; theme_id := "id" |}) /\
    succeeds (generate_editor_scheme_xml (fun x _ => x) {| ghostty := t; theme_id := "id" |}
                (fun _ => false) (fun _ => true) (fun _ => "")) /\
    succeeds (generate_plugin_xml (fun x _ => x) {| ghostty := t; theme_id := "id" |}).
Proof.
  apply files_with_colors_convert; vm_compute; reflexivity.
Defined.




End ConvertCover.
